(** * excel2json: the extraction engine of [src/excel2json.py]

    A shallow embedding of the spreadsheet-to-document pipeline and the
    properties its specification states about it.

    Conventions of the embedding.
    - Python [str] values are Rocq strings; a character is one of the code
      points U+0000..U+00FF, and [isspace], [isdigit_char] follow Python's
      [str.isspace] / [str.isdigit] on that range.
    - Python [int] is [Z].
    - A function that can raise returns a [result]; code that also touches
      the file system runs in the state-and-exception monad [M] over a
      [World]; an exception leaves the effects done so far in place.
    - [openpyxl], [shutil], [os.path] and [datetime.strptime] are library
      code: they are modelled by what their documentation says, next to the
      functions of the program that call them. *)

From Stdlib Require Import ZArith String Ascii DecimalString DecimalZ Lia.
From stdpp Require Import gmap strings list sorting.

Open Scope string_scope.
Open Scope list_scope.
Open Scope Z_scope.

(* ===================================================================== *)
(** * Exceptions *)
(* ===================================================================== *)

Inductive exn :=
| ValueError | KeyError | SameFileError | FileNotFoundError | DecodeError.

Inductive result (A : Type) :=
| Ok (a : A)
| Raise (e : exn).
Arguments Ok {A} a.
Arguments Raise {A} e.

Definition bind {A B} (m : result A) (k : A -> result B) : result B :=
  match m with Ok a => k a | Raise e => Raise e end.

Notation "'let*' x := m 'in' k" := (bind m (fun x => k))
  (at level 10, x name, m at level 100, k at level 200).
Notation "'let*' ' p := m 'in' k" :=
  (bind m (fun x => match x with p => k end))
  (at level 10, p strict pattern, m at level 100, k at level 200).

(** [for x in xs: acc = body(acc, x)], stopping at the first exception. *)
Fixpoint for_each {A S} (body : S -> A -> result S) (xs : list A) (acc : S)
  : result S :=
  match xs with
  | [] => Ok acc
  | x :: rest => let* acc' := body acc x in for_each body rest acc'
  end.

(** [range(a, b)] *)
Definition range (a b : Z) : list Z := seqZ a (b - a).

(* ===================================================================== *)
(** * Text *)
(* ===================================================================== *)

Definition code (c : ascii) : Z := Z.of_N (N_of_ascii c).

(** [str.isspace] of one character (U+0009..000D, U+001C..0020, U+0085,
    U+00A0). *)
Definition isspace (c : ascii) : bool :=
  let n := code c in
  ((9 <=? n) && (n <=? 13)) || ((28 <=? n) && (n <=? 32))
  || (n =? 133) || (n =? 160).

(** The characters ['0'..'9']. *)
Definition is_decimal (c : ascii) : bool :=
  let n := code c in (48 <=? n) && (n <=? 57).

(** [str.isdigit] of one character: the decimal digits and the superscript
    digits U+00B2, U+00B3, U+00B9. *)
Definition isdigit_char (c : ascii) : bool :=
  let n := code c in
  is_decimal c || (n =? 178) || (n =? 179) || (n =? 185).

Fixpoint all_chars (p : ascii -> bool) (s : string) : bool :=
  match s with
  | "" => true
  | String c t => p c && all_chars p t
  end.

Definition nonempty (s : string) : bool :=
  match s with "" => false | _ => true end.

(** [s.isdigit()]: at least one character, and all of them digits. *)
Definition isdigit (s : string) : bool := nonempty s && all_chars isdigit_char s.

Fixpoint lstrip (s : string) : string :=
  match s with
  | "" => ""
  | String c t => if isspace c then lstrip t else s
  end.

Fixpoint rstrip (s : string) : string :=
  match s with
  | "" => ""
  | String c t =>
      let t' := rstrip t in
      if isspace c && negb (nonempty t') then "" else String c t'
  end.

(** [s.strip()] *)
Definition strip (s : string) : string := rstrip (lstrip s).

(** [s.split(sep)] for a one-character separator: never the empty list. *)
Fixpoint split (sep : ascii) (s : string) : list string :=
  match s with
  | "" => [""]
  | String c t =>
      if Ascii.eqb c sep then "" :: split sep t
      else match split sep t with
           | h :: r => String c h :: r
           | [] => [String c ""]
           end
  end.

(** [sep.join(parts)] *)
Fixpoint join (sep : string) (parts : list string) : string :=
  match parts with
  | [] => ""
  | [x] => x
  | x :: rest => x +:+ sep +:+ join sep rest
  end.

(** [needle in hay] *)
Fixpoint contains (needle hay : string) : bool :=
  String.prefix needle hay
  || match hay with
     | "" => false
     | String _ t => contains needle t
     end.

(** [str(n)] for an [int]. *)
Definition str_int (n : Z) : string := NilZero.string_of_int (Z.to_int n).

Definition nl : ascii := "010"%char.
Definition dot : ascii := "."%char.
Definition slash : ascii := "/"%char.

(* ===================================================================== *)
(** * The grid (openpyxl) *)
(* ===================================================================== *)

(** What a cell read with [data_only=True] can hold.  A float and a date
    are kept by the observations the program makes of them: the truth
    value and [str()] of a float (or of any other value that is neither an
    [int] nor a [str] and has no [isoformat], such as a duration), [str()]
    and [isoformat()] of a date, time or datetime. *)
Inductive cell_value :=
| VNone
| VBool (b : bool)
| VInt (n : Z)
| VFloat (nonzero : bool) (text : string)
| VStr (s : string)
| VDate (text iso : string).

(** [bool(v)], the test of [if v:] *)
Definition truthy (v : cell_value) : bool :=
  match v with
  | VNone => false
  | VBool b => b
  | VInt n => negb (n =? 0)
  | VFloat nz _ => nz
  | VStr s => nonempty s
  | VDate _ _ => true
  end.

(** [str(v)] *)
Definition str (v : cell_value) : string :=
  match v with
  | VNone => "None"
  | VBool true => "True"
  | VBool false => "False"
  | VInt n => str_int n
  | VFloat _ t => t
  | VStr s => s
  | VDate t _ => t
  end.

(** [v.isoformat() if hasattr(v, 'isoformat')] *)
Definition isoformat_of (v : cell_value) : option string :=
  match v with VDate _ iso => Some iso | _ => None end.

(** An embedded drawing: [anchor._from] as (col, row), both zero-based,
    when the drawing has one, and the PNG that PIL produces from its data,
    [None] when reading or decoding the data raises. *)
Record Drawing := {
  anchor_from : option (Z * Z);
  png : option (list Byte.byte)
}.

Record Worksheet := {
  title : string;
  _cells : gmap (Z * Z) cell_value;   (* keyed by (row, column) *)
  _images : list Drawing
}.

(** [ws.max_row], [ws.max_column]: the largest index among the cells of the
    sheet, 1 for a sheet without cells. *)
Definition max_row (ws : Worksheet) : Z :=
  foldr Z.max 1 ((fun kv => fst (fst kv)) <$> map_to_list (_cells ws)).

Definition max_column (ws : Worksheet) : Z :=
  foldr Z.max 1 ((fun kv => snd (fst kv)) <$> map_to_list (_cells ws)).

(** [ws.cell(row=r, column=c).value].  Indices below 1 raise.  (openpyxl
    also materialises, with the value [None], a cell that the sheet does
    not have yet.  The cells this program adds that way hold no value:
    they make no row a question row, and a signature scan that starts
    below row 1 without them still does with them, so the sheet is kept as
    it was loaded.) *)
Definition cell (ws : Worksheet) (r c : Z) : result cell_value :=
  if (r <? 1) || (c <? 1) then Raise ValueError
  else Ok (default VNone (_cells ws !! (r, c))).

(** A workbook of worksheets, the first one apart.  A chart sheet, which
    has no cells and no drawings for this program to read (it has no
    [max_row] and no [_images]), is not among them: what is stated of a
    workbook is stated of one whose sheets are worksheets. *)
Record Workbook := {
  first_sheet : Worksheet;
  other_sheets : list Worksheet
}.

Definition worksheets (wb : Workbook) : list Worksheet :=
  first_sheet wb :: other_sheets wb.

(** [wb.sheetnames] *)
Definition sheetnames (wb : Workbook) : list string := title <$> worksheets wb.

(** [wb[name]] *)
Definition getitem (wb : Workbook) (name : string) : result Worksheet :=
  match List.find (fun ws => String.eqb (title ws) name) (worksheets wb) with
  | Some ws => Ok ws
  | None => Raise KeyError
  end.

(** [workbook[workbook.sheetnames[0]]] *)
Definition sheet0 (wb : Workbook) : result Worksheet :=
  match sheetnames wb with
  | name :: _ => getitem wb name
  | [] => Raise KeyError
  end.

(* ===================================================================== *)
(** * Template classifier *)
(* ===================================================================== *)

Inductive template := CEA | EQ | starteam.

(** One row of the sample: the [str()] of the truthy cells of columns
    [1 .. min(15, max_column + 1) - 1], joined by blanks. *)
Definition sample_row (sheet : Worksheet) (r : Z) : result string :=
  let* row_data :=
    for_each
      (fun row_data c =>
         let* cell_value := cell sheet r c in
         Ok (if truthy cell_value then row_data ++ [str cell_value]
             else row_data))
      (range 1 (Z.min 15 (max_column sheet + 1))) [] in
  Ok (join " " (List.filter nonempty row_data)).

Definition sample_text (sheet : Worksheet) : result string :=
  let* sample_data :=
    for_each
      (fun sample_data r =>
         let* line := sample_row sheet r in
         Ok (sample_data ++ [line]))
      (range 1 (Z.min 20 (max_row sheet + 1))) [] in
  Ok (join " " sample_data).

Definition identify_template_type (workbook : Workbook)
  : result (option template) :=
  let sheet_names := sheetnames workbook in
  let* sheet := sheet0 workbook in
  let* sample_text := sample_text sheet in
  let name0 := title (first_sheet workbook) in
  if contains "CEA" sample_text
     && contains "Customer Engineering Approval" sample_text
     && String.eqb name0 "CEA"
  then Ok (Some CEA)
  else if contains "Engineering Questionnaire" sample_text
          || contains "EQ" sample_text
  then
    if contains "STG Proposal" sample_text
       && contains "Customer Decision" sample_text
    then Ok (Some starteam)
    else Ok (Some EQ)
  else if String.eqb name0 "CEA" && (max_column sheet <=? 6)
  then Ok (Some CEA)
  else if String.eqb name0 "EQ Template"
  then if 10 <=? max_column sheet then Ok (Some starteam) else Ok (Some EQ)
  else Ok None.

(* ===================================================================== *)
(** * Metadata extractor *)
(* ===================================================================== *)

(** The [metadata] dictionary of [extract_metadata]; its keys are fixed, so
    it is a record, and an assignment [metadata[k] = v] is [set_k v]. *)
Record Metadata := {
  customerName : string;
  engineerName : option string;
  customerPN : list string;
  factoryPN : list string;
  stgPN : list string;
  baseMaterial : option string;
  solderMask : option string;
  viaPluggingType : option string;
  panelSize : option string;
  status : option string;
  stgSignatureDate : option string;
  stgSignatures : list string;
  customerSignatureDate : option string;
  customerSignatures : list string;
  createdAt : option string
}.

Definition set_customerName (v : string) (md : Metadata) : Metadata :=
  {| customerName := v; engineerName := engineerName md;
     customerPN := customerPN md; factoryPN := factoryPN md;
     stgPN := stgPN md; baseMaterial := baseMaterial md;
     solderMask := solderMask md; viaPluggingType := viaPluggingType md;
     panelSize := panelSize md; status := status md;
     stgSignatureDate := stgSignatureDate md;
     stgSignatures := stgSignatures md;
     customerSignatureDate := customerSignatureDate md;
     customerSignatures := customerSignatures md;
     createdAt := createdAt md |}.

Definition set_engineerName (v : option string) (md : Metadata) : Metadata :=
  {| customerName := customerName md; engineerName := v;
     customerPN := customerPN md; factoryPN := factoryPN md;
     stgPN := stgPN md; baseMaterial := baseMaterial md;
     solderMask := solderMask md; viaPluggingType := viaPluggingType md;
     panelSize := panelSize md; status := status md;
     stgSignatureDate := stgSignatureDate md;
     stgSignatures := stgSignatures md;
     customerSignatureDate := customerSignatureDate md;
     customerSignatures := customerSignatures md;
     createdAt := createdAt md |}.

Definition set_customerPN (v : list string) (md : Metadata) : Metadata :=
  {| customerName := customerName md; engineerName := engineerName md;
     customerPN := v; factoryPN := factoryPN md; stgPN := stgPN md;
     baseMaterial := baseMaterial md; solderMask := solderMask md;
     viaPluggingType := viaPluggingType md; panelSize := panelSize md;
     status := status md; stgSignatureDate := stgSignatureDate md;
     stgSignatures := stgSignatures md;
     customerSignatureDate := customerSignatureDate md;
     customerSignatures := customerSignatures md;
     createdAt := createdAt md |}.

Definition set_factoryPN (v : list string) (md : Metadata) : Metadata :=
  {| customerName := customerName md; engineerName := engineerName md;
     customerPN := customerPN md; factoryPN := v; stgPN := stgPN md;
     baseMaterial := baseMaterial md; solderMask := solderMask md;
     viaPluggingType := viaPluggingType md; panelSize := panelSize md;
     status := status md; stgSignatureDate := stgSignatureDate md;
     stgSignatures := stgSignatures md;
     customerSignatureDate := customerSignatureDate md;
     customerSignatures := customerSignatures md;
     createdAt := createdAt md |}.

Definition set_stgPN (v : list string) (md : Metadata) : Metadata :=
  {| customerName := customerName md; engineerName := engineerName md;
     customerPN := customerPN md; factoryPN := factoryPN md; stgPN := v;
     baseMaterial := baseMaterial md; solderMask := solderMask md;
     viaPluggingType := viaPluggingType md; panelSize := panelSize md;
     status := status md; stgSignatureDate := stgSignatureDate md;
     stgSignatures := stgSignatures md;
     customerSignatureDate := customerSignatureDate md;
     customerSignatures := customerSignatures md;
     createdAt := createdAt md |}.

Definition set_baseMaterial (v : option string) (md : Metadata) : Metadata :=
  {| customerName := customerName md; engineerName := engineerName md;
     customerPN := customerPN md; factoryPN := factoryPN md;
     stgPN := stgPN md; baseMaterial := v; solderMask := solderMask md;
     viaPluggingType := viaPluggingType md; panelSize := panelSize md;
     status := status md; stgSignatureDate := stgSignatureDate md;
     stgSignatures := stgSignatures md;
     customerSignatureDate := customerSignatureDate md;
     customerSignatures := customerSignatures md;
     createdAt := createdAt md |}.

Definition set_solderMask (v : option string) (md : Metadata) : Metadata :=
  {| customerName := customerName md; engineerName := engineerName md;
     customerPN := customerPN md; factoryPN := factoryPN md;
     stgPN := stgPN md; baseMaterial := baseMaterial md; solderMask := v;
     viaPluggingType := viaPluggingType md; panelSize := panelSize md;
     status := status md; stgSignatureDate := stgSignatureDate md;
     stgSignatures := stgSignatures md;
     customerSignatureDate := customerSignatureDate md;
     customerSignatures := customerSignatures md;
     createdAt := createdAt md |}.

Definition set_viaPluggingType (v : option string) (md : Metadata)
  : Metadata :=
  {| customerName := customerName md; engineerName := engineerName md;
     customerPN := customerPN md; factoryPN := factoryPN md;
     stgPN := stgPN md; baseMaterial := baseMaterial md;
     solderMask := solderMask md; viaPluggingType := v;
     panelSize := panelSize md; status := status md;
     stgSignatureDate := stgSignatureDate md;
     stgSignatures := stgSignatures md;
     customerSignatureDate := customerSignatureDate md;
     customerSignatures := customerSignatures md;
     createdAt := createdAt md |}.

Definition set_panelSize (v : option string) (md : Metadata) : Metadata :=
  {| customerName := customerName md; engineerName := engineerName md;
     customerPN := customerPN md; factoryPN := factoryPN md;
     stgPN := stgPN md; baseMaterial := baseMaterial md;
     solderMask := solderMask md; viaPluggingType := viaPluggingType md;
     panelSize := v; status := status md;
     stgSignatureDate := stgSignatureDate md;
     stgSignatures := stgSignatures md;
     customerSignatureDate := customerSignatureDate md;
     customerSignatures := customerSignatures md;
     createdAt := createdAt md |}.

Definition set_stgSignatureDate (v : option string) (md : Metadata)
  : Metadata :=
  {| customerName := customerName md; engineerName := engineerName md;
     customerPN := customerPN md; factoryPN := factoryPN md;
     stgPN := stgPN md; baseMaterial := baseMaterial md;
     solderMask := solderMask md; viaPluggingType := viaPluggingType md;
     panelSize := panelSize md; status := status md; stgSignatureDate := v;
     stgSignatures := stgSignatures md;
     customerSignatureDate := customerSignatureDate md;
     customerSignatures := customerSignatures md;
     createdAt := createdAt md |}.

Definition set_stgSignatures (v : list string) (md : Metadata) : Metadata :=
  {| customerName := customerName md; engineerName := engineerName md;
     customerPN := customerPN md; factoryPN := factoryPN md;
     stgPN := stgPN md; baseMaterial := baseMaterial md;
     solderMask := solderMask md; viaPluggingType := viaPluggingType md;
     panelSize := panelSize md; status := status md;
     stgSignatureDate := stgSignatureDate md; stgSignatures := v;
     customerSignatureDate := customerSignatureDate md;
     customerSignatures := customerSignatures md;
     createdAt := createdAt md |}.

Definition set_customerSignatureDate (v : option string) (md : Metadata)
  : Metadata :=
  {| customerName := customerName md; engineerName := engineerName md;
     customerPN := customerPN md; factoryPN := factoryPN md;
     stgPN := stgPN md; baseMaterial := baseMaterial md;
     solderMask := solderMask md; viaPluggingType := viaPluggingType md;
     panelSize := panelSize md; status := status md;
     stgSignatureDate := stgSignatureDate md;
     stgSignatures := stgSignatures md; customerSignatureDate := v;
     customerSignatures := customerSignatures md;
     createdAt := createdAt md |}.

Definition set_customerSignatures (v : list string) (md : Metadata)
  : Metadata :=
  {| customerName := customerName md; engineerName := engineerName md;
     customerPN := customerPN md; factoryPN := factoryPN md;
     stgPN := stgPN md; baseMaterial := baseMaterial md;
     solderMask := solderMask md; viaPluggingType := viaPluggingType md;
     panelSize := panelSize md; status := status md;
     stgSignatureDate := stgSignatureDate md;
     stgSignatures := stgSignatures md;
     customerSignatureDate := customerSignatureDate md;
     customerSignatures := v; createdAt := createdAt md |}.

Definition set_createdAt (v : option string) (md : Metadata) : Metadata :=
  {| customerName := customerName md; engineerName := engineerName md;
     customerPN := customerPN md; factoryPN := factoryPN md;
     stgPN := stgPN md; baseMaterial := baseMaterial md;
     solderMask := solderMask md; viaPluggingType := viaPluggingType md;
     panelSize := panelSize md; status := status md;
     stgSignatureDate := stgSignatureDate md;
     stgSignatures := stgSignatures md;
     customerSignatureDate := customerSignatureDate md;
     customerSignatures := customerSignatures md; createdAt := v |}.

Definition initial_metadata : Metadata :=
  {| customerName := ""; engineerName := None; customerPN := [];
     factoryPN := []; stgPN := []; baseMaterial := None; solderMask := None;
     viaPluggingType := None; panelSize := None; status := None;
     stgSignatureDate := None; stgSignatures := [];
     customerSignatureDate := None; customerSignatures := [];
     createdAt := None |}.

(** [[pn.strip() for pn in pn_value.split('\n') if pn.strip()]] *)
Definition split_pn (pn_value : string) : list string :=
  strip <$> List.filter (fun pn => nonempty (strip pn)) (split nl pn_value).

(** ** [datetime.strptime(s, "%d.%m.%Y")] and [isoformat]

    The format compiles to the regular expression
    [(3[0-1]|[1-2]\d|0[1-9]|[1-9]| [1-9])\.(1[0-2]|0[1-9]|[1-9])\.(\d\d\d\d)],
    which has to match the whole string; the three numbers then have to
    form a date of the calendar (year 1 at least).  Each group is followed
    by a dot or by the end, so the string is its three dot-separated
    fields. *)

Record date := { year : Z; month : Z; day : Z }.

Definition digit_val (c : ascii) : option Z :=
  if is_decimal c then Some (code c - 48) else None.

Definition directive_d (field : string) : option Z :=
  match field with
  | String a "" =>
      match digit_val a with
      | Some x => if 1 <=? x then Some x else None
      | None => None
      end
  | String a (String b "") =>
      match digit_val a, digit_val b with
      | Some x, Some y =>
          let v := 10 * x + y in
          if (1 <=? v) && (v <=? 31) then Some v else None
      | None, Some y =>
          if Ascii.eqb a " " && (1 <=? y) then Some y else None
      | _, _ => None
      end
  | _ => None
  end.

Definition directive_m (field : string) : option Z :=
  match field with
  | String a "" =>
      match digit_val a with
      | Some x => if 1 <=? x then Some x else None
      | None => None
      end
  | String a (String b "") =>
      match digit_val a, digit_val b with
      | Some x, Some y =>
          let v := 10 * x + y in
          if (1 <=? v) && (v <=? 12) then Some v else None
      | _, _ => None
      end
  | _ => None
  end.

Definition directive_Y (field : string) : option Z :=
  match field with
  | String a (String b (String c (String d ""))) =>
      match digit_val a, digit_val b, digit_val c, digit_val d with
      | Some x, Some y, Some z, Some w => Some (1000 * x + 100 * y + 10 * z + w)
      | _, _, _, _ => None
      end
  | _ => None
  end.

Definition is_leap (y : Z) : bool :=
  ((y mod 4 =? 0) && negb (y mod 100 =? 0)) || (y mod 400 =? 0).

Definition days_in_month (y m : Z) : Z :=
  if m =? 2 then (if is_leap y then 29 else 28)
  else if (m =? 4) || (m =? 6) || (m =? 9) || (m =? 11) then 30
  else 31.

(** [None] stands for the [ValueError] of a string that does not parse. *)
Definition strptime (date_str : string) : option date :=
  match split dot date_str with
  | [fd; fm; fy] =>
      match directive_d fd, directive_m fm, directive_Y fy with
      | Some d, Some m, Some y =>
          if (1 <=? y) && (d <=? days_in_month y m)
          then Some {| year := y; month := m; day := d |}
          else None
      | _, _, _ => None
      end
  | _ => None
  end.

(** The text of a number that is not negative, padded with zeros on the
    left to [width] characters, as [%04d] and [%02d] print it. *)
Definition zfill (width : nat) (s : string) : string :=
  String.concat "" (replicate (width - String.length s) "0") +:+ s.

(** [parsed_date.isoformat()]: the time of a date parsed without one is
    midnight. *)
Definition isoformat (d : date) : string :=
  zfill 4 (str_int (year d)) +:+ "-" +:+ zfill 2 (str_int (month d)) +:+ "-"
  +:+ zfill 2 (str_int (day d)) +:+ "T00:00:00".

(** ** The signature blocks *)

Definition nl_s : string := String nl "".

(** Rows [15 .. min(25, max_row + 1) - 1] of the approval form. *)
Definition cea_signature_row (sheet : Worksheet) (md : Metadata) (row : Z)
  : result Metadata :=
  let* label := cell sheet row 1 in
  let* md :=
    if truthy label && contains "Date" (str label) then
      let* below := cell sheet (row + 1) 1 in
      if truthy below then
        (* try: ... except: pass *)
        match cell sheet (row + 1) 1 with
        | Ok date_value =>
            match isoformat_of date_value with
            | Some iso => Ok (set_customerSignatureDate (Some iso) md)
            | None => Ok md
            end
        | Raise _ => Ok md
        end
      else Ok md
    else Ok md in
  let* label4 := cell sheet row 4 in
  if truthy label4 && contains "Signature" (str label4) then
    let* below4 := cell sheet (row + 1) 4 in
    if truthy below4 then Ok (set_customerSignatures [str below4] md)
    else Ok md
  else Ok md.

(** Rows [max_row - 10 .. max_row - 1] of the plain questionnaire. *)
Definition eq_signature_row (sheet : Worksheet) (md : Metadata) (row : Z)
  : result Metadata :=
  let* label := cell sheet row 1 in
  if truthy label
     && (contains "Date" (str label) || contains "Signature" (str label))
  then
    let* below := cell sheet (row + 1) 1 in
    let* md :=
      if truthy below then
        match cell sheet (row + 1) 1 with
        | Ok date_value =>
            match isoformat_of date_value with
            | Some iso => Ok (set_customerSignatureDate (Some iso) md)
            | None => Ok md
            end
        | Raise _ => Ok md
        end
      else Ok md in
    let* below4 := cell sheet (row + 1) 4 in
    if truthy below4 then Ok (set_customerSignatures [str below4] md)
    else Ok md
  else Ok md.

(** The payload of a signature cell of the extended variant: a date line
    and the signature under it.  [set_date] and [set_signatures] are the
    two keys of the party the cell belongs to. *)
Definition signature_payload
    (set_date : option string -> Metadata -> Metadata)
    (set_signatures : list string -> Metadata -> Metadata)
    (signature_text : string) (md : Metadata) : Metadata :=
  match split nl signature_text with
  | first_line :: ((_ :: _) as rest) =>
      (* len(lines) >= 2 *)
      match strptime (strip first_line) with
      | Some parsed_date =>
          set_signatures [strip (join nl_s rest)]
            (set_date (Some (isoformat parsed_date)) md)
      | None =>
          (* except: the entire text is the signature *)
          set_signatures [signature_text] md
      end
  | _ => set_signatures [signature_text] md
  end.

(** Rows [max_row - 10 .. max_row - 1] of the extended variant. *)
Definition starteam_signature_row (sheet : Worksheet) (md : Metadata) (row : Z)
  : result Metadata :=
  let* cell_value := cell sheet row 4 in
  if truthy cell_value && contains "Signature" (str cell_value) then
    let* stg := cell sheet (row + 1) 4 in
    let md :=
      if truthy stg
      then signature_payload set_stgSignatureDate set_stgSignatures
             (str stg) md
      else md in
    let* customer := cell sheet (row + 1) 5 in
    Ok (if truthy customer
        then signature_payload set_customerSignatureDate
               set_customerSignatures (str customer) md
        else md)
  else Ok md.

Definition extract_metadata (workbook : Workbook) (template_type : template)
  : result Metadata :=
  let metadata := initial_metadata in
  let* sheet := sheet0 workbook in
  let* v := cell sheet 1 3 in
  let metadata :=
    if truthy v then set_customerName (str v) metadata else metadata in
  let* v := cell sheet 1 5 in
  let metadata :=
    if truthy v then set_engineerName (Some (str v)) metadata else metadata in
  let* v := cell sheet 2 3 in
  let metadata :=
    if truthy v then set_customerPN (split_pn (str v)) metadata
    else metadata in
  let* v := cell sheet 2 5 in
  let metadata :=
    if truthy v then set_factoryPN (split_pn (str v)) metadata
    else metadata in
  let* v := cell sheet 3 3 in
  let metadata :=
    if truthy v then set_stgPN (split_pn (str v)) metadata else metadata in
  let* v := cell sheet 3 5 in
  let metadata :=
    if truthy v then
      match isoformat_of v with
      | Some iso => set_createdAt (Some iso) metadata
      | None => metadata
      end
    else metadata in
  let* v := cell sheet 7 3 in
  let metadata :=
    if truthy v then set_baseMaterial (Some (str v)) metadata
    else metadata in
  let* v := cell sheet 7 5 in
  let metadata :=
    if truthy v then set_solderMask (Some (str v)) metadata else metadata in
  match template_type with
  | CEA =>
      for_each (cea_signature_row sheet)
        (range 15 (Z.min 25 (max_row sheet + 1))) metadata
  | EQ =>
      for_each (eq_signature_row sheet)
        (range (max_row sheet - 10) (max_row sheet)) metadata
  | starteam =>
      let* v := cell sheet 8 3 in
      let metadata :=
        if truthy v then set_viaPluggingType (Some (str v)) metadata
        else metadata in
      let* v := cell sheet 8 5 in
      let metadata :=
        if truthy v then set_panelSize (Some (str v)) metadata
        else metadata in
      for_each (starteam_signature_row sheet)
        (range (max_row sheet - 10) (max_row sheet)) metadata
  end.

(* ===================================================================== *)
(** * Question table parser *)
(* ===================================================================== *)

(** [chr(n)] as the code point it returns. *)
Definition chr (n : Z) : result Z :=
  if (0 <=? n) && (n <? 1114112) then Ok n else Raise ValueError.

Definition ord_A : Z := 65.

(** The key [f"{col_letter}{row}"] of the image map, kept as its two
    interpolated parts: the code point of the one-character column letter
    and the row whose decimal text follows it.  One character followed by
    [str(row)] determines both, so two keys are the same text exactly when
    they are the same pair. *)
Definition coord : Type := Z * Z.

Definition cell_coord (col_letter row : Z) : coord := (col_letter, row).

(** The image and original-file objects of the schema.  Their [id] and
    [key] are draws of [uuid4()], which the program never reads back; the
    record keeps the other fields. *)
Record FileRef := {
  ref_createdAt : string;
  name : string;
  type : string;
  uploadUrl : string
}.

Record Question := {
  no : string;
  description : option string;
  suggestion : option string;
  customerResponse : option string;
  descriptionImages : list FileRef;
  suggestionImages : list FileRef;
  customerResponseImages : list FileRef;
  question_createdAt : option string
}.

Definition startswith (c : ascii) (s : string) : bool :=
  match s with String c' _ => Ascii.eqb c' c | "" => false end.

(** The last character, when there is one. *)
Fixpoint last_char (s : string) : option ascii :=
  match s with
  | "" => None
  | String c "" => Some c
  | String _ t => last_char t
  end.

Definition endswith (c : ascii) (s : string) : bool :=
  match last_char s with Some c' => Ascii.eqb c' c | None => false end.

(** [os.path.join(a, b)] *)
Definition path_join (a b : string) : string :=
  if startswith slash b then b
  else if negb (nonempty a) || endswith slash a then a +:+ b
  else a +:+ "/" +:+ b.

(** [worksheet.cell(row, col)] as text, and the images of exactly that
    cell. *)
Definition get_cell_value_with_images
    (worksheet : Worksheet) (row col : Z)
    (cell_to_images : gmap coord (list string))
  : result (string * list string) :=
  let* v := cell worksheet row col in
  let cell_value := match v with VNone => "" | _ => str v end in
  let* col_letter := chr (ord_A + col - 1) in
  let cell_coord := cell_coord col_letter row in
  let images := default [] (cell_to_images !! cell_coord) in
  Ok (cell_value, images).

(** [no_value is not None and (isinstance(no_value, int) or
    (isinstance(no_value, str) and no_value.isdigit()))]; a [bool] is an
    [int] for [isinstance]. *)
Definition is_question_no (no_value : cell_value) : bool :=
  match no_value with
  | VInt _ | VBool _ => true
  | VStr s => isdigit s
  | _ => false
  end.

Section Clock.

(** [datetime.now().isoformat()]: the reading of the clock, the same
    throughout one run of the model. *)
Variable now : string.

Definition create_image_info (filename path : string) : FileRef :=
  {| ref_createdAt := now; name := filename; type := "image/png";
     uploadUrl := path |}.

Definition image_infos (images : list string) : list FileRef :=
  (fun img_filename =>
     create_image_info img_filename (path_join "images" img_filename))
  <$> images.

(** [text.strip() if text and text.strip() else None] *)
Definition text_field (text : string) : option string :=
  if nonempty text && nonempty (strip text) then Some (strip text) else None.

Definition question_columns (template_type : template) : Z * Z * Z * Z :=
  match template_type with
  | CEA => (1, 2, 3, 4)
  | EQ => (1, 2, 3, 4)
  | starteam => (1, 2, 3, 5)
  end.

(** The body of the [while] loop for one [current_row]. *)
Definition question_row
    (sheet : Worksheet) (template_type : template)
    (cell_to_images : gmap coord (list string)) (created_at : option string)
    (questions : list Question) (current_row : Z) : result (list Question) :=
  let '(no_col, desc_col, sugg_col, resp_col) :=
    question_columns template_type in
  let* no_value := cell sheet current_row no_col in
  if is_question_no no_value then
    let* '(desc_text, desc_images) :=
      get_cell_value_with_images sheet current_row desc_col cell_to_images in
    let* '(sugg_text, sugg_images) :=
      get_cell_value_with_images sheet current_row sugg_col cell_to_images in
    let* '(resp_text, resp_images) :=
      get_cell_value_with_images sheet current_row resp_col cell_to_images in
    Ok (questions ++
        [{| no := str no_value;
            description := text_field desc_text;
            suggestion := text_field sugg_text;
            customerResponse := text_field resp_text;
            descriptionImages := image_infos desc_images;
            suggestionImages := image_infos sugg_images;
            customerResponseImages := image_infos resp_images;
            question_createdAt := created_at |}])
  else Ok questions.

Definition start_row (template_type : template) : Z :=
  match template_type with starteam => 10 | _ => 9 end.

(** The rows [start_row + 1 .. max_row], the values [current_row] takes. *)
Definition scanned_rows (sheet : Worksheet) (template_type : template)
  : list Z :=
  range (start_row template_type + 1) (max_row sheet + 1).

Definition extract_questions
    (workbook : Workbook) (template_type : template)
    (cell_to_images : gmap coord (list string)) : result (list Question) :=
  let* sheet := sheet0 workbook in
  let* top := cell sheet 3 5 in
  let created_at := if truthy top then isoformat_of top else None in
  for_each (question_row sheet template_type cell_to_images created_at)
    (scanned_rows sheet template_type) [].

(* ===================================================================== *)
(** * Schema mapper and validator *)
(* ===================================================================== *)

(** The canonical document [eq_data].  Its metadata keys are those of
    [Metadata] (with [status] and [createdAt] filled in), next to the file
    name, the reference to the original file and the questions; [id] is a
    draw of [uuid4()]. *)
Record Document := {
  fields : Metadata;
  fileName : string;
  originalFile : FileRef;
  questions : list Question
}.

(** [x or datetime.now().isoformat()] *)
Definition or_now (x : option string) : string :=
  match x with
  | Some s => if nonempty s then s else now
  | None => now
  end.

Definition map_to_schema
    (metadata : Metadata) (questions : list Question) (file_name : string)
  : Document :=
  let original_file :=
    {| ref_createdAt := now; name := file_name;
       type := "application/vnd.openxmlformats-officedocument.spreadsheetml.sheet";
       uploadUrl := file_name |} in
  {| fields :=
       {| customerName := customerName metadata;
          engineerName := engineerName metadata;
          customerPN := customerPN metadata;
          factoryPN := factoryPN metadata;
          stgPN := stgPN metadata;
          baseMaterial := baseMaterial metadata;
          solderMask := solderMask metadata;
          viaPluggingType := viaPluggingType metadata;
          panelSize := panelSize metadata;
          status := Some "Closed";
          stgSignatureDate := stgSignatureDate metadata;
          stgSignatures := stgSignatures metadata;
          customerSignatureDate := customerSignatureDate metadata;
          customerSignatures := customerSignatures metadata;
          createdAt := Some (or_now (createdAt metadata)) |};
     fileName := file_name;
     originalFile := original_file;
     questions :=
       (fun q =>
          {| no := no q;
             description := description q;
             suggestion := suggestion q;
             customerResponse := customerResponse q;
             descriptionImages := descriptionImages q;
             suggestionImages := suggestionImages q;
             customerResponseImages := customerResponseImages q;
             question_createdAt := Some (or_now (question_createdAt q)) |})
       <$> questions |}.

End Clock.

(** [enumerate(xs)] *)
Definition enumerate {A} (xs : list A) : list (Z * A) :=
  zip (seqZ 0 (Z.of_nat (length xs))) xs.

Definition question_error (errors : list string) (iq : Z * Question)
  : list string :=
  let '(i, question) := iq in
  if negb (nonempty (no question))
  then errors ++ ["Question " +:+ str_int (i + 1)
                  +:+ " missing required field: no"]
  else errors.

Definition validate_extracted_data (eq_data : Document) : bool * list string :=
  let errors := [] in
  let errors :=
    if negb (nonempty (customerName (fields eq_data)))
    then errors ++ ["Missing required field: customerName"] else errors in
  let errors :=
    if negb (nonempty (fileName eq_data))
    then errors ++ ["Missing required field: fileName"] else errors in
  let errors := foldl question_error errors (enumerate (questions eq_data)) in
  (bool_decide (length errors = 0%nat), errors).

(* ===================================================================== *)
(** * The file system *)
(* ===================================================================== *)

(** What a file holds: bytes (a spreadsheet, a saved PNG), the JSON
    serialisation of a document, or the lines of a text file. *)
Inductive content :=
| Bytes (data : list Byte.byte)
| Json (doc : Document)
| Text (lines : list string).

(** Files by path, the paths handed to [os.makedirs] (which makes the
    missing parents with them), and the paths written so far (latest
    first).  Writing to a path and making a directory succeed in every
    world; a copy fails for a missing source, for a copy onto the same
    path, and when the operating system refuses it ([copy_oracle]). *)
Record World := {
  files : gmap string content;
  dirs : gset string;
  written : list string
}.

Definition M (A : Type) : Type := World -> World * result A.

Definition ret {A} (a : A) : M A := fun w => (w, Ok a).

Definition lift {A} (r : result A) : M A := fun w => (w, r).

Definition bindM {A B} (m : M A) (k : A -> M B) : M B :=
  fun w =>
    match m w with
    | (w', Ok a) => k a w'
    | (w', Raise e) => (w', Raise e)
    end.

Notation "'do*' x := m 'in' k" := (bindM m (fun x => k))
  (at level 10, x name, m at level 100, k at level 200).

(** [try: body  except Exception: handler] *)
Definition try_except {A} (body : M A) (handler : exn -> M A) : M A :=
  fun w =>
    match body w with
    | (w', Ok a) => (w', Ok a)
    | (w', Raise e) => handler e w'
    end.

Fixpoint for_eachM {A S} (body : S -> A -> M S) (xs : list A) (acc : S)
  : M S :=
  match xs with
  | [] => ret acc
  | x :: rest => do* acc' := body acc x in for_eachM body rest acc'
  end.

(** [os.makedirs(path, exist_ok=True)] *)
Definition makedirs (path : string) : M unit :=
  fun w =>
    ({| files := files w; dirs := {[path]} ∪ dirs w; written := written w |},
     Ok tt).

(** [open(path, "w")] and the writes that follow, [image.save(path)] *)
Definition write_file (path : string) (c : content) : M unit :=
  fun w =>
    ({| files := <[path := c]> (files w); dirs := dirs w;
        written := path :: written w |},
     Ok tt).

Definition read_file (path : string) : M content :=
  fun w =>
    match files w !! path with
    | Some c => (w, Ok c)
    | None => (w, Raise FileNotFoundError)
    end.

(** What the operating system answers to a copy from one path to another
    in a world: the exception it raises, if any.  It raises
    [SameFileError] when the destination names the file of the source, by
    another spelling of its path or through a link, and
    [FileNotFoundError] when the directory of the destination is
    missing. *)
Definition copy_oracle : Type := World -> string -> string -> option exn.

(** [shutil.copy2(src, dst)]: a missing source and a copy onto the same
    path raise in every world; the other refusals are those of the
    operating system. *)
Definition copy2 (copy_error : copy_oracle) (src dst : string) : M unit :=
  do* c := read_file src in
  if String.eqb src dst then lift (Raise SameFileError)
  else fun w =>
    match copy_error w src dst with
    | Some e => (w, Raise e)
    | None => write_file dst c w
    end.

(** [os.path.basename(p)] *)
Definition basename (p : string) : string := List.last (split slash p) "".

(** [os.path.splitext(name)[0]] for a name without separator: the part
    before the last dot, unless only dots come before it. *)
Definition splitext_root (name : string) : string :=
  let before := join "." (removelast (split dot name)) in
  if all_chars (Ascii.eqb dot) before then name else before.

(* ===================================================================== *)
(** * Image extractor *)
(* ===================================================================== *)

Definition image_filename (image_counter : Z) : string :=
  "image_" +:+ str_int image_counter +:+ ".png".

(** The body of the loop over [sheet._images]; the state is
    [(cell_to_images, image_counter)].  A drawing that is not saved
    leaves the files as they are here; where PIL fails after it has
    opened the output, an older [image_<n>.png] is left cut short, so
    what is stated of the files leaves the image files of the directory
    out. *)
Definition extract_image (images_dir : string)
    (st : gmap coord (list string) * Z) (image : Drawing)
  : M (gmap coord (list string) * Z) :=
  let '(cell_to_images, image_counter) := st in
  match anchor_from image with
  | Some (col, row0) =>
      let row := row0 + 1 in
      do* col_letter := lift (chr (ord_A + col)) in
      let cell_coord := cell_coord col_letter row in
      let image_filename := image_filename image_counter in
      let image_path := path_join images_dir image_filename in
      try_except
        (do* data :=
           lift (match png image with
                 | Some data => Ok data
                 | None => Raise DecodeError
                 end) in
         do* _ := write_file image_path (Bytes data) in
         let cell_to_images :=
           <[cell_coord :=
               default [] (cell_to_images !! cell_coord) ++ [image_filename]]>
             cell_to_images in
         ret (cell_to_images, image_counter + 1))
        (fun _ => ret (cell_to_images, image_counter + 1))
  | None => ret st
  end.

Definition extract_sheet_images (workbook : Workbook) (images_dir : string)
    (st : gmap coord (list string) * Z) (sheet_name : string)
  : M (gmap coord (list string) * Z) :=
  do* sheet := lift (getitem workbook sheet_name) in
  for_eachM (extract_image images_dir) (_images sheet) st.

Definition extract_images (workbook : Workbook) (output_dir : string)
  : M (gmap coord (list string)) :=
  let images_dir := path_join output_dir "images" in
  do* _ := makedirs images_dir in
  do* st :=
    for_eachM (extract_sheet_images workbook images_dir)
      (sheetnames workbook) (∅, 1) in
  ret (fst st).

(* ===================================================================== *)
(** * Outlier handler and the per-file driver *)
(* ===================================================================== *)

Section Pipeline.

Variable now : string.

(** [openpyxl]'s reader: the workbook a file's content parses to, or the
    exception of a file that is no spreadsheet. *)
Variable parse_workbook : content -> result Workbook.

(** The answers of the operating system to the copies of the run. *)
Variable copy_error : copy_oracle.

(** [load_workbook(file_path, data_only=True)] *)
Definition load_workbook (file_path : string) : M Workbook :=
  do* c := read_file file_path in
  lift (parse_workbook c).

Definition outlier_note (file_name file_path : string) : content :=
  Text [ "Outlier File: " +:+ file_name;
         "Original Path: " +:+ file_path;
         "Processed Date: " +:+ now;
         "Reason: Does not match any of the 3 supported templates (CEA, EQ, starteam)" ].

Definition handle_outlier_file (file_path outlier_dir : string) : M bool :=
  try_except
    (let file_name := basename file_path in
     let outlier_file_path := path_join outlier_dir file_name in
     do* _ := copy2 copy_error file_path outlier_file_path in
     let info_file_path :=
       path_join outlier_dir (splitext_root file_name +:+ "_info.txt") in
     do* _ := write_file info_file_path (outlier_note file_name file_path) in
     ret true)
    (fun _ => ret false).

(** The pair returned is [(success, is_outlier)]. *)
Definition process_excel_file (file_path output_dir outlier_dir : string)
  : M (bool * bool) :=
  try_except
    (let file_name := basename file_path in
     do* workbook := load_workbook file_path in
     do* template_type := lift (identify_template_type workbook) in
     match template_type with
     | None =>
         do* success := handle_outlier_file file_path outlier_dir in
         ret (success, true)
     | Some template_type =>
         let file_output_dir :=
           path_join output_dir
             (hd "" (split dot (basename file_path))) in
         do* _ := makedirs (path_join file_output_dir "images") in
         do* metadata := lift (extract_metadata workbook template_type) in
         do* cell_to_images := extract_images workbook file_output_dir in
         do* questions :=
           lift (extract_questions now workbook template_type
                   cell_to_images) in
         let eq_data := map_to_schema now metadata questions file_name in
         let '(is_valid, errors) := validate_extracted_data eq_data in
         if negb is_valid then ret (false, false)
         else
           do* _ := write_file (path_join file_output_dir "index.json")
                      (Json eq_data) in
           let excel_copy_path := path_join file_output_dir "index.xlsx" in
           do* _ := try_except (copy2 copy_error file_path excel_copy_path)
                      (fun _ => ret tt) in
           ret (true, false)
     end)
    (fun _ => ret (false, false)).

End Pipeline.

(* ===================================================================== *)
(** * Notions used to state the properties *)
(* ===================================================================== *)

(** The first character, if there is one, is no blank. *)
Definition stripped_head (s : string) : bool :=
  match s with "" => true | String c _ => negb (isspace c) end.

(** No blank at either end. *)
Definition no_blank_ends (s : string) : Prop :=
  stripped_head s = true
  /\ forall c, last_char s = Some c -> isspace c = false.

(** A string with a character that is no blank. *)
Definition has_text (s : string) : bool := negb (all_chars isspace s).

(** [c] does not occur in [s]. *)
Definition no_char (c : ascii) (s : string) : bool :=
  all_chars (fun x => negb (Ascii.eqb x c)) s.

(** What every element of an extracted part-number list satisfies. *)
Definition pn_element (x : string) : Prop :=
  nonempty x = true /\ strip x = x /\ no_char nl x = true.

(** The value held at (row, column) of a sheet, [None] where the sheet has
    no cell. *)
Definition value_at (ws : Worksheet) (r c : Z) : cell_value :=
  default VNone (_cells ws !! (r, c)).

(** [str(v) if v is not None else ""] *)
Definition cell_text (v : cell_value) : string :=
  match v with VNone => "" | _ => str v end.

(** The names the image map holds for the cell (row, column). *)
Definition images_at (cell_to_images : gmap coord (list string)) (r c : Z)
  : list string :=
  default [] (cell_to_images !! cell_coord (ord_A + c - 1) r).

(** The top date of the first sheet, as the questions inherit it. *)
Definition top_date (sheet : Worksheet) : option string :=
  let top := value_at sheet 3 5 in
  if truthy top then isoformat_of top else None.

(** The question that a question row [r] gives. *)
Definition question_of_row (now : string)
    (sheet : Worksheet) (template_type : template)
    (cell_to_images : gmap coord (list string)) (r : Z) : Question :=
  let '(no_col, desc_col, sugg_col, resp_col) :=
    question_columns template_type in
  {| no := str (value_at sheet r no_col);
     description := text_field (cell_text (value_at sheet r desc_col));
     suggestion := text_field (cell_text (value_at sheet r sugg_col));
     customerResponse := text_field (cell_text (value_at sheet r resp_col));
     descriptionImages := image_infos now (images_at cell_to_images r desc_col);
     suggestionImages := image_infos now (images_at cell_to_images r sugg_col);
     customerResponseImages :=
       image_infos now (images_at cell_to_images r resp_col);
     question_createdAt := top_date sheet |}.

(** The rows of the scan that are question rows. *)
Definition question_rows (sheet : Worksheet) (template_type : template)
  : list Z :=
  List.filter (fun r => is_question_no (value_at sheet r 1))
    (scanned_rows sheet template_type).

(** The cell holds an integer, or a string that is not empty and made of
    digits only. *)
Definition holds_number (v : cell_value) : bool :=
  match v with
  | VInt _ => true
  | VStr s => isdigit s
  | _ => false
  end.

Definition is_bool_cell (v : cell_value) : bool :=
  match v with VBool _ => true | _ => false end.

(** An optional text field that, when present, is not empty, has no blank
    at either end, and is not made of blanks. *)
Definition clean_text (field : option string) : Prop :=
  match field with
  | None => True
  | Some s =>
      s <> "" /\ strip s = s /\ no_blank_ends s /\ has_text s = true
  end.

(** The list a part-number cell extracts to. *)
Definition pn_list (v : cell_value) : list string :=
  if truthy v then split_pn (str v) else [].

(** The six marker texts the classifier looks for in the sample. *)
Definition keyword_markers : list string :=
  [ "CEA"; "Customer Engineering Approval"; "Engineering Questionnaire";
    "EQ"; "STG Proposal"; "Customer Decision" ].

Definition no_keyword_markers (sample : string) : bool :=
  forallb (fun k => negb (contains k sample)) keyword_markers.

(** The messages of the validator, in the order it reports them. *)
Definition expected_errors (customer_name file_name : string)
    (numbers : list string) : list string :=
  (if nonempty customer_name then []
   else ["Missing required field: customerName"])
  ++ (if nonempty file_name then []
      else ["Missing required field: fileName"])
  ++ omap (fun '(i, number) =>
             if nonempty number then None
             else Some ("Question " +:+ str_int (i + 1)
                        +:+ " missing required field: no"))
       (enumerate numbers).

(** The claim that every question row holds an integer or a digit string
    and that every question's [no] is a digit string, for one run of the
    parser: the questions are, in order, those of the scanned rows whose
    number cell holds an integer or a digit string, and each [no] is a
    non-empty string of digits. *)
Definition numbers_are_digit_strings (now : string) (workbook : Workbook)
    (template_type : template) (cell_to_images : gmap coord (list string))
  : Prop :=
  let sheet := first_sheet workbook in
  exists questions,
    extract_questions now workbook template_type cell_to_images = Ok questions
    /\ Forall2 (fun r question => no question = str (value_at sheet r 1))
         (List.filter (fun r => holds_number (value_at sheet r 1))
            (scanned_rows sheet template_type))
         questions
    /\ Forall (fun question => isdigit (no question) = true) questions.

(** ** Example sheets *)

Definition sheet_of (name : string) (cells : list (Z * Z * cell_value))
    (images : list Drawing) : Workbook :=
  {| first_sheet :=
       {| title := name; _cells := list_to_map cells; _images := images |};
     other_sheets := [] |}.

(** An approval form whose row 11 is numbered -5. *)
Definition negative_number_workbook : Workbook :=
  sheet_of "CEA" [ ((1, 3), VStr "ACME"); ((11, 1), VInt (-5)) ] [].

(** An approval form whose row 11 holds the boolean TRUE in the number
    column. *)
Definition boolean_number_workbook : Workbook :=
  sheet_of "CEA" [ ((1, 3), VStr "ACME"); ((11, 1), VBool true) ] [].

(** A questionnaire with a question in row 11 and a separator row. *)
Definition small_workbook : Workbook :=
  sheet_of "CEA"
    [ ((1, 3), VStr "ACME");
      ((2, 3), VStr (" A-1 " +:+ nl_s +:+ nl_s +:+ "B-2"));
      ((11, 1), VInt 1); ((11, 2), VStr "  hole too small ");
      ((11, 3), VStr "   "); ((12, 1), VStr "note");
      ((13, 1), VStr "2"); ((13, 4), VStr "ok") ]
    [].

(** The three part-number lists of a metadata record. *)
Definition part_numbers (md : Metadata)
  : list string * list string * list string :=
  (customerPN md, factoryPN md, stgPN md).

Definition small_metadata : Metadata :=
  Eval vm_compute in
    match extract_metadata small_workbook CEA with
    | Ok md => md
    | Raise _ => initial_metadata
    end.

(** An approval form without any of the marker texts. *)
Definition plain_cea_workbook : Workbook :=
  sheet_of "CEA"
    [ ((1, 1), VStr "Customer"); ((1, 3), VStr "ACME");
      ((2, 6), VInt 7) ]
    [].

(** The first line of a signature cell. *)
Definition first_line (text : string) : string := hd "" (split nl text).

Definition dated_signature : string := "15.03.2024" +:+ nl_s +:+ "John Doe".

Definition undated_signature : string :=
  "not-a-date" +:+ nl_s +:+ "John Doe".

(** A sheet of the extended variant whose signature block is in rows 20
    and 21: the two payloads under the label of column 4. *)
Definition signature_workbook : Workbook :=
  sheet_of "EQ Template"
    [ ((1, 3), VStr "ACME"); ((20, 4), VStr "STG Signature");
      ((20, 5), VStr "Customer Signature");
      ((21, 4), VStr dated_signature); ((21, 5), VStr undated_signature) ]
    [].

Definition signature_metadata : Metadata :=
  Eval vm_compute in
    match extract_metadata signature_workbook starteam with
    | Ok md => md
    | Raise _ => initial_metadata
    end.

(** ** The images of a workbook *)

(** The list the image map holds for a coordinate, empty for a coordinate
    it does not have. *)
Definition lookup_names (m : gmap coord (list string)) (c : coord)
  : list string :=
  default [] (m !! c).

(** The drawings the extractor visits, sheet name by sheet name. *)
Definition drawings_of (workbook : Workbook) (sheet_name : string)
  : list Drawing :=
  match getitem workbook sheet_name with
  | Ok sheet => _images sheet
  | Raise _ => []
  end.

Definition visited_drawings (workbook : Workbook) : list Drawing :=
  concat (drawings_of workbook <$> sheetnames workbook).

(** The drawings that have an anchor, each with the value the counter has
    when the extractor reaches it, from [k] on. *)
Fixpoint numbered (k : Z) (drawings : list Drawing) : list (Z * Drawing) :=
  match drawings with
  | [] => []
  | d :: rest =>
      match anchor_from d with
      | Some _ => (k, d) :: numbered (k + 1) rest
      | None => numbered k rest
      end
  end.

(** The cell a drawing is anchored at, as a key of the image map. *)
Definition coord_of (d : Drawing) : option coord :=
  match anchor_from d with
  | Some (col, row0) => Some (cell_coord (ord_A + col) (row0 + 1))
  | None => None
  end.

Definition decodes (d : Drawing) : bool :=
  match png d with Some _ => true | None => false end.

Definition saved_here (c : coord) (nd : Z * Drawing) : bool :=
  bool_decide (coord_of (snd nd) = Some c) && decodes (snd nd).

(** The numbers of the drawings anchored at [c] whose image is saved. *)
Definition saved_at (c : coord) (discovered : list (Z * Drawing)) : list Z :=
  fst <$> List.filter (saved_here c) discovered.

(** The writes of the image extractor: files of the images directory,
    and nothing else. *)
Definition only_images (images_dir : string) (w w' : World) : Prop :=
  exists new,
    written w' = new ++ written w
    /\ Forall (fun p => exists k, p = path_join images_dir (image_filename k))
         new.

(** The state [(cell_to_images, image_counter)] of the extractor after the
    drawings [ds], begun with the map [m] and the counter [k]. *)
Definition images_after (m : gmap coord (list string)) (k : Z)
    (ds : list Drawing) (st : gmap coord (list string) * Z) : Prop :=
  snd st = k + Z.of_nat (length (numbered k ds))
  /\ forall c,
      lookup_names (fst st) c
      = lookup_names m c ++ (image_filename <$> saved_at c (numbered k ds)).

(** How often a file name occurs in a list of names, in a list of image
    objects, in a question, in a list of questions. *)
Definition count_str (x : string) (l : list string) : nat :=
  length (List.filter (fun y => String.eqb y x) l).

Definition count_name (x : string) (images : list FileRef) : nat :=
  length (List.filter (fun image => String.eqb (name image) x) images).

Definition occurrences (x : string) (question : Question) : nat :=
  (count_name x (descriptionImages question)
   + count_name x (suggestionImages question)
   + count_name x (customerResponseImages question))%nat.

Definition total_occurrences (x : string) (questions : list Question) : nat :=
  sum_list (occurrences x <$> questions).

(** The image list of a question that belongs to a column of the table. *)
Definition images_of_column (template_type : template) (col : Z)
    (question : Question) : list FileRef :=
  let '(_, desc_col, sugg_col, resp_col) := question_columns template_type in
  if col =? desc_col then descriptionImages question
  else if col =? sugg_col then suggestionImages question
  else if col =? resp_col then customerResponseImages question
  else [].

Definition is_role_column (template_type : template) (col : Z) : bool :=
  let '(_, desc_col, sugg_col, resp_col) := question_columns template_type in
  (col =? desc_col) || (col =? sugg_col) || (col =? resp_col).

Definition empty_world : World := {| files := ∅; dirs := ∅; written := [] |}.

(** A sheet with one question in row 11 and four drawings: one at B11
    whose data do not decode, one at B11 and one at C11 that are saved, and
    one without an anchor. *)
Definition image_workbook : Workbook :=
  sheet_of "CEA"
    [ ((1, 3), VStr "ACME"); ((11, 1), VInt 1); ((11, 2), VStr "burr") ]
    [ {| anchor_from := Some (1, 10); png := None |};
      {| anchor_from := None; png := Some [] |};
      {| anchor_from := Some (1, 10); png := Some [] |};
      {| anchor_from := Some (2, 10); png := Some [] |} ].

(** The sheet of [image_workbook] next to a second sheet with a drawing
    at B11. *)
Definition two_sheet_workbook : Workbook :=
  {| first_sheet := first_sheet image_workbook;
     other_sheets :=
       [ {| title := "Notes"; _cells := ∅;
            _images := [ {| anchor_from := Some (1, 10);
                            png := Some [] |} ] |} ] |}.

(** ** The per-file driver *)

(** What [os.path.join(a, _)] puts in front of a relative name. *)
Definition dir_prefix (a : string) : string :=
  if negb (nonempty a) || endswith slash a then a else a +:+ "/".

Section Stages.

Variable now : string.
Variable parse_workbook : content -> result Workbook.
Variable copy_error : copy_oracle.

(** The directory of the document of a file, and the files of it. *)
Definition file_output_dir (output_dir file_path : string) : string :=
  path_join output_dir (hd "" (split dot (basename file_path))).

Definition index_json (output_dir file_path : string) : string :=
  path_join (file_output_dir output_dir file_path) "index.json".

Definition images_dir_of (output_dir file_path : string) : string :=
  path_join (file_output_dir output_dir file_path) "images".

(** The steps of [process_excel_file] between the classification and the
    validation: they end with the document, or with an exception. *)
Definition extract_document (file_path output_dir : string)
    (workbook : Workbook) (template_type : template) : M Document :=
  let file_output_dir := file_output_dir output_dir file_path in
  do* _ := makedirs (path_join file_output_dir "images") in
  do* metadata := lift (extract_metadata workbook template_type) in
  do* cell_to_images := extract_images workbook file_output_dir in
  do* questions :=
    lift (extract_questions now workbook template_type cell_to_images) in
  ret (map_to_schema now metadata questions (basename file_path)).

(** What the driver does with a document that passed the validation. *)
Definition publish (file_path output_dir : string) (eq_data : Document)
  : M (bool * bool) :=
  let file_output_dir := file_output_dir output_dir file_path in
  do* _ := write_file (path_join file_output_dir "index.json")
             (Json eq_data) in
  do* _ := try_except
             (copy2 copy_error file_path
                (path_join file_output_dir "index.xlsx"))
             (fun _ => ret tt) in
  ret (true, false).

(** The file is marked failed, and what the run has written since [w] are
    image files of the images directory, [index.json] not among them. *)
Definition failed_without_index
    (file_path output_dir outlier_dir : string) (w w1 : World) : Prop :=
  process_excel_file now parse_workbook copy_error file_path output_dir
    outlier_dir w
  = (w1, Ok (false, false))
  /\ exists new,
      written w1 = new ++ written w
      /\ (index_json output_dir file_path ∉ new)
      /\ Forall (fun p => exists k,
                   p = path_join (images_dir_of output_dir file_path)
                         (image_filename k)) new.

(** The file is marked failed and the files are as they were before the
    run: nothing of it is left. *)
Definition failed_without_output
    (file_path output_dir outlier_dir : string) (w : World) : Prop :=
  exists w1,
    process_excel_file now parse_workbook copy_error file_path output_dir
      outlier_dir w
    = (w1, Ok (false, false))
    /\ files w1 = files w.

(** The file is marked processed, and [index.json], written after the
    extraction that led from [w] to [w1], holds the document. *)
Definition index_written
    (file_path output_dir outlier_dir : string) (w w1 : World)
    (eq_data : Document) : Prop :=
  only_images (images_dir_of output_dir file_path) w w1
  /\ exists w2 new,
      process_excel_file now parse_workbook copy_error file_path output_dir
        outlier_dir w
      = (w2, Ok (true, false))
      /\ written w2 = new ++ written w1
      /\ (index_json output_dir file_path ∈ new)
      /\ files w2 !! index_json output_dir file_path = Some (Json eq_data).


End Stages.

(** A sheet none of the three templates matches. *)
Definition unknown_workbook : Workbook :=
  sheet_of "Sheet1" [ ((1, 1), VStr "Invoice"); ((2, 1), VInt 42) ] [].


(** A world with one spreadsheet in the input directory. *)
Definition input_world : World :=
  {| files := {[ "raw_data/odd.xlsx" := Bytes [] ]};
     dirs := {[ "raw_data"; "processed_data"; "outlier_files" ]};
     written := [] |}.

(** A questionnaire without a customer name and with one image. *)
Definition nameless_workbook : Workbook :=
  sheet_of "CEA"
    [ ((11, 1), VInt 1); ((11, 2), VStr "burr") ]
    [ {| anchor_from := Some (1, 10); png := Some [] |} ].

(** [image_workbook] saved again without its customer name and with
    another picture at B11. *)
Definition revised_workbook : Workbook :=
  sheet_of "CEA"
    [ ((11, 1), VInt 1); ((11, 2), VStr "burr") ]
    [ {| anchor_from := Some (1, 10); png := None |};
      {| anchor_from := Some (1, 10); png := Some [Byte.x01] |} ].

(** The operating system refuses no copy. *)
Definition no_copy_error : copy_oracle := fun _ _ _ => None.

(** The operating system finds that [./outliers/odd.xlsx] and
    [outliers/odd.xlsx] are one file. *)
Definition dot_copy_error : copy_oracle :=
  fun _ src dst =>
    if String.eqb src "./outliers/odd.xlsx"
       && String.eqb dst "outliers/odd.xlsx"
    then Some SameFileError else None.

(** A world with one spreadsheet of the outlier directory, under a path
    that begins with a dot. *)
Definition dotted_world : World :=
  {| files := {[ "./outliers/odd.xlsx" := Bytes [] ]};
     dirs := {[ "outliers" ]};
     written := [] |}.

(** A plain questionnaire of five rows: its signature scan starts below
    row 1. *)
Definition short_workbook : Workbook :=
  sheet_of "EQ Template" [ ((1, 3), VStr "ACME"); ((5, 1), VInt 1) ] [].

(* ===================================================================== *)
(** * The rest of the program: the batch driver *)
(* ===================================================================== *)

(** [associate_images_with_questions]: kept by the program for later use;
    it returns its questions as they are. *)
Definition associate_images_with_questions
    (questions : list Question) (cell_to_images : gmap coord (list string))
    (workbook : Workbook) (template_type : template) : list Question :=
  questions.

(** [s.endswith(suffix)] *)
Fixpoint has_suffix (suffix s : string) : bool :=
  String.eqb s suffix
  || match s with
     | "" => false
     | String _ t => has_suffix suffix t
     end.

(** [f.endswith(".xlsx") or f.endswith(".xls")] *)
Definition is_excel_name (f : string) : bool :=
  has_suffix ".xlsx" f || has_suffix ".xls" f.

(** The numbers of the summary that [main] prints: the files found, those
    processed as a template, the outliers, the failures
    ([len(excel_files) - success_count]) and [success_count]. *)
Record Summary := {
  total_files : Z;
  processed_count : Z;
  outlier_count : Z;
  failed_count : Z;
  success_count : Z
}.

Section Batch.

Variable now : string.
Variable parse_workbook : content -> result Workbook.
Variable copy_error : copy_oracle.

(** [os.path.exists] and [os.listdir]: what the operating system answers
    in a world.  The listing can raise (a path that is no directory). *)
Variable path_exists : World -> string -> bool.
Variable listdir : World -> string -> result (list string).

(** The body of the loop of [main]; the state is
    [(success_count, outlier_count, processed_count)]. *)
Definition count_file (output_dir outlier_dir : string)
    (counts : Z * Z * Z) (file_path : string) : M (Z * Z * Z) :=
  do* r := process_excel_file now parse_workbook copy_error file_path
             output_dir outlier_dir in
  let '(successes, outliers, processed) := counts in
  let '(success, is_outlier) := r in
  if success then
    if is_outlier then ret (successes + 1, outliers + 1, processed)
    else ret (successes + 1, outliers, processed + 1)
  else ret counts.

(** [main], from the parsed arguments on; [None] stands for the two early
    returns (no input directory, no spreadsheet in it). *)
Definition main (raw_data_dir output_dir outlier_dir : string)
  : M (option Summary) :=
  do* _ := makedirs output_dir in
  do* _ := makedirs outlier_dir in
  do* present := (fun w => (w, Ok (path_exists w raw_data_dir))) in
  if negb present then ret None
  else
    do* names := (fun w => (w, listdir w raw_data_dir)) in
    let excel_files :=
      path_join raw_data_dir <$> List.filter is_excel_name names in
    match excel_files with
    | [] => ret None
    | _ =>
        do* counts :=
          for_eachM (count_file output_dir outlier_dir) excel_files
            (0, 0, 0) in
        let '(successes, outliers, processed) := counts in
        ret (Some {| total_files := Z.of_nat (length excel_files);
                     processed_count := processed;
                     outlier_count := outliers;
                     failed_count :=
                       Z.of_nat (length excel_files) - successes;
                     success_count := successes |})
    end.

End Batch.

(* ===================================================================== *)
(** * Further notions and example sheets *)
(* ===================================================================== *)

(** The first content rule of the classifier fires: both approval-form
    markers in the sample, and the first sheet named ["CEA"]. *)
Definition approval_by_content (sample name0 : string) : bool :=
  contains "CEA" sample && contains "Customer Engineering Approval" sample
  && String.eqb name0 "CEA".

(** One of the two questionnaire markers is in the sample. *)
Definition questionnaire_marker (sample : string) : bool :=
  contains "Engineering Questionnaire" sample || contains "EQ" sample.

(** An approval form of three columns and 25 rows with the word REQUEST
    in it. *)
Definition request_workbook : Workbook :=
  sheet_of "CEA"
    [ ((1, 1), VStr "REQUEST FORM"); ((1, 3), VStr "ACME");
      ((25, 1), VInt 3) ] [].

(** [request_workbook] with other cells below the sample window. *)
Definition request_workbook_far : Workbook :=
  sheet_of "CEA"
    [ ((1, 1), VStr "REQUEST FORM"); ((1, 3), VStr "ACME");
      ((20, 2), VStr "Customer Engineering Approval CEA");
      ((25, 1), VStr "STG Proposal and Customer Decision") ] [].

(** An approval form, with both of its markers, on a renamed sheet. *)
Definition renamed_workbook : Workbook :=
  sheet_of "Approval"
    [ ((1, 1), VStr "CEA"); ((2, 1), VStr "Customer Engineering Approval");
      ((1, 3), VStr "ACME") ] [].

(** The header fields of a metadata record. *)
Definition header_fields (md : Metadata)
  : string * option string * option string * option string * option string
    * option string :=
  (customerName md, engineerName md, baseMaterial md, solderMask md,
   createdAt md, status md).

(** The fields that belong to the extended variant. *)
Definition extended_fields (md : Metadata)
  : option string * option string * option string * list string :=
  (viaPluggingType md, panelSize md, stgSignatureDate md, stgSignatures md).

(** [str(v) if v else None] *)
Definition optional_text (v : cell_value) : option string :=
  if truthy v then Some (str v) else None.

(** An extended questionnaire of 21 rows with a drawing in column D of
    its question row 11. *)
Definition column_d_workbook : Workbook :=
  sheet_of "EQ Template"
    [ ((1, 3), VStr "ACME"); ((11, 1), VInt 1); ((11, 4), VStr "n/a");
      ((21, 1), VStr "end") ]
    [ {| anchor_from := Some (3, 10); png := Some [] |} ].

(** The path of the image file numbered [n] of an images directory. *)
Definition image_path (images_dir : string) (n : Z) : string :=
  path_join images_dir (image_filename n).


(** The sample text of [request_workbook]. *)
Definition request_sample : string :=
  Eval vm_compute in
    match sample_text (first_sheet request_workbook) with
    | Ok sample => sample
    | Raise _ => ""
    end.

(** An approval form dated in its top-date cell, with two questions. *)
Definition dated_workbook : Workbook :=
  sheet_of "CEA"
    [ ((1, 3), VStr "ACME");
      ((3, 5), VDate "2024-03-15 00:00:00" "2024-03-15T00:00:00");
      ((11, 1), VInt 1); ((12, 1), VInt 2) ] [].

Definition dated_metadata : Metadata :=
  Eval vm_compute in
    match extract_metadata dated_workbook CEA with
    | Ok md => md
    | Raise _ => initial_metadata
    end.

(** A signature list is empty or has one element. *)
Definition short_lists (md : Metadata) : Prop :=
  (length (stgSignatures md) <= 1)%nat
  /\ (length (customerSignatures md) <= 1)%nat.


(** The metadata before the signature scan. *)
Definition header_metadata (workbook : Workbook) (template_type : template)
  : Metadata :=
  let sheet := first_sheet workbook in
  let read r c := value_at sheet r c in
  let md := initial_metadata in
  let md := if truthy (read 1 3) then set_customerName (str (read 1 3)) md
            else md in
  let md := if truthy (read 1 5)
            then set_engineerName (Some (str (read 1 5))) md else md in
  let md := if truthy (read 2 3)
            then set_customerPN (split_pn (str (read 2 3))) md else md in
  let md := if truthy (read 2 5)
            then set_factoryPN (split_pn (str (read 2 5))) md else md in
  let md := if truthy (read 3 3)
            then set_stgPN (split_pn (str (read 3 3))) md else md in
  let md := if truthy (read 3 5)
            then match isoformat_of (read 3 5) with
                 | Some iso => set_createdAt (Some iso) md
                 | None => md
                 end
            else md in
  let md := if truthy (read 7 3)
            then set_baseMaterial (Some (str (read 7 3))) md else md in
  let md := if truthy (read 7 5)
            then set_solderMask (Some (str (read 7 5))) md else md in
  match template_type with
  | starteam =>
      let md := if truthy (read 8 3)
                then set_viaPluggingType (Some (str (read 8 3))) md
                else md in
      if truthy (read 8 5) then set_panelSize (Some (str (read 8 5))) md
      else md
  | _ => md
  end.


(** Between [w] and [w'] the directories are the same, and so is every
    file that is no image file numbered [k] or more. *)
Definition image_files_from (images_dir : string) (k : Z) (w w' : World)
  : Prop :=
  dirs w' = dirs w
  /\ forall p,
      (forall n, k <= n -> p <> image_path images_dir n) ->
      files w' !! p = files w !! p.

(** Each numbered drawing that decodes has its PNG in its file. *)
Definition images_stored (images_dir : string) (nds : list (Z * Drawing))
    (w : World) : Prop :=
  forall n d data,
    (n, d) ∈ nds -> png d = Some data ->
    files w !! image_path images_dir n = Some (Bytes data).

(** The image lists of a question, one after the other. *)
Definition question_images (question : Question) : list FileRef :=
  descriptionImages question ++ suggestionImages question
  ++ customerResponseImages question.

(** A world with two spreadsheets whose names agree up to the first dot. *)
Definition versions_world : World :=
  {| files := {[ "raw_data/odd.xlsx" := Bytes [];
                 "raw_data/odd.v2.xlsx" := Bytes [] ]};
     dirs := {[ "raw_data"; "processed_data"; "outlier_files" ]};
     written := [] |}.


(* ===================================================================== *)
(** * Facts about text *)
(* ===================================================================== *)

Section TextFacts.

Lemma nonempty_true (s : string) : nonempty s = true <-> s <> "".
Proof. destruct s; simpl; split; congruence. Qed.

Lemma nonempty_false (s : string) : nonempty s = false <-> s = "".
Proof. destruct s; simpl; split; congruence. Qed.

Lemma all_chars_impl (p q : ascii -> bool) (s : string) :
  (forall c, p c = true -> q c = true) ->
  all_chars p s = true -> all_chars q s = true.
Proof.
  intros Hpq. induction s as [|c t IH]; simpl; [done|].
  rewrite !andb_true_iff. intros [Hc Ht]. auto.
Qed.

Lemma is_decimal_isdigit (c : ascii) :
  is_decimal c = true -> isdigit_char c = true.
Proof. unfold isdigit_char. intros ->. reflexivity. Qed.

(** ** [str(n)] *)

Lemma string_of_uint_decimal (d : Decimal.uint) :
  all_chars is_decimal (NilEmpty.string_of_uint d) = true.
Proof. induction d; simpl; auto. Qed.

Lemma string_of_uint_nonempty (d : Decimal.uint) :
  nonempty (NilZero.string_of_uint d) = true.
Proof. destruct d; reflexivity. Qed.

Lemma string_of_uint_all_decimal (d : Decimal.uint) :
  all_chars is_decimal (NilZero.string_of_uint d) = true.
Proof.
  destruct d; try reflexivity;
    apply (string_of_uint_decimal (_ d)) || idtac.
  all: unfold NilZero.string_of_uint;
    match goal with |- all_chars _ (NilEmpty.string_of_uint ?u) = _ =>
      apply (string_of_uint_decimal u) end.
Qed.

Lemma str_int_nonneg (n : Z) :
  0 <= n ->
  nonempty (str_int n) = true /\ all_chars is_decimal (str_int n) = true.
Proof.
  intros Hn. unfold str_int. destruct n as [|p|p]; [| |lia].
  - split; reflexivity.
  - split; [apply string_of_uint_nonempty|apply string_of_uint_all_decimal].
Qed.

Lemma str_int_neg (p : positive) :
  str_int (Z.neg p) = String "-" (str_int (Z.pos p)).
Proof. reflexivity. Qed.

Lemma str_int_nonempty (n : Z) : nonempty (str_int n) = true.
Proof.
  destruct n; try reflexivity. apply string_of_uint_nonempty.
Qed.

Lemma to_int_no_nil (n : Z) :
  Z.to_int n <> Decimal.Pos Decimal.Nil /\ Z.to_int n <> Decimal.Neg Decimal.Nil.
Proof.
  destruct n as [|p|p]; simpl; split; try discriminate;
    intros [= H]; by apply (DecimalPos.Unsigned.to_uint_nonnil p).
Qed.

Lemma str_int_inj (m n : Z) : str_int m = str_int n -> m = n.
Proof.
  unfold str_int. intros H.
  destruct (to_int_no_nil m) as [Hm1 Hm2], (to_int_no_nil n) as [Hn1 Hn2].
  pose proof (NilZero.isi _ Hm1 Hm2) as Em.
  pose proof (NilZero.isi _ Hn1 Hn2) as En.
  rewrite H in Em. rewrite Em in En. injection En as En.
  rewrite <- (DecimalZ.of_to m), <- (DecimalZ.of_to n). by rewrite En.
Qed.

(** ** [strip] *)


Lemma lstrip_head (s : string) : stripped_head (lstrip s) = true.
Proof.
  induction s as [|c t IH]; simpl; [done|].
  destruct (isspace c) eqn:E; [done|]. simpl. by rewrite E.
Qed.

Lemma lstrip_fixed (s : string) : stripped_head s = true -> lstrip s = s.
Proof.
  destruct s as [|c t]; simpl; [done|]. by destruct (isspace c).
Qed.

Lemma rstrip_idem (s : string) : rstrip (rstrip s) = rstrip s.
Proof.
  induction s as [|c t IH]; simpl; [done|].
  destruct (isspace c && negb (nonempty (rstrip t))) eqn:E; [done|].
  simpl. rewrite IH. by rewrite E.
Qed.

Lemma rstrip_head (s : string) :
  stripped_head s = true -> stripped_head (rstrip s) = true.
Proof.
  destruct s as [|c t]; simpl; [done|].
  destruct (isspace c) eqn:E; [done|]. simpl. by rewrite E.
Qed.

Lemma strip_head (s : string) : stripped_head (strip s) = true.
Proof. apply rstrip_head, lstrip_head. Qed.

Lemma strip_idem (s : string) : strip (strip s) = strip s.
Proof.
  unfold strip at 1. rewrite (lstrip_fixed (strip s)) by apply strip_head.
  unfold strip. apply rstrip_idem.
Qed.


Lemma rstrip_empty (s : string) :
  rstrip s = "" <-> all_chars isspace s = true.
Proof.
  induction s as [|c t IH]; simpl; [done|].
  destruct (isspace c); simpl.
  - destruct (rstrip t) eqn:E; simpl.
    + split; [intros _; by apply IH|done].
    + split; [done|]. intros H. apply IH in H. done.
  - split; done.
Qed.

Lemma lstrip_all_space (s : string) :
  all_chars isspace (lstrip s) = all_chars isspace s.
Proof.
  induction s as [|c t IH]; simpl; [done|].
  destruct (isspace c) eqn:E; simpl; [done|]. by rewrite E.
Qed.

Lemma strip_empty (s : string) :
  strip s = "" <-> all_chars isspace s = true.
Proof. unfold strip. rewrite rstrip_empty. by rewrite lstrip_all_space. Qed.

Lemma strip_nonempty_has_text (s : string) :
  nonempty (strip s) = true -> has_text (strip s) = true.
Proof.
  rewrite nonempty_true. intros Hne. unfold has_text.
  destruct (all_chars isspace (strip s)) eqn:E; [|done].
  apply strip_empty in E. rewrite strip_idem in E. done.
Qed.


Lemma rstrip_last (s : string) (c : ascii) :
  last_char (rstrip s) = Some c -> isspace c = false.
Proof.
  induction s as [|a t IH]; simpl; [done|].
  destruct (isspace a && negb (nonempty (rstrip t))) eqn:E; [done|].
  simpl. destruct (rstrip t) eqn:Et.
  - intros [= <-]. simpl in E. by rewrite andb_true_r in E.
  - intros H. by apply IH.
Qed.

Lemma strip_last (s : string) (c : ascii) :
  last_char (strip s) = Some c -> isspace c = false.
Proof. apply rstrip_last. Qed.

End TextFacts.
Section SplitFacts.

Variable sep : ascii.


Lemma split_no_sep (s : string) :
  Forall (fun x => no_char sep x = true) (split sep s).
Proof.
  induction s as [|c t IH]; simpl.
  - by repeat constructor.
  - destruct (Ascii.eqb c sep) eqn:E.
    + by constructor.
    + destruct (split sep t) as [|h r].
      * repeat constructor. unfold no_char. simpl. by rewrite E.
      * inversion IH; subst.
        constructor; [|done]. unfold no_char in *. simpl. by rewrite E.
Qed.

Lemma split_single (x : string) :
  no_char sep x = true -> split sep x = [x].
Proof.
  induction x as [|c t IH]; simpl; [done|].
  unfold no_char. simpl. rewrite andb_true_iff, negb_true_iff.
  intros [E Ht]. rewrite E. by rewrite (IH Ht).
Qed.

Lemma split_cons (x rest : string) :
  no_char sep x = true ->
  split sep (x +:+ String sep rest) = x :: split sep rest.
Proof.
  induction x as [|c t IH]; simpl.
  - intros _. by rewrite Ascii.eqb_refl.
  - unfold no_char. simpl. rewrite andb_true_iff, negb_true_iff.
    intros [E Ht]. rewrite E. by rewrite (IH Ht).
Qed.

Lemma split_join (parts : list string) :
  parts <> [] ->
  Forall (fun x => no_char sep x = true) parts ->
  split sep (join (String sep "") parts) = parts.
Proof.
  induction parts as [|x rest IH]; [done|]. intros _ Hall.
  inversion Hall as [|? ? Hx Hrest]; subst.
  destruct rest as [|y rest'].
  - simpl. by apply split_single.
  - change (join (String sep "") (x :: y :: rest'))
      with (x +:+ String sep (join (String sep "") (y :: rest'))).
    rewrite split_cons by done. f_equal. by apply IH.
Qed.


Lemma lstrip_no_char (s : string) :
  no_char sep s = true -> no_char sep (lstrip s) = true.
Proof.
  unfold no_char. induction s as [|c t IH]; simpl; [done|].
  rewrite andb_true_iff. intros [Hc Ht].
  destruct (isspace c); [auto|]. simpl. by rewrite Hc, Ht.
Qed.

Lemma rstrip_no_char (s : string) :
  no_char sep s = true -> no_char sep (rstrip s) = true.
Proof.
  unfold no_char. induction s as [|c t IH]; simpl; [done|].
  rewrite andb_true_iff. intros [Hc Ht].
  destruct (isspace c && negb (nonempty (rstrip t))); [done|].
  simpl. by rewrite Hc, IH.
Qed.

Lemma strip_no_char (s : string) :
  no_char sep s = true -> no_char sep (strip s) = true.
Proof. intros H. by apply rstrip_no_char, lstrip_no_char. Qed.

End SplitFacts.

(** ** Part-number cells *)

Section PartNumbers.


Lemma filter_sublist {A} (f : A -> bool) (l : list A) :
  sublist (List.filter f l) l.
Proof.
  induction l as [|a l IH]; simpl; [constructor|].
  destruct (f a); by constructor.
Qed.

Lemma filter_all {A} (f : A -> bool) (l : list A) :
  Forall (fun x => f x = true) l -> List.filter f l = l.
Proof.
  induction 1 as [|a l Ha _ IH]; simpl; [done|]. by rewrite Ha, IH.
Qed.

Lemma split_pn_elements (s : string) : Forall pn_element (split_pn s).
Proof.
  unfold split_pn. pose proof (split_no_sep nl s) as H.
  induction H as [|x l Hx _ IH]; simpl; [constructor|].
  destruct (nonempty (strip x)) eqn:E; [|done].
  rewrite fmap_cons. constructor; [|done].
  repeat split; [done|apply strip_idem|by apply strip_no_char].
Qed.

Lemma split_pn_fixed (parts : list string) :
  Forall pn_element parts -> split_pn (join nl_s parts) = parts.
Proof.
  intros Hall. destruct parts as [|x rest]; [reflexivity|].
  unfold split_pn, nl_s. rewrite split_join; [|done|].
  - rewrite filter_all.
    + induction Hall as [|y l [_ [Hy _]] _ IH]; [done|].
      rewrite fmap_cons. by rewrite Hy, IH.
    + eapply Forall_impl; [exact Hall|].
      intros y [Hne [Hy _]]. by rewrite Hy.
  - eapply Forall_impl; [exact Hall|]. by intros y (_ & _ & Hy).
Qed.

Lemma split_pn_idempotent (s : string) :
  split_pn (join nl_s (split_pn s)) = split_pn s.
Proof. apply split_pn_fixed, split_pn_elements. Qed.

Lemma split_pn_order (s : string) :
  sublist (split_pn s) (strip <$> split nl s).
Proof. unfold split_pn. apply fmap_sublist, filter_sublist. Qed.

End PartNumbers.

(* ===================================================================== *)
(** * Facts about the grid and the loops *)
(* ===================================================================== *)

Section GridFacts.

Lemma cell_ok (ws : Worksheet) (r c : Z) :
  1 <= r -> 1 <= c -> cell ws r c = Ok (value_at ws r c).
Proof.
  intros Hr Hc. unfold cell.
  destruct (Z.ltb_spec r 1); [lia|]. destruct (Z.ltb_spec c 1); [lia|].
  reflexivity.
Qed.

Lemma cell_raise (ws : Worksheet) (r c : Z) :
  r < 1 -> cell ws r c = Raise ValueError.
Proof.
  intros Hr. unfold cell. destruct (Z.ltb_spec r 1); [done|lia].
Qed.

Lemma sheet0_first (wb : Workbook) : sheet0 wb = Ok (first_sheet wb).
Proof.
  unfold sheet0, sheetnames, worksheets, getitem. simpl.
  by rewrite String.eqb_refl.
Qed.

Lemma foldr_max_le (l : list Z) (x : Z) : x ∈ l -> x <= foldr Z.max 1 l.
Proof.
  induction 1 as [x l|x y l _ IH]; simpl; lia.
Qed.

Lemma foldr_max_ge1 (l : list Z) : 1 <= foldr Z.max 1 l.
Proof. induction l; simpl; lia. Qed.

Lemma max_row_ge1 (ws : Worksheet) : 1 <= max_row ws.
Proof. apply foldr_max_ge1. Qed.

Lemma max_row_bound (ws : Worksheet) (r c : Z) (v : cell_value) :
  _cells ws !! (r, c) = Some v -> r <= max_row ws.
Proof.
  intros H. apply foldr_max_le.
  apply list_elem_of_fmap. exists ((r, c), v). split; [done|].
  by apply elem_of_map_to_list.
Qed.

Lemma max_column_bound (ws : Worksheet) (r c : Z) (v : cell_value) :
  _cells ws !! (r, c) = Some v -> c <= max_column ws.
Proof.
  intros H. apply foldr_max_le.
  apply list_elem_of_fmap. exists ((r, c), v). split; [done|].
  by apply elem_of_map_to_list.
Qed.

Lemma elem_of_range (a b x : Z) : x ∈ range a b <-> a <= x < b.
Proof. unfold range. rewrite elem_of_seqZ. lia. Qed.

Lemma NoDup_range (a b : Z) : NoDup (range a b).
Proof. apply NoDup_seqZ. Qed.

(** A loop whose body never raises is a fold. *)
Lemma for_each_total {A S} (body : S -> A -> result S) (f : S -> A -> S)
    (P : A -> Prop) (xs : list A) (acc : S) :
  (forall acc x, P x -> body acc x = Ok (f acc x)) ->
  Forall P xs ->
  for_each body xs acc = Ok (foldl f acc xs).
Proof.
  intros Hbody Hxs. revert acc.
  induction Hxs as [|x xs Hx _ IH]; intros acc; simpl; [done|].
  rewrite (Hbody _ _ Hx). simpl. apply IH.
Qed.

(** A loop that raises at its first element raises. *)
Lemma for_each_raise_first {A S} (body : S -> A -> result S)
    (x : A) (xs : list A) (acc : S) (e : exn) :
  body acc x = Raise e -> for_each body (x :: xs) acc = Raise e.
Proof. intros H. simpl. by rewrite H. Qed.

End GridFacts.

(** * The question table, row by row *)

Section QuestionFacts.

Variable now : string.
Variable sheet : Worksheet.
Variable template_type : template.
Variable cell_to_images : gmap coord (list string).

Lemma chr_ok (n : Z) : 0 <= n < 1114112 -> chr n = Ok n.
Proof.
  intros H. unfold chr.
  destruct (Z.leb_spec 0 n); [|lia]. destruct (Z.ltb_spec n 1114112); [|lia].
  reflexivity.
Qed.

Lemma get_cell_value_with_images_ok (r c : Z) :
  1 <= r -> 1 <= c <= 5 ->
  get_cell_value_with_images sheet r c cell_to_images
  = Ok (cell_text (value_at sheet r c), images_at cell_to_images r c).
Proof.
  intros Hr Hc. unfold get_cell_value_with_images.
  rewrite cell_ok by lia. simpl.
  rewrite chr_ok by (unfold ord_A; lia). reflexivity.
Qed.

Lemma question_columns_range :
  let '(no_col, desc_col, sugg_col, resp_col) :=
    question_columns template_type in
  no_col = 1 /\ 1 <= desc_col <= 5 /\ 1 <= sugg_col <= 5
  /\ 1 <= resp_col <= 5.
Proof. destruct template_type; simpl; lia. Qed.

Lemma question_row_spec (questions : list Question) (r : Z) :
  1 <= r ->
  question_row now sheet template_type cell_to_images (top_date sheet)
    questions r
  = Ok (questions ++
        if is_question_no (value_at sheet r 1)
        then [question_of_row now sheet template_type cell_to_images r]
        else []).
Proof.
  intros Hr. unfold question_row, question_of_row.
  pose proof question_columns_range as Hcols.
  destruct (question_columns template_type) as [[[no_col desc_col] sugg_col] resp_col].
  destruct Hcols as (-> & Hd & Hs & Hp). cbv beta iota.
  rewrite cell_ok by lia. simpl.
  destruct (is_question_no (value_at sheet r 1)); [|by rewrite app_nil_r].
  rewrite !get_cell_value_with_images_ok by lia. reflexivity.
Qed.

Lemma scanned_rows_ge (r : Z) :
  r ∈ scanned_rows sheet template_type -> 10 <= r <= max_row sheet.
Proof.
  unfold scanned_rows. rewrite elem_of_range.
  destruct template_type; simpl; lia.
Qed.

Lemma question_loop_spec (rows : list Z) (questions : list Question) :
  Forall (fun r => 1 <= r) rows ->
  for_each
    (question_row now sheet template_type cell_to_images (top_date sheet))
    rows questions
  = Ok (questions ++
        (question_of_row now sheet template_type cell_to_images
           <$> List.filter (fun r => is_question_no (value_at sheet r 1)) rows)).
Proof.
  intros Hrows. revert questions.
  induction Hrows as [|r rows Hr _ IH]; intros questions; simpl.
  - by rewrite app_nil_r.
  - rewrite question_row_spec by done. simpl. rewrite IH.
    destruct (is_question_no (value_at sheet r 1)); simpl.
    + by rewrite <- app_assoc.
    + by rewrite app_nil_r.
Qed.

End QuestionFacts.

(** The parser never raises, and its result is one question for each
    question row, in the order of the rows. *)
Lemma extract_questions_spec (now : string) (workbook : Workbook)
    (template_type : template) (cell_to_images : gmap coord (list string)) :
  extract_questions now workbook template_type cell_to_images
  = Ok (question_of_row now (first_sheet workbook) template_type
          cell_to_images
        <$> question_rows (first_sheet workbook) template_type).
Proof.
  unfold extract_questions. rewrite sheet0_first. cbn [bind].
  rewrite cell_ok by lia. cbn [bind].
  change (if truthy (value_at (first_sheet workbook) 3 5)
          then isoformat_of (value_at (first_sheet workbook) 3 5) else None)
    with (top_date (first_sheet workbook)).
  rewrite question_loop_spec; [done|].
  apply Forall_forall. intros r Hr. apply scanned_rows_ge in Hr. lia.
Qed.

(* ===================================================================== *)
(** * The validator *)
(* ===================================================================== *)

Section ValidatorFacts.

Lemma enumerate_fmap {A B} (f : A -> B) (xs : list A) :
  enumerate (f <$> xs) = prod_map id f <$> enumerate xs.
Proof.
  unfold enumerate. rewrite length_fmap.
  generalize (seqZ 0 (Z.of_nat (length xs))). intros ks. revert ks.
  induction xs as [|x xs IH]; intros [|k ks]; simpl; try done.
  by rewrite IH.
Qed.

Lemma question_errors_fold (iqs : list (Z * Question)) (errors : list string) :
  foldl question_error errors iqs
  = errors ++ omap (fun '(i, number) =>
                      if nonempty number then None
                      else Some ("Question " +:+ str_int (i + 1)
                                 +:+ " missing required field: no"))
                (prod_map id no <$> iqs).
Proof.
  revert errors. induction iqs as [|[i q] iqs IH]; intros errors; simpl.
  - by rewrite app_nil_r.
  - rewrite IH. destruct (nonempty (no q)); simpl; [done|].
    by rewrite <- app_assoc.
Qed.

Lemma validate_errors (eq_data : Document) :
  snd (validate_extracted_data eq_data)
  = expected_errors (customerName (fields eq_data)) (fileName eq_data)
      (no <$> questions eq_data).
Proof.
  unfold validate_extracted_data, expected_errors. simpl.
  rewrite question_errors_fold, enumerate_fmap.
  destruct (nonempty (customerName (fields eq_data)));
    destruct (nonempty (fileName eq_data)); simpl; reflexivity.
Qed.

Lemma validate_flag (eq_data : Document) :
  fst (validate_extracted_data eq_data)
  = bool_decide (snd (validate_extracted_data eq_data) = []).
Proof.
  unfold validate_extracted_data. simpl.
  apply bool_decide_ext. split.
  - by intros ?%nil_length_inv.
  - by intros ->.
Qed.

Lemma omap_enumerate_nil (numbers : list string) (ks : list Z) :
  omap (fun '(i, number) =>
          if nonempty number then None
          else Some ("Question " +:+ str_int (i + 1)
                     +:+ " missing required field: no"))
    (zip ks numbers) = [] ->
  length ks = length numbers ->
  Forall (fun number => number <> "") numbers.
Proof.
  revert ks. induction numbers as [|x xs IH]; intros ks Hnil Hlen.
  - constructor.
  - destruct ks as [|k ks]; [done|]. simpl in Hnil, Hlen.
    destruct (nonempty x) eqn:E; [|done].
    constructor; [by apply nonempty_true|].
    apply (IH ks); [done|lia].
Qed.

Lemma omap_enumerate_all (numbers : list string) (ks : list Z) :
  Forall (fun number => number <> "") numbers ->
  omap (fun '(i, number) =>
          if nonempty number then None
          else Some ("Question " +:+ str_int (i + 1)
                     +:+ " missing required field: no"))
    (zip ks numbers) = [].
Proof.
  intros Hall. revert ks. induction Hall as [|x xs Hx _ IH]; intros [|k ks];
    simpl; try done.
  apply nonempty_true in Hx. rewrite Hx. apply IH.
Qed.

Lemma expected_errors_nil (customer_name file_name : string)
    (numbers : list string) :
  expected_errors customer_name file_name numbers = [] <->
  customer_name <> "" /\ file_name <> ""
  /\ Forall (fun number => number <> "") numbers.
Proof.
  unfold expected_errors. split.
  - intros H. apply app_eq_nil in H as [H1 H]. apply app_eq_nil in H as [H2 H3].
    destruct (nonempty customer_name) eqn:E1; [|done].
    destruct (nonempty file_name) eqn:E2; [|done].
    repeat split; try by apply nonempty_true.
    eapply omap_enumerate_nil; [exact H3|].
    by rewrite length_seqZ, Nat2Z.id.
  - intros (H1 & H2 & H3).
    apply nonempty_true in H1, H2. rewrite H1, H2. simpl.
    by apply omap_enumerate_all.
Qed.

End ValidatorFacts.

(** C2. The validator reports failure exactly when [customerName] is
    empty, or [fileName] is empty, or some question has an empty [no].
    Its result is the flag together with the list of the violated rules in
    the order customer name, file name, questions by position, and it is a
    function of these three data only: no optional field of the document
    (engineer name, material, signatures, ...) takes part in it.  The
    validator is a function from the document to its verdict: it reads the
    document and returns nothing else, so the document is as it was. *)
Theorem C2_validation_required_fields :
  (exists verdict : string -> string -> list string -> bool * list string,
      forall eq_data : Document,
        validate_extracted_data eq_data
        = verdict (customerName (fields eq_data)) (fileName eq_data)
            (no <$> questions eq_data))
  /\ forall eq_data : Document,
      (fst (validate_extracted_data eq_data) = false <->
       customerName (fields eq_data) = "" \/ fileName eq_data = ""
       \/ exists question, question ∈ questions eq_data /\ no question = "")
      /\ snd (validate_extracted_data eq_data)
         = expected_errors (customerName (fields eq_data)) (fileName eq_data)
             (no <$> questions eq_data)
      /\ (fst (validate_extracted_data eq_data) = true <->
          snd (validate_extracted_data eq_data) = []).
Proof.
  split.
  - exists (fun c f ns =>
              (bool_decide (expected_errors c f ns = []),
               expected_errors c f ns)).
    intros eq_data.
    rewrite (surjective_pairing (validate_extracted_data eq_data)).
    by rewrite validate_flag, validate_errors.
  - intros eq_data. rewrite validate_flag, validate_errors.
    split; [|split; [done|]].
    + rewrite bool_decide_eq_false, expected_errors_nil.
      split.
      * intros Hn.
        destruct (decide (customerName (fields eq_data) = "")) as [|H1];
          [by left|].
        destruct (decide (fileName eq_data = "")) as [|H2];
          [by right; left|].
        right; right.
        destruct (decide (Forall (fun number : string => number <> "")
                            (no <$> questions eq_data))) as [H3|H3];
          [by destruct Hn|].
        apply not_Forall_Exists in H3; [|apply _].
        apply Exists_exists in H3 as (x & Hx & Hne).
        apply list_elem_of_fmap in Hx as (q & -> & Hq).
        exists q. split; [done|]. by destruct (decide (no q = "")).
      * intros [H|[H|(q & Hq & Hno)]] (H1 & H2 & H3); [done|done|].
        rewrite Forall_forall in H3. apply (H3 (no q)); [|done].
        apply list_elem_of_fmap. by exists q.
    + by rewrite bool_decide_eq_true.
Qed.

(* ===================================================================== *)
(** * The question table parser *)
(* ===================================================================== *)

Section TextFields.

Variable now : string.

Lemma text_field_clean (text : string) : clean_text (text_field text).
Proof.
  unfold text_field, clean_text.
  destruct (nonempty text); simpl; [|done].
  destruct (nonempty (strip text)) eqn:E; [|done].
  split; [by apply nonempty_true|]. split; [apply strip_idem|].
  split; [|by apply strip_nonempty_has_text].
  split; [apply strip_head|apply strip_last].
Qed.

Lemma isdigit_nonempty (s : string) : isdigit s = true -> s <> "".
Proof.
  unfold isdigit. rewrite andb_true_iff. intros [H _]. by apply nonempty_true.
Qed.

Lemma str_int_isdigit (n : Z) : 0 <= n -> isdigit (str_int n) = true.
Proof.
  intros Hn. destruct (str_int_nonneg n Hn) as [H1 H2].
  unfold isdigit. rewrite H1. simpl.
  eapply all_chars_impl; [|exact H2]. apply is_decimal_isdigit.
Qed.

Lemma question_rows_elem (sheet : Worksheet) (template_type : template)
    (r : Z) :
  r ∈ question_rows sheet template_type <->
  r ∈ scanned_rows sheet template_type
  /\ is_question_no (value_at sheet r 1) = true.
Proof.
  unfold question_rows. rewrite !list_elem_of_In, filter_In. tauto.
Qed.

Lemma is_question_no_holds (v : cell_value) :
  is_bool_cell v = false -> is_question_no v = holds_number v.
Proof. by destruct v. Qed.

End TextFields.

(** C1 (amended).  The parser returns one question for each question row
    of the scan, in the order of the rows.  A scanned row whose number
    cell is not a boolean is a question row exactly when the cell holds an
    integer or a non-empty string of digits.  The [no] of a question is
    the text [str] gives for the cell: the string itself for a digit
    string; a non-empty string of decimal digits for an integer that is
    not negative; a minus sign followed by the digits of the absolute
    value for a negative integer. *)
Theorem C1_question_numbers (now : string) (workbook : Workbook)
    (template_type : template) (cell_to_images : gmap coord (list string)) :
  let sheet := first_sheet workbook in
  extract_questions now workbook template_type cell_to_images
  = Ok (question_of_row now sheet template_type cell_to_images
        <$> question_rows sheet template_type)
  /\ (forall r,
        r ∈ scanned_rows sheet template_type /\
        is_bool_cell (value_at sheet r 1) = false ->
        (r ∈ question_rows sheet template_type <->
         holds_number (value_at sheet r 1) = true))
  /\ (forall r,
        let question :=
          question_of_row now sheet template_type cell_to_images r in
        no question = str (value_at sheet r 1)
        /\ match value_at sheet r 1 with
           | VStr s => isdigit s = true -> no question = s
           | VInt n =>
               (0 <= n ->
                isdigit (no question) = true
                /\ all_chars is_decimal (no question) = true)
               /\ (n < 0 ->
                   no question = String "-" (str_int (- n))
                   /\ isdigit (str_int (- n)) = true)
           | _ => True
           end).
Proof.
  intros sheet. split; [apply extract_questions_spec|]. split.
  - intros r [Hr Hb]. rewrite question_rows_elem.
    rewrite (is_question_no_holds _ Hb). tauto.
  - intros r question.
    assert (Hno : no question = str (value_at sheet r 1)).
    { unfold question, question_of_row.
      by destruct template_type. }
    split; [done|]. rewrite Hno.
    destruct (value_at sheet r 1) as [|b|n|nz t|s|t iso]; simpl; try done.
    split.
    + intros Hn. split; [by apply str_int_isdigit|].
      by apply str_int_nonneg.
    + intros Hn. destruct n as [|p|p]; [lia|lia|].
      split; [apply str_int_neg|]. by apply str_int_isdigit.
Qed.

(** C1 as stated fails on a sheet whose row 11 is numbered -5: the row is
    a question row, and the [no] of its question is ["-5"], which is no
    digit string. *)
Lemma C1_negative_number_counterexample :
  ~ numbers_are_digit_strings "" negative_number_workbook CEA ∅.
Proof.
  intros (questions & Hrun & _ & Hdigits).
  vm_compute in Hrun. injection Hrun as <-.
  inversion Hdigits as [|q qs Hq _]; subst.
  vm_compute in Hq. discriminate.
Qed.

(** A boolean in the number column passes the [isinstance(_, int)] test of
    the parser as well: the row is a question row, numbered ["True"]. *)
Example boolean_number_run :
  no <$> (match extract_questions "" boolean_number_workbook CEA ∅ with
          | Ok questions => questions
          | Raise _ => []
          end) = ["True"].
Proof. vm_compute. reflexivity. Qed.

(** C10. Every question of the parser has each of [description],
    [suggestion] and [customerResponse] either absent or a text that is
    not empty, has no blank at either end and holds a character that is no
    blank. *)
Theorem C10_optional_text_fields (now : string) (workbook : Workbook)
    (template_type : template) (cell_to_images : gmap coord (list string)) :
  exists questions,
    extract_questions now workbook template_type cell_to_images = Ok questions
    /\ Forall (fun question =>
                 clean_text (description question)
                 /\ clean_text (suggestion question)
                 /\ clean_text (customerResponse question))
         questions.
Proof.
  eexists. split; [apply extract_questions_spec|].
  apply Forall_fmap, Forall_forall. intros r _. simpl.
  unfold question_of_row.
  destruct (question_columns template_type) as [[[? ?] ?] ?]. simpl.
  split; [|split]; apply text_field_clean.
Qed.

(* ===================================================================== *)
(** * The metadata extractor: part numbers *)
(* ===================================================================== *)

Section MetadataFacts.

Lemma for_each_preserves {A S T} (proj : S -> T)
    (body : S -> A -> result S) (xs : list A) (acc r : S) :
  (forall acc x acc', body acc x = Ok acc' -> proj acc' = proj acc) ->
  for_each body xs acc = Ok r -> proj r = proj acc.
Proof.
  intros Hbody. revert acc.
  induction xs as [|x xs IH]; intros acc; simpl.
  - by intros [= ->].
  - destruct (body acc x) as [acc'|e] eqn:E; simpl; [|done].
    intros H. rewrite (IH _ H). by eapply Hbody.
Qed.

Ltac row_cases H :=
  unfold bind in H;
  repeat (case_match; simplify_eq; try done);
  simplify_eq; try done.

Lemma cea_signature_row_part_numbers (sheet : Worksheet) (md md' : Metadata)
    (row : Z) :
  cea_signature_row sheet md row = Ok md' ->
  part_numbers md' = part_numbers md.
Proof. intros H. unfold cea_signature_row in H. row_cases H. Qed.

Lemma eq_signature_row_part_numbers (sheet : Worksheet) (md md' : Metadata)
    (row : Z) :
  eq_signature_row sheet md row = Ok md' ->
  part_numbers md' = part_numbers md.
Proof. intros H. unfold eq_signature_row in H. row_cases H. Qed.

Lemma signature_payload_part_numbers set_date set_signatures text md :
  (forall v md, part_numbers (set_date v md) = part_numbers md) ->
  (forall v md, part_numbers (set_signatures v md) = part_numbers md) ->
  part_numbers (signature_payload set_date set_signatures text md)
  = part_numbers md.
Proof.
  intros Hd Hs. unfold signature_payload.
  repeat case_match; by rewrite ?Hs, ?Hd.
Qed.

Lemma starteam_signature_row_part_numbers (sheet : Worksheet)
    (md md' : Metadata) (row : Z) :
  starteam_signature_row sheet md row = Ok md' ->
  part_numbers md' = part_numbers md.
Proof.
  intros H. unfold starteam_signature_row, bind in H.
  repeat (case_match; simplify_eq; try done);
    rewrite ?signature_payload_part_numbers; done.
Qed.

Lemma extract_metadata_part_numbers (workbook : Workbook)
    (template_type : template) (md : Metadata) :
  extract_metadata workbook template_type = Ok md ->
  part_numbers md
  = (pn_list (value_at (first_sheet workbook) 2 3),
     pn_list (value_at (first_sheet workbook) 2 5),
     pn_list (value_at (first_sheet workbook) 3 3)).
Proof.
  unfold extract_metadata. rewrite sheet0_first. cbn [bind].
  rewrite !cell_ok by lia. cbn [bind]. unfold pn_list.
  set (sheet := first_sheet workbook).
  destruct template_type.
  - intros H.
    apply (for_each_preserves part_numbers) in H;
      [|intros; by eapply cea_signature_row_part_numbers].
    rewrite H. by repeat case_match.
  - intros H.
    apply (for_each_preserves part_numbers) in H;
      [|intros; by eapply eq_signature_row_part_numbers].
    rewrite H. by repeat case_match.
  - cbn [bind]. intros H.
    apply (for_each_preserves part_numbers) in H;
      [|intros; by eapply starteam_signature_row_part_numbers].
    rewrite H. by repeat case_match.
Qed.

Lemma pn_list_elements (v : cell_value) : Forall pn_element (pn_list v).
Proof.
  unfold pn_list. destruct (truthy v); [apply split_pn_elements|constructor].
Qed.

Lemma pn_list_fixed (parts : list string) :
  Forall pn_element parts -> pn_list (VStr (join nl_s parts)) = parts.
Proof.
  intros H. unfold pn_list. simpl.
  destruct (nonempty (join nl_s parts)) eqn:E.
  - by apply split_pn_fixed.
  - apply nonempty_false in E.
    rewrite <- (split_pn_fixed parts H). by rewrite E.
Qed.

Lemma pn_list_order (v : cell_value) :
  sublist (pn_list v) (strip <$> split nl (str v)).
Proof.
  unfold pn_list. destruct (truthy v); [apply split_pn_order|].
  apply sublist_nil_l.
Qed.

End MetadataFacts.

(** C5. The three part-number lists that [extract_metadata] returns are the
    lists of their cells (row 2 column 3, row 2 column 5, row 3 column
    3).  Each of them has no empty element and only trimmed ones; it is
    the trimmed lines of the cell in their order, without those that are
    blank; and joining it with newlines and extracting again, from the
    text or from a cell that holds it, gives the same list. *)
Theorem C5_part_number_lists (workbook : Workbook) (template_type : template)
    (md : Metadata) :
  extract_metadata workbook template_type = Ok md ->
  let sheet := first_sheet workbook in
  let cells := [ (customerPN md, value_at sheet 2 3);
                 (factoryPN md, value_at sheet 2 5);
                 (stgPN md, value_at sheet 3 3) ] in
  Forall
    (fun '(parts, v) =>
       parts = pn_list v
       /\ Forall (fun x => x <> "" /\ strip x = x) parts
       /\ sublist parts (strip <$> split nl (str v))
       /\ split_pn (join nl_s parts) = parts
       /\ pn_list (VStr (join nl_s parts)) = parts)
    cells.
Proof.
  intros H sheet cells.
  apply extract_metadata_part_numbers in H. injection H as H1 H2 H3.
  assert (Hone : forall v,
    Forall (fun x => x <> "" /\ strip x = x) (pn_list v)
    /\ sublist (pn_list v) (strip <$> split nl (str v))
    /\ split_pn (join nl_s (pn_list v)) = pn_list v
    /\ pn_list (VStr (join nl_s (pn_list v))) = pn_list v).
  { intros v. pose proof (pn_list_elements v) as Hel. repeat split.
    - eapply Forall_impl; [exact Hel|].
      intros x (Hne & Hx & _). split; [by apply nonempty_true|done].
    - apply pn_list_order.
    - by apply split_pn_fixed.
    - by apply pn_list_fixed. }
  unfold cells. rewrite H1, H2, H3.
  repeat constructor; apply Hone.
Qed.

(** C5 on a sheet whose customer part-number cell has a blank line between
    two padded numbers. *)
Lemma C5_part_number_lists_witness :
  extract_metadata small_workbook CEA = Ok small_metadata
  /\ customerPN small_metadata = ["A-1"; "B-2"]
  /\ split_pn (join nl_s (customerPN small_metadata))
     = customerPN small_metadata.
Proof.
  assert (H : extract_metadata small_workbook CEA = Ok small_metadata)
    by (vm_compute; reflexivity).
  split; [exact H|]. split; [vm_compute; reflexivity|].
  pose proof (C5_part_number_lists small_workbook CEA small_metadata H) as Hc.
  simpl in Hc. apply Forall_cons in Hc as [(_ & _ & _ & Hsplit & _) _].
  exact Hsplit.
Defined.

(* ===================================================================== *)
(** * The classifier *)
(* ===================================================================== *)

Section ClassifierFacts.

Variable sheet : Worksheet.

Lemma Forall_range_ge (a b : Z) : Forall (fun x => a <= x) (range a b).
Proof. apply Forall_forall. intros x Hx. apply elem_of_range in Hx. lia. Qed.

Lemma sample_row_total (r : Z) :
  1 <= r -> exists line, sample_row sheet r = Ok line.
Proof.
  intros Hr. unfold sample_row.
  erewrite (for_each_total _
              (fun row_data c =>
                 if truthy (value_at sheet r c)
                 then row_data ++ [str (value_at sheet r c)] else row_data)
              (fun c => 1 <= c)).
  - cbn [bind]. eauto.
  - intros acc c Hc. by rewrite cell_ok.
  - apply Forall_range_ge.
Qed.

Lemma sample_text_total : exists sample, sample_text sheet = Ok sample.
Proof.
  unfold sample_text.
  assert (Hloop : forall rows acc,
             Forall (fun r => 1 <= r) rows ->
             exists sample_data,
               for_each (fun sample_data r =>
                           let* line := sample_row sheet r in
                           Ok (sample_data ++ [line])) rows acc
               = Ok sample_data).
  { induction rows as [|r rows IH]; intros acc Hrows; simpl; [eauto|].
    inversion Hrows as [|? ? Hr Hrest]; subst.
    destruct (sample_row_total r Hr) as [line ->]. cbn [bind].
    by apply IH. }
  destruct (Hloop (range 1 (Z.min 20 (max_row sheet + 1))) []
              (Forall_range_ge _ _)) as [sample_data ->].
  cbn [bind]. eauto.
Qed.

End ClassifierFacts.

(** C8. A workbook whose first sheet is named exactly ["CEA"] and has at
    most 6 columns, and whose sample text holds none of the marker texts,
    is classified as the approval form. *)
Theorem C8_structural_fallback (workbook : Workbook) :
  title (first_sheet workbook) = "CEA" ->
  max_column (first_sheet workbook) <= 6 ->
  (forall sample,
      sample_text (first_sheet workbook) = Ok sample ->
      no_keyword_markers sample = true) ->
  identify_template_type workbook = Ok (Some CEA).
Proof.
  intros Hname Hcols Hmarkers.
  destruct (sample_text_total (first_sheet workbook)) as [sample Hsample].
  specialize (Hmarkers sample Hsample).
  unfold no_keyword_markers, keyword_markers in Hmarkers.
  cbn [forallb] in Hmarkers.
  repeat (apply andb_true_iff in Hmarkers as [?%negb_true_iff Hmarkers]).
  unfold identify_template_type.
  rewrite sheet0_first. cbn [bind]. rewrite Hsample. cbn [bind].
  repeat match goal with H : contains _ sample = false |- _ =>
    rewrite H; clear H end.
  rewrite Hname. cbn [andb orb].
  destruct (Z.leb_spec (max_column (first_sheet workbook)) 6); [|lia].
  reflexivity.
Qed.

(** C8 on an approval form of six columns without marker texts. *)
Lemma C8_structural_fallback_witness :
  identify_template_type plain_cea_workbook = Ok (Some CEA).
Proof.
  apply (C8_structural_fallback plain_cea_workbook).
  - reflexivity.
  - vm_compute. discriminate.
  - intros sample Hsample. vm_compute in Hsample.
    injection Hsample as <-. vm_compute. reflexivity.
Defined.

(* ===================================================================== *)
(** * The signature block of the extended variant *)
(* ===================================================================== *)

(** C4. A signature cell of the extended variant with the text
    ["15.03.2024\nJohn Doe"] gives the signature date 2024-03-15 (stored in
    ISO form, at midnight) and the signature text ["John Doe"]; the cell
    ["not-a-date\nJohn Doe"] gives no date and its whole text as the
    signature.  For any cell text whose first line does not parse with the
    format [%d.%m.%Y], the date of the party is left as it was and the
    signature list is the whole text, for the producing party and for the
    customer alike. *)
Theorem C4_signature_dates :
  extract_metadata signature_workbook starteam = Ok signature_metadata
  /\ stgSignatureDate signature_metadata = Some "2024-03-15T00:00:00"
  /\ stgSignatures signature_metadata = ["John Doe"]
  /\ customerSignatureDate signature_metadata = None
  /\ customerSignatures signature_metadata = [undated_signature]
  /\ strptime (strip (first_line dated_signature))
     = Some {| year := 2024; month := 3; day := 15 |}
  /\ isoformat {| year := 2024; month := 3; day := 15 |}
     = "2024-03-15T00:00:00"
  /\ strptime (strip (first_line undated_signature)) = None
  /\ forall (text : string) (md : Metadata),
      match strptime (strip (first_line text)) with
      | Some _ => True
      | None =>
          let stg :=
            signature_payload set_stgSignatureDate set_stgSignatures
              text md in
          let customer :=
            signature_payload set_customerSignatureDate
              set_customerSignatures text md in
          stgSignatureDate stg = stgSignatureDate md
          /\ stgSignatures stg = [text]
          /\ customerSignatureDate customer = customerSignatureDate md
          /\ customerSignatures customer = [text]
      end.
Proof.
  repeat (split; [vm_compute; reflexivity|]).
  intros text md. unfold first_line, signature_payload.
  destruct (split nl text) as [|line [|second rest]] eqn:E; simpl.
  - by destruct (strptime (strip "")).
  - by destruct (strptime (strip line)).
  - by destruct (strptime (strip line)).
Qed.

(* ===================================================================== *)
(** * The image extractor *)
(* ===================================================================== *)

Section ImageFacts.

Lemma string_app_length (s t : string) :
  String.length (s +:+ t) = (String.length s + String.length t)%nat.
Proof. induction s as [|c s IH]; simpl; [done|]. by rewrite IH. Qed.

Lemma string_app_inj_r (s1 s2 t : string) : s1 +:+ t = s2 +:+ t -> s1 = s2.
Proof.
  revert s2. induction s1 as [|c s1 IH]; intros [|c2 s2]; simpl; try done.
  - intros H. apply (f_equal String.length) in H.
    rewrite ?string_app_length in H. simpl in H.
    rewrite ?string_app_length in H. lia.
  - intros H. apply (f_equal String.length) in H.
    rewrite ?string_app_length in H. simpl in H.
    rewrite ?string_app_length in H. lia.
  - intros [= -> H]. f_equal. by apply IH.
Qed.

Lemma image_filename_inj (m n : Z) :
  image_filename m = image_filename n -> m = n.
Proof.
  unfold image_filename. intros H.
  apply String.app_inj in H. apply string_app_inj_r in H.
  by apply str_int_inj.
Qed.

(** ** The numbering *)

Lemma numbered_fst (k : Z) (ds : list Drawing) :
  fst <$> numbered k ds = seqZ k (Z.of_nat (length (numbered k ds))).
Proof.
  revert k. induction ds as [|d ds IH]; intros k; simpl; [done|].
  destruct (anchor_from d); [|apply IH].
  simpl. rewrite IH. rewrite (seqZ_cons k) by lia.
  f_equal. f_equal. lia.
Qed.

Lemma numbered_app (k : Z) (ds1 ds2 : list Drawing) :
  numbered k (ds1 ++ ds2)
  = numbered k ds1 ++ numbered (k + Z.of_nat (length (numbered k ds1))) ds2.
Proof.
  revert k. induction ds1 as [|d ds1 IH]; intros k; simpl.
  - f_equal. lia.
  - destruct (anchor_from d); [|apply IH].
    simpl. rewrite IH. do 3 f_equal. lia.
Qed.

Lemma numbered_anchored (k n : Z) (ds : list Drawing) (d : Drawing) :
  (n, d) ∈ numbered k ds -> is_Some (anchor_from d) /\ k <= n.
Proof.
  revert k. induction ds as [|d0 ds IH]; intros k; simpl.
  - by intros ?%elem_of_nil.
  - destruct (anchor_from d0) eqn:E.
    + intros [Heq|H]%elem_of_cons.
      * injection Heq as -> ->. split; [eauto|lia].
      * apply IH in H as [? ?]. split; [done|lia].
    + apply IH.
Qed.

Lemma numbered_NoDup (k : Z) (ds : list Drawing) :
  NoDup (fst <$> numbered k ds).
Proof. rewrite numbered_fst. apply NoDup_seqZ. Qed.

Lemma numbered_functional (k n : Z) (ds : list Drawing) (d d' : Drawing) :
  (n, d) ∈ numbered k ds -> (n, d') ∈ numbered k ds -> d = d'.
Proof.
  pose proof (numbered_NoDup k ds) as Hnd.
  induction (numbered k ds) as [|[n0 d0] l IH]; [by intros ?%elem_of_nil|].
  rewrite fmap_cons in Hnd. apply NoDup_cons in Hnd as [Hn0 Hnd].
  intros [E1|H1]%elem_of_cons [E2|H2]%elem_of_cons.
  - congruence.
  - injection E1 as -> ->. exfalso. apply Hn0.
    apply list_elem_of_fmap. by exists (n0, d').
  - injection E2 as -> ->. exfalso. apply Hn0.
    apply list_elem_of_fmap. by exists (n0, d).
  - by apply IH.
Qed.

Lemma saved_at_elem (c : coord) (nds : list (Z * Drawing)) (n : Z) :
  n ∈ saved_at c nds <->
  exists d, (n, d) ∈ nds /\ coord_of d = Some c /\ decodes d = true.
Proof.
  unfold saved_at. rewrite list_elem_of_fmap. split.
  - intros ([n' d] & -> & H). apply list_elem_of_In, filter_In in H as [H1 H2].
    unfold saved_here in H2. apply andb_true_iff in H2 as [H2 H3].
    apply bool_decide_eq_true in H2. exists d.
    by rewrite list_elem_of_In.
  - intros (d & H1 & H2 & H3). exists (n, d). split; [done|].
    apply list_elem_of_In, filter_In. split; [by apply list_elem_of_In|].
    unfold saved_here. simpl. by rewrite H3, bool_decide_true.
Qed.

Lemma saved_at_app (c : coord) (l1 l2 : list (Z * Drawing)) :
  saved_at c (l1 ++ l2) = saved_at c l1 ++ saved_at c l2.
Proof. unfold saved_at. by rewrite List.filter_app, fmap_app. Qed.

Lemma filter_fst_sublist (c : coord) (nds : list (Z * Drawing)) :
  sublist (saved_at c nds) (fst <$> nds).
Proof. unfold saved_at. apply fmap_sublist, filter_sublist. Qed.

Lemma saved_at_NoDup (c : coord) (k : Z) (ds : list Drawing) :
  NoDup (saved_at c (numbered k ds)).
Proof.
  eapply sublist_NoDup; [apply numbered_NoDup|apply filter_fst_sublist].
Qed.

Lemma seqZ_sorted (k : Z) (n : nat) :
  StronglySorted Z.lt (seqZ k (Z.of_nat n)).
Proof.
  revert k. induction n as [|n IH]; intros k.
  - constructor.
  - rewrite (seqZ_cons k) by lia.
    replace (Z.pred (Z.of_nat (S n))) with (Z.of_nat n) by lia.
    constructor; [apply IH|].
    apply Forall_forall. intros x Hx. apply elem_of_seqZ in Hx. lia.
Qed.

Lemma sublist_sorted {A} (R : relation A) (l1 l2 : list A) :
  sublist l1 l2 -> StronglySorted R l2 -> StronglySorted R l1.
Proof.
  induction 1 as [|x l1 l2 Hsub IH|x l1 l2 Hsub IH]; intros Hs.
  - constructor.
  - apply StronglySorted_inv in Hs as [Hs Hall].
    constructor; [by apply IH|].
    rewrite Forall_forall in Hall |- *. intros y Hy.
    apply Hall. by eapply elem_of_sublist.
  - apply StronglySorted_inv in Hs as [Hs _]. by apply IH.
Qed.

Lemma saved_at_sorted (c : coord) (k : Z) (ds : list Drawing) :
  StronglySorted Z.lt (saved_at c (numbered k ds)).
Proof.
  eapply sublist_sorted; [apply filter_fst_sublist|].
  rewrite numbered_fst. apply seqZ_sorted.
Qed.

End ImageFacts.

Section ImageLoop.

Variable images_dir : string.

Lemma only_images_refl (w : World) : only_images images_dir w w.
Proof. exists []. split; [done|constructor]. Qed.

Lemma only_images_trans (w1 w2 w3 : World) :
  only_images images_dir w1 w2 -> only_images images_dir w2 w3 ->
  only_images images_dir w1 w3.
Proof.
  intros (n1 & E1 & F1) (n2 & E2 & F2). exists (n2 ++ n1). split.
  - by rewrite E2, E1, app_assoc.
  - by apply Forall_app.
Qed.

Lemma chr_inv (n x : Z) : chr n = Ok x -> x = n.
Proof. unfold chr. case_match; congruence. Qed.

Lemma lookup_names_insert (m : gmap coord (list string)) (c c' : coord)
    (l : list string) :
  lookup_names (<[c := l]> m) c'
  = if decide (c = c') then l else lookup_names m c'.
Proof.
  unfold lookup_names. rewrite lookup_insert. by case_decide.
Qed.

Lemma images_after_nil (m : gmap coord (list string)) (k : Z) :
  images_after m k [] (m, k).
Proof.
  split; simpl; [lia|]. intros c. by rewrite app_nil_r.
Qed.

Lemma images_after_app (m m1 : gmap coord (list string)) (k k1 : Z)
    (ds1 ds2 : list Drawing) (st : gmap coord (list string) * Z) :
  images_after m k ds1 (m1, k1) ->
  images_after m1 k1 ds2 st ->
  images_after m k (ds1 ++ ds2) st.
Proof.
  intros [Hk1 Hm1] [Hk Hm]. cbn [fst snd] in Hk1, Hm1. unfold images_after.
  rewrite numbered_app, <- Hk1. split.
  - rewrite Hk, length_app. lia.
  - intros c. rewrite Hm, Hm1, saved_at_app, fmap_app. by rewrite app_assoc.
Qed.

Lemma images_after_cons (m m1 : gmap coord (list string)) (k k1 : Z)
    (d : Drawing) (ds : list Drawing) (st : gmap coord (list string) * Z) :
  images_after m k [d] (m1, k1) ->
  images_after m1 k1 ds st ->
  images_after m k (d :: ds) st.
Proof. apply (images_after_app m m1 k k1 [d] ds). Qed.

(** One drawing. *)
Lemma extract_image_spec (m : gmap coord (list string)) (k : Z) (d : Drawing)
    (w w' : World) (r : result (gmap coord (list string) * Z)) :
  extract_image images_dir (m, k) d w = (w', r) ->
  only_images images_dir w w'
  /\ forall st, r = Ok st -> images_after m k [d] st.
Proof.
  unfold extract_image, images_after, saved_at, saved_here, coord_of, decodes.
  simpl. destruct (anchor_from d) as [[col row0]|] eqn:Ea; simpl.
  - unfold bindM, lift, try_except, write_file, ret.
    destruct (chr (ord_A + col)) as [letter|e] eqn:Ec.
    + apply chr_inv in Ec. subst letter.
      destruct (png d) as [data|] eqn:Ep; simpl.
      * intros [= <- <-]. split.
        -- exists [path_join images_dir (image_filename k)].
           split; [done|]. constructor; [by exists k|constructor].
        -- intros st [= <-]. simpl. split; [lia|].
           intros c. rewrite lookup_names_insert, Ea.
           case_decide as Hc.
           ++ subst c. by rewrite bool_decide_true.
           ++ rewrite bool_decide_false by congruence.
              simpl. by rewrite app_nil_r.
      * intros [= <- <-]. split; [apply only_images_refl|].
        intros st [= <-]. simpl. split; [lia|].
        intros c. rewrite andb_false_r. simpl. by rewrite app_nil_r.
    + intros [= <- <-]. split; [apply only_images_refl|done].
  - unfold ret. intros [= <- <-]. split; [apply only_images_refl|].
    intros st [= <-]. simpl. split; [lia|].
    intros c. by rewrite app_nil_r.
Qed.

(** The drawings of one sheet. *)
Lemma extract_image_loop_spec (ds : list Drawing)
    (m : gmap coord (list string)) (k : Z) (w w' : World)
    (r : result (gmap coord (list string) * Z)) :
  for_eachM (extract_image images_dir) ds (m, k) w = (w', r) ->
  only_images images_dir w w'
  /\ forall st, r = Ok st -> images_after m k ds st.
Proof.
  revert m k w. induction ds as [|d ds IH]; intros m k w; cbn [for_eachM].
  - unfold ret. intros [= <- <-]. split; [apply only_images_refl|].
    intros st [= <-]. apply images_after_nil.
  - unfold bindM at 1.
    destruct (extract_image images_dir (m, k) d w) as [w1 [[m1 k1]|e]] eqn:E1.
    + apply extract_image_spec in E1 as [Hw1 Hst1].
      intros H. apply IH in H as [Hw Hst]. split.
      * by eapply only_images_trans.
      * intros st Hr. eapply images_after_cons; [by apply Hst1|by apply Hst].
    + apply extract_image_spec in E1 as [Hw1 _].
      intros [= <- <-]. split; [done|done].
Qed.

Variable workbook : Workbook.

(** The sheets, name by name. *)
Lemma extract_sheets_spec (names : list string)
    (m : gmap coord (list string)) (k : Z) (w w' : World)
    (r : result (gmap coord (list string) * Z)) :
  for_eachM (extract_sheet_images workbook images_dir) names (m, k) w
  = (w', r) ->
  only_images images_dir w w'
  /\ forall st, r = Ok st ->
       images_after m k (concat (drawings_of workbook <$> names)) st.
Proof.
  revert m k w. induction names as [|sheet_name names IH]; intros m k w;
    cbn [for_eachM]; rewrite ?fmap_cons; cbn [concat].
  - unfold ret. intros [= <- <-]. split; [apply only_images_refl|].
    intros st [= <-]. apply images_after_nil.
  - unfold bindM at 1. unfold extract_sheet_images at 1.
    unfold bindM at 1, lift. unfold drawings_of at 1.
    destruct (getitem workbook sheet_name) as [sheet|e] eqn:Eg.
    + destruct (for_eachM (extract_image images_dir) (_images sheet) (m, k) w)
        as [w1 [[m1 k1]|e]] eqn:E1.
      * apply extract_image_loop_spec in E1 as [Hw1 Hst1].
        intros H. apply IH in H as [Hw Hst]. split.
        -- by eapply only_images_trans.
        -- intros st Hr.
           eapply images_after_app; [by apply Hst1|by apply Hst].
      * apply extract_image_loop_spec in E1 as [Hw1 _].
        intros [= <- <-]. by split.
    + intros [= <- <-]. split; [apply only_images_refl|done].
Qed.

End ImageLoop.

(** The image map of a workbook: at each coordinate, the file names of the
    drawings anchored there whose image was saved, each named by the
    number it has among the anchored drawings of the workbook. *)
Lemma extract_images_spec (workbook : Workbook) (output_dir : string)
    (w w' : World) (r : result (gmap coord (list string))) :
  extract_images workbook output_dir w = (w', r) ->
  only_images (path_join output_dir "images") w w'
  /\ forall m, r = Ok m ->
       forall c,
         lookup_names m c
         = image_filename
           <$> saved_at c (numbered 1 (visited_drawings workbook)).
Proof.
  unfold extract_images, bindM, makedirs.
  match goal with |- context [for_eachM ?f ?l ?st ?w0] =>
    destruct (for_eachM f l st w0) as [w1 [[m1 k1]|e]] eqn:E end.
  - apply extract_sheets_spec in E as [Hw Hst].
    unfold ret. intros [= <- <-]. split.
    + destruct Hw as (new & Hnew & Hall). by exists new.
    + intros m [= <-]. destruct (Hst _ eq_refl) as [_ Hm]. simpl in Hm.
      intros c. rewrite Hm. unfold lookup_names at 1.
      by rewrite lookup_empty.
  - apply extract_sheets_spec in E as [Hw _].
    intros [= <- <-]. split; [|done].
    destruct Hw as (new & Hnew & Hall). by exists new.
Qed.

(** C9. In the image map of a document every file name is
    [image_<n>.png], where [n] is the rank the drawing has among the
    anchored drawings of all the sheets, counted from 1 in the order the
    extractor meets them, whether or not the earlier ones could be saved.
    So the numbers of each list are at least 1 and increase strictly, no
    file name occurs twice in the whole map, and the number of a drawing
    whose image could not be saved is in no name of the map. *)
Theorem C9_image_file_names (workbook : Workbook) (output_dir : string)
    (w w' : World) (m : gmap coord (list string)) :
  extract_images workbook output_dir w = (w', Ok m) ->
  let discovered := numbered 1 (visited_drawings workbook) in
  fst <$> discovered = seqZ 1 (Z.of_nat (length discovered))
  /\ (forall c names,
        m !! c = Some names ->
        names = image_filename <$> saved_at c discovered
        /\ StronglySorted Z.lt (saved_at c discovered)
        /\ Forall (fun n => 1 <= n) (saved_at c discovered))
  /\ (forall c n,
        n ∈ saved_at c discovered <->
        exists d, (n, d) ∈ discovered /\ coord_of d = Some c
                  /\ decodes d = true)
  /\ (forall c1 c2 l1 l2 (i j : nat) x,
        m !! c1 = Some l1 -> m !! c2 = Some l2 ->
        l1 !! i = Some x -> l2 !! j = Some x ->
        c1 = c2 /\ i = j)
  /\ (forall n d,
        (n, d) ∈ discovered -> decodes d = false ->
        forall c names, m !! c = Some names -> image_filename n ∉ names).
Proof.
  intros Hrun discovered.
  apply extract_images_spec in Hrun as [_ Hm]. specialize (Hm m eq_refl).
  assert (Hnames : forall c names,
             m !! c = Some names ->
             names = image_filename <$> saved_at c discovered).
  { intros c names Hc. rewrite <- Hm. unfold lookup_names. by rewrite Hc. }
  split; [apply numbered_fst|]. split; [|split; [|split]].
  - intros c names Hc. split; [by apply Hnames|].
    split; [apply saved_at_sorted|].
    apply Forall_forall. intros n Hn.
    apply saved_at_elem in Hn as (d & Hd & _).
    by apply numbered_anchored in Hd as [_ ?].
  - intros c n. apply saved_at_elem.
  - intros c1 c2 l1 l2 i j x H1 H2 Hi Hj.
    rewrite (Hnames _ _ H1) in Hi. rewrite (Hnames _ _ H2) in Hj.
    apply list_lookup_fmap_Some in Hi as (n1 & -> & Hi).
    apply list_lookup_fmap_Some in Hj as (n2 & E & Hj).
    apply image_filename_inj in E. subst n2.
    assert (c1 = c2) as <-.
    { apply list_elem_of_lookup_2 in Hi, Hj.
      apply saved_at_elem in Hi as (d1 & Hd1 & Hc1 & _).
      apply saved_at_elem in Hj as (d2 & Hd2 & Hc2 & _).
      rewrite (numbered_functional _ _ _ _ _ Hd1 Hd2) in Hc1. congruence. }
    split; [done|].
    eapply NoDup_lookup; [apply saved_at_NoDup|exact Hi|exact Hj].
  - intros n d Hd Hfail c names Hc Hin.
    rewrite (Hnames _ _ Hc) in Hin.
    apply list_elem_of_fmap in Hin as (n' & E & Hn').
    apply image_filename_inj in E. subst n'.
    apply saved_at_elem in Hn' as (d' & Hd' & _ & Hok).
    rewrite (numbered_functional _ _ _ _ _ Hd Hd') in Hfail. congruence.
Qed.

(** C9 on a sheet whose first drawing does not decode: the two saved
    images are numbered 2 and 3, and no name carries the number 1. *)
Lemma C9_image_file_names_witness :
  exists w' m,
    extract_images image_workbook "out/a" empty_world = (w', Ok m)
    /\ m !! cell_coord 66 11 = Some ["image_2.png"]
    /\ m !! cell_coord 67 11 = Some ["image_3.png"]
    /\ (forall c names,
          m !! c = Some names -> "image_1.png" ∉ names).
Proof.
  destruct (extract_images image_workbook "out/a" empty_world)
    as [w' r] eqn:Hrun.
  assert (exists m, r = Ok m) as [m ->].
  { vm_compute in Hrun. injection Hrun as _ <-. eauto. }
  exists w', m. split; [done|].
  pose proof (C9_image_file_names _ _ _ _ _ Hrun) as (_ & _ & _ & _ & Hfail).
  split; [|split].
  - vm_compute in Hrun. injection Hrun as _ <-. reflexivity.
  - vm_compute in Hrun. injection Hrun as _ <-. reflexivity.
  - apply (Hfail 1 {| anchor_from := Some (1, 10); png := None |}).
    + vm_compute. apply list_elem_of_here.
    + reflexivity.
Defined.

(* ===================================================================== *)
(** * Images and questions *)
(* ===================================================================== *)

Section Binding.

Lemma count_str_absent (x : string) (l : list string) :
  x ∉ l -> count_str x l = 0%nat.
Proof.
  unfold count_str. induction l as [|y l IH]; simpl; [done|].
  intros Hx. apply not_elem_of_cons in Hx as [Hxy Hl].
  destruct (String.eqb_spec y x); [congruence|]. by apply IH.
Qed.

Lemma count_str_once (x : string) (l : list string) :
  NoDup l -> x ∈ l -> count_str x l = 1%nat.
Proof.
  unfold count_str. induction 1 as [|y l Hy Hnd IH]; simpl.
  - by intros ?%elem_of_nil.
  - intros [->|Hx]%elem_of_cons.
    + rewrite String.eqb_refl. simpl. f_equal. by apply count_str_absent.
    + destruct (String.eqb_spec y x) as [->|_]; [done|]. by apply IH.
Qed.

Lemma count_name_infos (now x : string) (names : list string) :
  count_name x (image_infos now names) = count_str x names.
Proof.
  unfold count_name, count_str, image_infos.
  induction names as [|y names IH]; simpl; [done|].
  destruct (String.eqb y x); simpl; [f_equal|]; apply IH.
Qed.

Lemma sum_indicator (r : Z) (rows : list Z) :
  NoDup rows -> r ∈ rows ->
  sum_list ((fun r' => if decide (r' = r) then 1%nat else 0%nat) <$> rows)
  = 1%nat.
Proof.
  induction 1 as [|r0 rows Hr0 Hnd IH]; simpl.
  - by intros ?%elem_of_nil.
  - intros [->|Hr]%elem_of_cons.
    + rewrite decide_True by done. f_equal.
      clear IH Hnd. induction rows as [|y rows IH]; simpl; [done|].
      apply not_elem_of_cons in Hr0 as [Hne Hr0].
      rewrite decide_False by done. by apply IH.
    + rewrite decide_False by (intros ->; done). by apply IH.
Qed.

Lemma filter_NoDup {A} (f : A -> bool) (l : list A) :
  NoDup l -> NoDup (List.filter f l).
Proof. intros H. eapply sublist_NoDup; [exact H|apply filter_sublist]. Qed.

Lemma question_rows_NoDup (sheet : Worksheet) (template_type : template) :
  NoDup (question_rows sheet template_type).
Proof. apply filter_NoDup, NoDup_range. Qed.

End Binding.

Section BindingOfOneImage.

Variable workbook : Workbook.
Variable m : gmap coord (list string).

Hypothesis map_spec :
  forall c,
    lookup_names m c
    = image_filename <$> saved_at c (numbered 1 (visited_drawings workbook)).

Variable x : string.
Variable c0 : coord.
Hypothesis x_at_c0 : x ∈ lookup_names m c0.

Lemma lookup_names_NoDup (c : coord) : NoDup (lookup_names m c).
Proof.
  rewrite map_spec. apply NoDup_fmap_2; [|apply saved_at_NoDup].
  intros a b. apply image_filename_inj.
Qed.

Lemma name_at_one_coord (c : coord) : x ∈ lookup_names m c -> c = c0.
Proof.
  intros Hc. pose proof x_at_c0 as H0. rewrite map_spec in Hc, H0.
  apply list_elem_of_fmap in Hc as (n & -> & Hn).
  apply list_elem_of_fmap in H0 as (n0 & E & Hn0).
  apply image_filename_inj in E. subst n0.
  apply saved_at_elem in Hn as (d & Hd & Hc & _).
  apply saved_at_elem in Hn0 as (d0 & Hd0 & Hc0 & _).
  rewrite (numbered_functional _ _ _ _ _ Hd Hd0) in Hc. congruence.
Qed.

Lemma count_at_coord (c : coord) :
  count_str x (lookup_names m c) = if decide (c = c0) then 1%nat else 0%nat.
Proof.
  case_decide as Hc.
  - subst c. apply count_str_once; [apply lookup_names_NoDup|apply x_at_c0].
  - apply count_str_absent. intros Hx. by apply Hc, name_at_one_coord.
Qed.

End BindingOfOneImage.

(** C3. Take the image map of a workbook and a file name [x] it holds for
    the cell (r, col), where [r] is a question row and [col] the
    description, suggestion or response column of the template.  Then [x]
    occurs exactly once in all the image lists of all the questions: in
    the list that belongs to column [col], of the question made from row
    [r].  (The images of the map are those that were saved; see C9.) *)
Theorem C3_image_binding (now : string) (workbook : Workbook)
    (template_type : template) (output_dir : string) (w w' : World)
    (m : gmap coord (list string)) (r col : Z) (x : string) :
  extract_images workbook output_dir w = (w', Ok m) ->
  r ∈ question_rows (first_sheet workbook) template_type ->
  is_role_column template_type col = true ->
  x ∈ images_at m r col ->
  exists questions,
    extract_questions now workbook template_type m = Ok questions
    /\ total_occurrences x questions = 1%nat
    /\ exists (i : nat) question,
        question_rows (first_sheet workbook) template_type !! i = Some r
        /\ questions !! i = Some question
        /\ count_name x (images_of_column template_type col question)
           = 1%nat
        /\ occurrences x question = 1%nat.
Proof.
  intros Hrun Hr Hcol Hx.
  apply extract_images_spec in Hrun as [_ Hm]. specialize (Hm m eq_refl).
  set (sheet := first_sheet workbook) in *.
  set (c0 := cell_coord (ord_A + col - 1) r).
  pose proof (count_at_coord workbook m Hm x c0 Hx) as Hcount.
  assert (Hocc : forall r',
    occurrences x (question_of_row now sheet template_type m r')
    = (if decide (r' = r) then 1%nat else 0%nat)
    /\ (r' = r ->
        count_name x
          (images_of_column template_type col
             (question_of_row now sheet template_type m r')) = 1%nat)).
  { assert (Hcell : forall r' col',
      count_name x (image_infos now (images_at m r' col'))
      = if decide (r' = r /\ col' = col) then 1%nat else 0%nat).
    { intros r' col'. rewrite count_name_infos.
      change (images_at m r' col')
        with (lookup_names m (cell_coord (ord_A + col' - 1) r')).
      rewrite Hcount. unfold c0, cell_coord.
      destruct (decide (r' = r /\ col' = col)) as [[-> ->]|Hne].
      - by rewrite decide_True.
      - rewrite decide_False; [done|].
        intros [= E1 E2]. apply Hne. split; lia. }
    intros r'. unfold occurrences, images_of_column, is_role_column in *.
    destruct template_type; cbn [question_columns] in Hcol |- *;
      cbv beta iota in Hcol |- *;
      unfold question_of_row; cbn [question_columns]; cbv beta iota;
      cbn [descriptionImages suggestionImages customerResponseImages];
      repeat (apply orb_prop in Hcol as [Hcol|Hcol]);
      apply Z.eqb_eq in Hcol; subst col;
      cbn [Z.eqb Pos.eqb];
      cbn [descriptionImages suggestionImages customerResponseImages];
      rewrite !Hcell;
      (split; [repeat case_decide; try lia; exfalso; intuition lia|]);
      intros ->; rewrite decide_True; done. }
  eexists. split; [apply extract_questions_spec|]. fold sheet. split.
  - unfold total_occurrences. rewrite <- list_fmap_compose.
    erewrite list_fmap_ext; [apply (sum_indicator r)|].
    + apply question_rows_NoDup.
    + exact Hr.
    + intros i r' _. simpl. apply Hocc.
  - apply list_elem_of_lookup_1 in Hr as [i Hi].
    exists i, (question_of_row now sheet template_type m r).
    split; [done|]. split; [by rewrite list_lookup_fmap, Hi|].
    destruct (Hocc r) as [H1 H2]. split; [by apply H2|].
    by rewrite H1, decide_True.
Qed.

(** C3 on the same sheet: the image saved for the description cell of row
    11 occurs once over the questions. *)
Lemma C3_image_binding_witness :
  exists w' m questions,
    extract_images image_workbook "processed_data/odd" empty_world
    = (w', Ok m)
    /\ extract_questions "2024-03-15T10:00:00" image_workbook CEA m
       = Ok questions
    /\ total_occurrences "image_2.png" questions = 1%nat.
Proof.
  destruct (extract_images image_workbook "processed_data/odd" empty_world)
    as [w' r] eqn:Hrun.
  assert (exists m, r = Ok m) as [m ->].
  { vm_compute in Hrun. injection Hrun as _ <-. eauto. }
  assert (Hrows : question_rows (first_sheet image_workbook) CEA = [11])
    by (vm_compute; reflexivity).
  assert (Hx : "image_2.png" ∈ images_at m 11 2).
  { pose proof (extract_images_spec _ _ _ _ _ Hrun) as [_ Hm].
    change (images_at m 11 2) with (lookup_names m (cell_coord 66 11)).
    rewrite (Hm m eq_refl). vm_compute. apply list_elem_of_here. }
  destruct (C3_image_binding "2024-03-15T10:00:00" image_workbook CEA
              "processed_data/odd" empty_world w' m 11 2 "image_2.png"
              Hrun)
    as (questions & Hq & Htotal & _).
  - rewrite Hrows. apply list_elem_of_here.
  - reflexivity.
  - exact Hx.
  - exists w', m, questions. done.
Defined.

(** Two runs beside the claim.  The drawing at B11 whose data do not
    decode is in no list.  The key of the image map does not name the
    sheet: a drawing anchored at B11 of a second sheet is bound to the
    description of the question of row 11 as well. *)
Example undecodable_image_run :
  match extract_images image_workbook "processed_data/odd" empty_world with
  | (_, Ok m) =>
      match extract_questions "" image_workbook CEA m with
      | Ok questions => total_occurrences "image_1.png" questions = 0%nat
      | Raise _ => False
      end
  | (_, Raise _) => False
  end.
Proof. vm_compute. reflexivity. Qed.

Example second_sheet_image_run :
  match extract_images two_sheet_workbook "processed_data/odd" empty_world
  with
  | (_, Ok m) =>
      match extract_questions "" two_sheet_workbook CEA m with
      | Ok questions =>
          (fun question => name <$> descriptionImages question) <$> questions
          = [["image_2.png"; "image_4.png"]]
      | Raise _ => False
      end
  | (_, Raise _) => False
  end.
Proof. vm_compute. reflexivity. Qed.

(* ===================================================================== *)
(** * Paths *)
(* ===================================================================== *)

Section PathFacts.

Lemma string_app_cons (x : ascii) (s t : string) :
  String x s +:+ t = String x (s +:+ t).
Proof. reflexivity. Qed.

Lemma string_app_assoc (a b c : string) : (a +:+ b) +:+ c = a +:+ (b +:+ c).
Proof.
  induction a as [|x a IH]; [done|]. rewrite !string_app_cons. by f_equal.
Qed.

Lemma last_char_app (s t : string) :
  t <> "" -> last_char (s +:+ t) = last_char t.
Proof.
  intros Ht. induction s as [|c s IH]; [done|].
  rewrite string_app_cons. simpl.
  destruct (s +:+ t) eqn:E.
  - destruct s; simpl in E; [by subst|done].
  - by rewrite <- IH.
Qed.



Lemma path_join_relative (a b : string) :
  startswith slash b = false -> path_join a b = dir_prefix a +:+ b.
Proof.
  intros Hb. unfold path_join, dir_prefix. rewrite Hb.
  destruct (negb (nonempty a) || endswith slash a); [done|].
  symmetry. apply string_app_assoc.
Qed.

Lemma path_join_inj (a b1 b2 : string) :
  startswith slash b1 = false -> startswith slash b2 = false ->
  path_join a b1 = path_join a b2 -> b1 = b2.
Proof.
  intros H1 H2. rewrite !path_join_relative by done.
  apply String.app_inj.
Qed.







Lemma dir_prefix_images (a : string) (name : string) :
  startswith slash name = false ->
  path_join (path_join a "images") name
  = dir_prefix a +:+ "images/" +:+ name.
Proof.
  intros Hname. rewrite (path_join_relative a "images") by done.
  rewrite (path_join_relative _ name) by done.
  unfold dir_prefix at 1.
  assert (Hlast : last_char (dir_prefix a +:+ "images") = Some "s"%char)
    by (by rewrite last_char_app).
  unfold endswith. rewrite Hlast.
  assert (nonempty (dir_prefix a +:+ "images") = true) as ->.
  { destruct (dir_prefix a +:+ "images") eqn:E; [|done]. by simpl in Hlast. }
  simpl. by rewrite !string_app_assoc.
Qed.

Lemma image_filename_relative (k : Z) :
  startswith slash (image_filename k) = false.
Proof. reflexivity. Qed.

(** No image file of a document is its [index.json] or [index.xlsx]. *)
Lemma image_path_not_index (a : string) (k : Z) :
  path_join (path_join a "images") (image_filename k)
  <> path_join a "index.json".
Proof.
  rewrite dir_prefix_images by apply image_filename_relative.
  rewrite (path_join_relative a "index.json") by done.
  intros H. apply String.app_inj in H. discriminate.
Qed.

Lemma index_json_not_xlsx (a : string) :
  path_join a "index.xlsx" <> path_join a "index.json".
Proof. intros H. by apply path_join_inj in H. Qed.

End PathFacts.

(* ===================================================================== *)
(** * The per-file driver *)
(* ===================================================================== *)

Section Driver.

Variable now : string.
Variable parse_workbook : content -> result Workbook.
Variable copy_error : copy_oracle.

Lemma load_workbook_ok (file_path : string) (w : World) (c : content)
    (workbook : Workbook) :
  files w !! file_path = Some c -> parse_workbook c = Ok workbook ->
  load_workbook parse_workbook file_path w = (w, Ok workbook).
Proof.
  intros Hc Hp. unfold load_workbook, bindM, read_file, lift.
  by rewrite Hc, Hp.
Qed.

Lemma load_workbook_world (file_path : string) (w w' : World)
    (r : result Workbook) :
  load_workbook parse_workbook file_path w = (w', r) -> w' = w.
Proof.
  unfold load_workbook, bindM, read_file, lift.
  destruct (files w !! file_path); by intros [= <- _].
Qed.


End Driver.




Section Staging.

Variable now : string.
Variable parse_workbook : content -> result Workbook.
Variable copy_error : copy_oracle.
Variables file_path output_dir outlier_dir : string.

Lemma process_recognised (w : World) (c : content) (workbook : Workbook)
    (template_type : template) :
  files w !! file_path = Some c ->
  parse_workbook c = Ok workbook ->
  identify_template_type workbook = Ok (Some template_type) ->
  process_excel_file now parse_workbook copy_error file_path output_dir
    outlier_dir w
  = match extract_document now file_path output_dir workbook template_type w
    with
    | (w1, Raise _) => (w1, Ok (false, false))
    | (w1, Ok eq_data) =>
        if fst (validate_extracted_data eq_data)
        then match publish copy_error file_path output_dir eq_data w1 with
             | (w2, Ok r) => (w2, Ok r)
             | (w2, Raise _) => (w2, Ok (false, false))
             end
        else (w1, Ok (false, false))
    end.
Proof.
  intros Hc Hp Hid.
  unfold process_excel_file, try_except. unfold bindM at 1.
  rewrite (load_workbook_ok _ _ _ _ _ Hc Hp).
  unfold bindM at 1. unfold lift at 1. rewrite Hid.
  unfold extract_document, publish.
  fold (file_output_dir output_dir file_path).
  set (fod := file_output_dir output_dir file_path).
  unfold bindM, lift, ret, makedirs.
  destruct (extract_metadata workbook template_type) as [md|e]; [|done].
  match goal with |- context [extract_images workbook fod ?w0] =>
    destruct (extract_images workbook fod w0) as [w1 [m|e]]; [|done] end.
  destruct (extract_questions now workbook template_type m) as [qs|e];
    [|done].
  destruct (validate_extracted_data
              (map_to_schema now md qs (basename file_path)))
    as [is_valid errors]. cbn [fst negb].
  destruct is_valid; [|done].
  unfold try_except, write_file. cbn [negb].
  match goal with |- context [copy2 ?src ?dst ?w0] =>
    by destruct (copy2 src dst w0) as [w3 [[]|e]] end.
Qed.

Lemma extract_document_writes (w w1 : World) (workbook : Workbook)
    (template_type : template) (r : result Document) :
  extract_document now file_path output_dir workbook template_type w
  = (w1, r) ->
  only_images (images_dir_of output_dir file_path) w w1.
Proof.
  unfold extract_document, images_dir_of.
  set (fod := file_output_dir output_dir file_path).
  unfold bindM at 1. unfold makedirs at 1.
  unfold bindM at 1. unfold lift at 1.
  destruct (extract_metadata workbook template_type) as [md|e].
  - unfold bindM at 1.
    match goal with |- context [extract_images workbook fod ?w0] =>
      destruct (extract_images workbook fod w0) as [w' [m|e]] eqn:Ei end.
    + apply extract_images_spec in Ei as [(new & Hnew & Hall) _].
      unfold bindM, lift, ret.
      destruct (extract_questions now workbook template_type m);
        intros [= <- _]; by exists new.
    + apply extract_images_spec in Ei as [(new & Hnew & Hall) _].
      intros [= <- _]. by exists new.
  - intros [= <- _]. exists []. by split; [|constructor].
Qed.

Lemma only_images_without_index (w w1 : World) :
  only_images (images_dir_of output_dir file_path) w w1 ->
  exists new,
    written w1 = new ++ written w
    /\ (index_json output_dir file_path ∉ new)
    /\ Forall (fun p => exists k,
                 p = path_join (images_dir_of output_dir file_path)
                       (image_filename k)) new.
Proof.
  intros (new & Hnew & Hall). exists new. split; [done|]. split; [|done].
  intros Hin. rewrite Forall_forall in Hall.
  destruct (Hall _ Hin) as [k Hk]. symmetry in Hk.
  by apply image_path_not_index in Hk.
Qed.

Lemma publish_spec (eq_data : Document) (w1 : World) :
  exists w2 new,
    publish copy_error file_path output_dir eq_data w1 = (w2, Ok (true, false))
    /\ written w2 = new ++ written w1
    /\ (index_json output_dir file_path ∈ new)
    /\ files w2 !! index_json output_dir file_path = Some (Json eq_data).
Proof.
  unfold publish, index_json.
  set (fod := file_output_dir output_dir file_path).
  unfold bindM at 1. unfold write_file at 1.
  unfold bindM at 1. unfold try_except, copy2, bindM, read_file.
  cbn [files].
  match goal with |- context [?fs !! file_path] =>
    destruct (fs !! file_path) as [c|] eqn:Ec end.
  - destruct (String.eqb file_path (path_join fod "index.xlsx")) eqn:Ex.
    + unfold lift, ret. eexists _, [_]. split; [reflexivity|].
      cbn [written files]. split; [done|].
      split; [apply list_elem_of_here|]. by rewrite lookup_insert_eq.
    + match goal with |- context [copy_error ?w0 ?src ?dst] =>
        destruct (copy_error w0 src dst) end.
      * unfold ret. eexists _, [_]. split; [reflexivity|].
        cbn [written files]. split; [done|].
        split; [apply list_elem_of_here|]. by rewrite lookup_insert_eq.
      * unfold write_file, ret.
        eexists _, [_; _]. split; [reflexivity|].
        cbn [written files]. split; [done|].
        split; [apply list_elem_of_further, list_elem_of_here|].
        rewrite lookup_insert_ne by apply index_json_not_xlsx.
        by rewrite lookup_insert_eq.
  - unfold ret. eexists _, [_]. split; [reflexivity|].
    cbn [written files]. split; [done|].
    split; [apply list_elem_of_here|]. by rewrite lookup_insert_eq.
Qed.

End Staging.

Section DriverCases.

Variable now : string.
Variable parse_workbook : content -> result Workbook.
Variable copy_error : copy_oracle.
Variables file_path output_dir outlier_dir : string.

Lemma load_workbook_inv (w w' : World) (workbook : Workbook) :
  load_workbook parse_workbook file_path w = (w', Ok workbook) ->
  exists c, files w !! file_path = Some c /\ parse_workbook c = Ok workbook.
Proof.
  unfold load_workbook, bindM, read_file, lift.
  destruct (files w !! file_path) as [c|]; [|done].
  intros [= _ H]. eauto.
Qed.

Lemma failed_at_start (w : World) :
  process_excel_file now parse_workbook copy_error file_path output_dir
    outlier_dir w
  = (w, Ok (false, false)) ->
  failed_without_index now parse_workbook copy_error file_path output_dir
    outlier_dir
    w w.
Proof.
  intros H. split; [done|]. exists []. repeat split; [|constructor].
  by intros ?%elem_of_nil.
Qed.

End DriverCases.

(** C6 (amended).  A file whose workbook cannot be loaded or classified,
    whose extraction raises, or whose document fails the validation is
    marked failed, and [index.json] is not among the files the run has
    written.  What it has written are image files of the images directory
    of the document, and nothing else: they stay, as the directory does.
    A file whose document passes the validation is marked processed, and
    [index.json] is written, after the extraction, with that document.
    So [index.json] is written exactly when the validation passes. *)
Theorem C6_index_json_after_validation (now : string)
    (parse_workbook : content -> result Workbook)
    (copy_error : copy_oracle)
    (file_path output_dir outlier_dir : string) (w : World) :
  match load_workbook parse_workbook file_path w with
  | (_, Raise _) =>
      failed_without_index now parse_workbook copy_error file_path output_dir
        outlier_dir w w
  | (_, Ok workbook) =>
      match identify_template_type workbook with
      | Raise _ =>
          failed_without_index now parse_workbook copy_error file_path
            output_dir
            outlier_dir w w
      | Ok None => True
      | Ok (Some template_type) =>
          match extract_document now file_path output_dir workbook
                  template_type w with
          | (w1, Raise _) =>
              failed_without_index now parse_workbook copy_error file_path
                output_dir
                outlier_dir w w1
          | (w1, Ok eq_data) =>
              if fst (validate_extracted_data eq_data)
              then index_written now parse_workbook copy_error file_path
                  output_dir
                     outlier_dir w w1 eq_data
              else failed_without_index now parse_workbook copy_error file_path
                     output_dir outlier_dir w w1
          end
      end
  end.
Proof.
  destruct (load_workbook parse_workbook file_path w) as [w0 [workbook|e]]
    eqn:Hload.
  - pose proof (load_workbook_world _ _ _ _ _ Hload) as ->.
    destruct (load_workbook_inv _ _ _ _ _ Hload) as (c & Hc & Hp).
    destruct (identify_template_type workbook) as [[template_type|]|e]
      eqn:Hid; [|done|].
    + pose proof (process_recognised now parse_workbook copy_error file_path
                    output_dir
                    outlier_dir w c workbook template_type Hc Hp Hid)
        as Hrun.
      destruct (extract_document now file_path output_dir workbook
                  template_type w) as [w1 [eq_data|e]] eqn:Hdoc.
      * pose proof (extract_document_writes _ _ _ _ _ _ _ _ Hdoc) as Hw.
        destruct (fst (validate_extracted_data eq_data)).
        -- split; [done|].
           destruct (publish_spec copy_error file_path output_dir eq_data w1)
             as (w2 & new & Hpub & Hnew & Hin & Hfile).
           exists w2, new. rewrite Hpub in Hrun. done.
        -- split; [done|]. by apply only_images_without_index.
      * pose proof (extract_document_writes _ _ _ _ _ _ _ _ Hdoc) as Hw.
        split; [done|]. by apply only_images_without_index.
    + apply failed_at_start.
      unfold process_excel_file, try_except. unfold bindM at 1.
      rewrite Hload. unfold bindM at 1. unfold lift at 1. by rewrite Hid.
  - pose proof (load_workbook_world _ _ _ _ _ Hload) as ->.
    apply failed_at_start.
    unfold process_excel_file, try_except. unfold bindM at 1.
    by rewrite Hload.
Qed.

(** C6 as stated fails for a spreadsheet that was processed and is then
    saved again without its customer name.  The second run is marked
    failed and leaves the [index.json] of the first run as it is, but it
    has put its own picture in the place of [image_2.png], to which that
    [index.json] refers: output of the failed run is left. *)
Lemma C6_partial_output_counterexample :
  exists w1 w2 eq_data,
    process_excel_file "2024-03-15T10:00:00" (fun _ => Ok image_workbook)
      no_copy_error "raw_data/odd.xlsx" "processed_data" "outlier_files"
      input_world
    = (w1, Ok (true, false))
    /\ process_excel_file "2024-03-16T10:00:00"
         (fun _ => Ok revised_workbook)
         no_copy_error "raw_data/odd.xlsx" "processed_data" "outlier_files"
         w1
       = (w2, Ok (false, false))
    /\ files w1 !! "processed_data/odd/index.json" = Some (Json eq_data)
    /\ files w2 !! "processed_data/odd/index.json" = Some (Json eq_data)
    /\ files w1 !! "processed_data/odd/images/image_2.png" = Some (Bytes [])
    /\ files w2 !! "processed_data/odd/images/image_2.png"
       = Some (Bytes [Byte.x01])
    /\ ~ failed_without_output "2024-03-16T10:00:00"
           (fun _ => Ok revised_workbook) no_copy_error
           "raw_data/odd.xlsx" "processed_data" "outlier_files" w1.
Proof.
  set (w1 := fst (process_excel_file "2024-03-15T10:00:00"
                    (fun _ => Ok image_workbook) no_copy_error
                    "raw_data/odd.xlsx" "processed_data" "outlier_files"
                    input_world)).
  set (w2 := fst (process_excel_file "2024-03-16T10:00:00"
                    (fun _ => Ok revised_workbook) no_copy_error
                    "raw_data/odd.xlsx" "processed_data" "outlier_files"
                    w1)).
  assert (Hrun2 :
    process_excel_file "2024-03-16T10:00:00" (fun _ => Ok revised_workbook)
      no_copy_error "raw_data/odd.xlsx" "processed_data" "outlier_files" w1
    = (w2, Ok (false, false))) by (vm_compute; reflexivity).
  exists w1, w2. eexists.
  split; [vm_compute; reflexivity|]. split; [exact Hrun2|].
  split; [vm_compute; reflexivity|]. split; [vm_compute; reflexivity|].
  split; [vm_compute; reflexivity|]. split; [vm_compute; reflexivity|].
  intros (w2' & Hrun' & Hfiles).
  rewrite Hrun2 in Hrun'. injection Hrun' as <-.
  apply (f_equal (fun fs => fs !! "processed_data/odd/images/image_2.png"))
    in Hfiles.
  vm_compute in Hfiles. discriminate.
Qed.

(** A run beside C7: the rejected spreadsheet lies in the outlier
    directory and is named by a path that begins with a dot.  The place of
    its copy is another path, but the same file, so the operating system
    refuses the copy: the file counts as a failed outlier, and nothing is
    written. *)
Example dotted_path_run :
  path_join "outliers" (basename "./outliers/odd.xlsx")
  <> "./outliers/odd.xlsx"
  /\ process_excel_file "2024-03-15T10:00:00" (fun _ => Ok unknown_workbook)
       dot_copy_error "./outliers/odd.xlsx" "processed_data" "outliers"
       dotted_world
     = (dotted_world, Ok (false, true)).
Proof. split; [vm_compute; discriminate|vm_compute; reflexivity]. Qed.

(** Three runs of the driver: a document without customer name, whose
    image stays in the images directory although nothing else is written;
    a questionnaire too short for its signature scan, which faults in the
    metadata extractor; a document that passes. *)
Example validation_failure_run :
  let '(w', r) :=
    process_excel_file "2024-03-15T10:00:00" (fun _ => Ok nameless_workbook)
      no_copy_error "raw_data/odd.xlsx" "processed_data" "outlier_files"
      input_world in
  r = Ok (false, false)
  /\ written w' = ["processed_data/odd/images/image_1.png"]
  /\ files w' !! "processed_data/odd/index.json" = None.
Proof. vm_compute. done. Qed.

Example extraction_fault_run :
  extract_metadata short_workbook EQ = Raise ValueError
  /\ let '(w', r) :=
       process_excel_file "2024-03-15T10:00:00" (fun _ => Ok short_workbook)
         no_copy_error "raw_data/odd.xlsx" "processed_data" "outlier_files"
         input_world in
     r = Ok (false, false) /\ written w' = [].
Proof. vm_compute. done. Qed.

Example successful_run :
  let '(w', r) :=
    process_excel_file "2024-03-15T10:00:00" (fun _ => Ok image_workbook)
      no_copy_error "raw_data/odd.xlsx" "processed_data" "outlier_files"
      input_world in
  r = Ok (true, false)
  /\ written w'
     = [ "processed_data/odd/index.xlsx"; "processed_data/odd/index.json";
         "processed_data/odd/images/image_3.png";
         "processed_data/odd/images/image_2.png" ].
Proof. vm_compute. done. Qed.

(* ===================================================================== *)
(** * More about the classifier *)
(* ===================================================================== *)

Section ClassifierWindow.

Lemma for_each_ext {A S} (body1 body2 : S -> A -> result S) (xs : list A)
    (acc : S) :
  (forall acc x, x ∈ xs -> body1 acc x = body2 acc x) ->
  for_each body1 xs acc = for_each body2 xs acc.
Proof.
  revert acc. induction xs as [|x xs IH]; intros acc Hext; simpl; [done|].
  rewrite (Hext acc x) by apply list_elem_of_here.
  destruct (body2 acc x) as [acc'|e]; simpl; [|done].
  apply IH. intros acc0 y Hy. apply Hext. by apply list_elem_of_further.
Qed.

Variables sheet1 sheet2 : Worksheet.

Hypothesis same_rows : Z.min 19 (max_row sheet1) = Z.min 19 (max_row sheet2).
Hypothesis same_columns :
  Z.min 14 (max_column sheet1) = Z.min 14 (max_column sheet2).
Hypothesis same_window :
  forall r c, 1 <= r <= 19 -> 1 <= c <= 14 ->
              value_at sheet1 r c = value_at sheet2 r c.

Lemma sample_row_window (r : Z) :
  1 <= r <= 19 -> sample_row sheet1 r = sample_row sheet2 r.
Proof.
  intros Hr. unfold sample_row.
  replace (Z.min 15 (max_column sheet1 + 1))
    with (Z.min 15 (max_column sheet2 + 1)) by lia.
  erewrite for_each_ext; [reflexivity|].
  intros acc c Hc. apply elem_of_range in Hc.
  rewrite !cell_ok by lia. by rewrite same_window by lia.
Qed.

Lemma sample_text_window : sample_text sheet1 = sample_text sheet2.
Proof.
  unfold sample_text.
  replace (Z.min 20 (max_row sheet1 + 1))
    with (Z.min 20 (max_row sheet2 + 1)) by lia.
  erewrite for_each_ext; [reflexivity|].
  intros acc r Hr. apply elem_of_range in Hr.
  by rewrite sample_row_window by lia.
Qed.

End ClassifierWindow.

Section ClassifierRules.

Lemma prefix_app (needle rest : string) :
  String.prefix needle (needle +:+ rest) = true.
Proof.
  induction needle as [|a needle IH]; [by destruct rest|].
  rewrite string_app_cons. simpl. by destruct (ascii_dec a a).
Qed.

Lemma contains_unfold (needle hay : string) :
  contains needle hay
  = String.prefix needle hay
    || match hay with "" => false | String _ t => contains needle t end.
Proof. by destruct hay. Qed.

Lemma contains_app (needle before after : string) :
  contains needle (before +:+ needle +:+ after) = true.
Proof.
  induction before as [|a before IH].
  - change ("" +:+ needle +:+ after) with (needle +:+ after).
    by rewrite contains_unfold, prefix_app.
  - rewrite string_app_cons, contains_unfold, IH. apply orb_true_r.
Qed.

(** The decision of the classifier, once the sample is known. *)
Lemma identify_template_type_rules (workbook : Workbook) (sample : string) :
  sample_text (first_sheet workbook) = Ok sample ->
  identify_template_type workbook
  = Ok (let name0 := title (first_sheet workbook) in
        let columns := max_column (first_sheet workbook) in
        if approval_by_content sample name0 then Some CEA
        else if questionnaire_marker sample then
          if contains "STG Proposal" sample
             && contains "Customer Decision" sample
          then Some starteam else Some EQ
        else if String.eqb name0 "CEA" && (columns <=? 6) then Some CEA
        else if String.eqb name0 "EQ Template"
        then if 10 <=? columns then Some starteam else Some EQ
        else None).
Proof.
  intros Hsample. unfold identify_template_type.
  rewrite sheet0_first. cbn [bind]. rewrite Hsample. cbn [bind].
  unfold approval_by_content, questionnaire_marker.
  repeat case_match; reflexivity.
Qed.

End ClassifierRules.

(** X1. The classifier looks at the first sheet only, and there at the
    title, at the extents cut off at 19 rows and 14 columns, and at the
    cells of rows 1 to 19 and columns 1 to 14: two workbooks that agree on
    these are classified alike, whatever else they hold. *)
Theorem classifier_reads_its_window (workbook1 workbook2 : Workbook) :
  title (first_sheet workbook1) = title (first_sheet workbook2) ->
  Z.min 19 (max_row (first_sheet workbook1))
  = Z.min 19 (max_row (first_sheet workbook2)) ->
  Z.min 14 (max_column (first_sheet workbook1))
  = Z.min 14 (max_column (first_sheet workbook2)) ->
  (forall r c, 1 <= r <= 19 -> 1 <= c <= 14 ->
               value_at (first_sheet workbook1) r c
               = value_at (first_sheet workbook2) r c) ->
  identify_template_type workbook1 = identify_template_type workbook2.
Proof.
  intros Htitle Hrows Hcols Hwindow.
  pose proof (sample_text_window _ _ Hrows Hcols Hwindow) as Hsample.
  destruct (sample_text_total (first_sheet workbook1)) as [sample H1].
  assert (H2 : sample_text (first_sheet workbook2) = Ok sample)
    by (by rewrite <- Hsample).
  rewrite (identify_template_type_rules _ _ H1).
  rewrite (identify_template_type_rules _ _ H2).
  rewrite Htitle.
  assert (Hle : (max_column (first_sheet workbook1) <=? 6)
                = (max_column (first_sheet workbook2) <=? 6)).
  { destruct (Z.leb_spec (max_column (first_sheet workbook1)) 6),
      (Z.leb_spec (max_column (first_sheet workbook2)) 6); lia || done. }
  assert (Hge : (10 <=? max_column (first_sheet workbook1))
                = (10 <=? max_column (first_sheet workbook2))).
  { destruct (Z.leb_spec 10 (max_column (first_sheet workbook1))),
      (Z.leb_spec 10 (max_column (first_sheet workbook2))); lia || done. }
  cbv zeta. by rewrite Hle, Hge.
Qed.

(** X1 on two sheets that differ in rows 20 and 25. *)
Lemma classifier_reads_its_window_witness :
  identify_template_type request_workbook
  = identify_template_type request_workbook_far.
Proof.
  apply classifier_reads_its_window.
  - reflexivity.
  - vm_compute. reflexivity.
  - vm_compute. reflexivity.
  - intros r c Hr Hc. unfold value_at, request_workbook,
      request_workbook_far, sheet_of. cbn [first_sheet _cells list_to_map
      foldr uncurry fst snd].
    repeat (rewrite lookup_insert; case_decide; simplify_eq; try lia);
      reflexivity.
Defined.

(** X2. A workbook whose first sheet is a worksheet is rejected by the
    classifier exactly when the sample has neither questionnaire marker,
    the first sheet is not named ["EQ Template"], and, if it is named
    ["CEA"], the sample lacks one of the two approval-form markers and the
    sheet has more than 6 columns. *)
Theorem classifier_rejects_exactly (workbook : Workbook) :
  identify_template_type workbook = Ok None <->
  exists sample,
    sample_text (first_sheet workbook) = Ok sample
    /\ questionnaire_marker sample = false
    /\ title (first_sheet workbook) <> "EQ Template"
    /\ (title (first_sheet workbook) = "CEA" ->
        contains "CEA" sample
        && contains "Customer Engineering Approval" sample = false
        /\ 6 < max_column (first_sheet workbook)).
Proof.
  destruct (sample_text_total (first_sheet workbook)) as [sample Hsample].
  rewrite (identify_template_type_rules _ _ Hsample).
  cbv zeta. unfold approval_by_content.
  set (name0 := title (first_sheet workbook)).
  set (columns := max_column (first_sheet workbook)).
  split.
  - intros H. exists sample. split; [done|].
    destruct (contains "CEA" sample
              && contains "Customer Engineering Approval" sample) eqn:Ec;
      destruct (String.eqb_spec name0 "CEA") as [En|En];
      destruct (questionnaire_marker sample) eqn:Eq;
      destruct (String.eqb_spec name0 "EQ Template") as [Et|Et];
      destruct (Z.leb_spec columns 6);
      cbn [andb] in H; repeat case_match; simplify_eq;
      repeat split; try done; try lia; try congruence.
  - intros (sample' & Hs' & Hq & Ht & Hcea).
    rewrite Hsample in Hs'. injection Hs' as <-. rewrite Hq.
    destruct (String.eqb_spec name0 "EQ Template") as [Et|_]; [done|].
    destruct (String.eqb_spec name0 "CEA") as [En|_].
    + destruct (Hcea En) as [-> Hcols]. cbn [andb].
      destruct (Z.leb_spec columns 6); [lia|done].
    + by rewrite andb_false_r.
Qed.

(** X3. The questionnaire markers are looked for before the structure of
    the sheet: when the text [EQ] occurs anywhere in the sample, also
    inside a word, and the first content rule does not fire, the workbook
    is a questionnaire whatever the name and the width of its sheet: the
    extended variant when both ["STG Proposal"] and ["Customer Decision"]
    occur, the plain one otherwise. *)
Theorem questionnaire_marker_precedes_structure (workbook : Workbook)
    (sample before after : string) :
  sample_text (first_sheet workbook) = Ok sample ->
  sample = before +:+ "EQ" +:+ after ->
  approval_by_content sample (title (first_sheet workbook)) = false ->
  identify_template_type workbook
  = Ok (Some (if contains "STG Proposal" sample
                 && contains "Customer Decision" sample
              then starteam else EQ)).
Proof.
  intros Hsample Hshape Hrule.
  rewrite (identify_template_type_rules _ _ Hsample). cbv zeta.
  rewrite Hrule. unfold questionnaire_marker.
  assert (contains "EQ" sample = true) as ->
    by (rewrite Hshape; apply contains_app).
  rewrite orb_true_r. by case_match.
Qed.

(** X3 on an approval form of three columns, named ["CEA"], that holds the
    word REQUEST: it is classified as a plain questionnaire. *)
Lemma questionnaire_marker_precedes_structure_witness :
  title (first_sheet request_workbook) = "CEA"
  /\ max_column (first_sheet request_workbook) <= 6
  /\ identify_template_type request_workbook = Ok (Some EQ).
Proof.
  split; [reflexivity|]. split; [vm_compute; discriminate|].
  apply (questionnaire_marker_precedes_structure request_workbook
           request_sample "R"
           (String.substring 3 (String.length request_sample - 3)
              request_sample)).
  - vm_compute. reflexivity.
  - vm_compute. reflexivity.
  - vm_compute. reflexivity.
Defined.

(** An approval form with both of its markers whose sheet was renamed is
    rejected. *)
Example renamed_approval_form_run :
  identify_template_type renamed_workbook = Ok None.
Proof. vm_compute. reflexivity. Qed.

(* ===================================================================== *)
(** * More about the metadata extractor *)
(* ===================================================================== *)

Section MetadataLoops.

Lemma for_each_succeeds {A S} (body : S -> A -> result S) (P : A -> Prop)
    (xs : list A) (acc : S) :
  (forall acc x, P x -> exists acc', body acc x = Ok acc') ->
  Forall P xs ->
  exists r, for_each body xs acc = Ok r.
Proof.
  intros Hbody Hxs. revert acc.
  induction Hxs as [|x xs Hx _ IH]; intros acc; simpl; [eauto|].
  destruct (Hbody acc x Hx) as [acc' ->]. simpl. apply IH.
Qed.

Lemma for_each_invariant {A S} (I : S -> Prop) (body : S -> A -> result S)
    (xs : list A) (acc r : S) :
  (forall acc x acc', body acc x = Ok acc' -> I acc -> I acc') ->
  I acc -> for_each body xs acc = Ok r -> I r.
Proof.
  intros Hbody. revert acc.
  induction xs as [|x xs IH]; intros acc Hacc; simpl.
  - by intros [= <-].
  - destruct (body acc x) as [acc'|e] eqn:E; simpl; [|done].
    apply IH. by eapply Hbody.
Qed.

Ltac split_row H :=
  unfold bind in H;
  repeat (case_match; simplify_eq; try done);
  simplify_eq; try done.

Variable sheet : Worksheet.

Lemma cea_signature_row_succeeds (md : Metadata) (row : Z) :
  1 <= row -> exists md', cea_signature_row sheet md row = Ok md'.
Proof.
  intros Hrow. unfold cea_signature_row.
  rewrite !cell_ok by lia. unfold bind. repeat case_match; eauto.
Qed.

Lemma eq_signature_row_succeeds (md : Metadata) (row : Z) :
  1 <= row -> exists md', eq_signature_row sheet md row = Ok md'.
Proof.
  intros Hrow. unfold eq_signature_row.
  rewrite !cell_ok by lia. unfold bind. repeat case_match; eauto.
Qed.

Lemma starteam_signature_row_succeeds (md : Metadata) (row : Z) :
  1 <= row -> exists md', starteam_signature_row sheet md row = Ok md'.
Proof.
  intros Hrow. unfold starteam_signature_row.
  rewrite !cell_ok by lia. unfold bind. repeat case_match; eauto.
Qed.

Lemma eq_signature_row_raises (md : Metadata) (row : Z) :
  row < 1 -> eq_signature_row sheet md row = Raise ValueError.
Proof.
  intros Hrow. unfold eq_signature_row. by rewrite cell_raise.
Qed.

Lemma starteam_signature_row_raises (md : Metadata) (row : Z) :
  row < 1 -> starteam_signature_row sheet md row = Raise ValueError.
Proof.
  intros Hrow. unfold starteam_signature_row. by rewrite cell_raise.
Qed.

Lemma last_rows_from_below (top : Z) :
  top <= 10 ->
  exists rest, range (top - 10) top = (top - 10) :: rest.
Proof.
  intros _. unfold range. replace (top - (top - 10)) with 10 by lia.
  rewrite seqZ_cons by lia. eauto.
Qed.

(** The rows leave the header and the part numbers alone; those of the
    approval form and of the plain questionnaire leave the fields of the
    extended variant alone as well. *)
Lemma cea_signature_row_frame (md md' : Metadata) (row : Z) :
  cea_signature_row sheet md row = Ok md' ->
  header_fields md' = header_fields md
  /\ extended_fields md' = extended_fields md.
Proof. intros H. unfold cea_signature_row in H. split_row H. Qed.

Lemma eq_signature_row_frame (md md' : Metadata) (row : Z) :
  eq_signature_row sheet md row = Ok md' ->
  header_fields md' = header_fields md
  /\ extended_fields md' = extended_fields md.
Proof. intros H. unfold eq_signature_row in H. split_row H. Qed.

Lemma signature_payload_frame set_date set_signatures text md :
  (forall v md, header_fields (set_date v md) = header_fields md) ->
  (forall v md, header_fields (set_signatures v md) = header_fields md) ->
  header_fields (signature_payload set_date set_signatures text md)
  = header_fields md.
Proof.
  intros Hd Hs. unfold signature_payload.
  repeat case_match; by rewrite ?Hs, ?Hd.
Qed.

Lemma signature_payload_extras set_date set_signatures text md :
  (forall v md, viaPluggingType (set_date v md) = viaPluggingType md
                /\ panelSize (set_date v md) = panelSize md) ->
  (forall v md, viaPluggingType (set_signatures v md) = viaPluggingType md
                /\ panelSize (set_signatures v md) = panelSize md) ->
  viaPluggingType (signature_payload set_date set_signatures text md)
  = viaPluggingType md
  /\ panelSize (signature_payload set_date set_signatures text md)
     = panelSize md.
Proof.
  intros Hd Hs. unfold signature_payload.
  repeat case_match;
    repeat match goal with
           | |- context [set_signatures ?v ?m] =>
               destruct (Hs v m) as [-> ->]
           | |- context [set_date ?v ?m] =>
               destruct (Hd v m) as [-> ->]
           end; done.
Qed.

Lemma starteam_signature_row_frame (md md' : Metadata) (row : Z) :
  starteam_signature_row sheet md row = Ok md' ->
  header_fields md' = header_fields md
  /\ viaPluggingType md' = viaPluggingType md
  /\ panelSize md' = panelSize md.
Proof.
  intros H. unfold starteam_signature_row, bind in H.
  repeat (case_match; simplify_eq; try done);
    (split;
     [rewrite ?signature_payload_frame; done
     |repeat match goal with
             | |- context [signature_payload ?sd ?ss ?t ?m] =>
                 let Hp := fresh in
                 destruct (signature_payload_extras sd ss t m) as [-> ->];
                 [done|done|]
             end; done]).
Qed.

Lemma signature_payload_short set_date set_signatures text md :
  (forall v md, short_lists md -> short_lists (set_date v md)) ->
  (forall v md, short_lists md ->
                (length v <= 1)%nat -> short_lists (set_signatures v md)) ->
  short_lists md ->
  short_lists (signature_payload set_date set_signatures text md).
Proof.
  intros Hd Hs Hmd. unfold signature_payload.
  repeat case_match; try (apply Hs; simpl; [|lia]); try apply Hd; done.
Qed.

End MetadataLoops.

Section MetadataResults.

Variable workbook : Workbook.

Ltac split_row H :=
  unfold bind in H;
  repeat (case_match; simplify_eq; try done);
  simplify_eq; try done.

Lemma short_rows_cea sheet md md' row :
  cea_signature_row sheet md row = Ok md' ->
  short_lists md -> short_lists md'.
Proof.
  intros H [H1 H2]. unfold cea_signature_row in H.
  split_row H; split; simpl; lia.
Qed.

Lemma short_rows_eq sheet md md' row :
  eq_signature_row sheet md row = Ok md' ->
  short_lists md -> short_lists md'.
Proof.
  intros H [H1 H2]. unfold eq_signature_row in H.
  split_row H; split; simpl; lia.
Qed.

Lemma short_rows_starteam sheet md md' row :
  starteam_signature_row sheet md row = Ok md' ->
  short_lists md -> short_lists md'.
Proof.
  intros H Hmd. unfold starteam_signature_row, bind in H.
  repeat (case_match; simplify_eq; try done);
    repeat (apply signature_payload_short;
            [by intros ? ? [? ?]; split
            |by intros ? ? [? ?] ?; split
            |]);
    done.
Qed.

Lemma extract_metadata_scan (template_type : template) :
  extract_metadata workbook template_type
  = let sheet := first_sheet workbook in
    match template_type with
    | CEA =>
        for_each (cea_signature_row sheet)
          (range 15 (Z.min 25 (max_row sheet + 1)))
          (header_metadata workbook CEA)
    | EQ =>
        for_each (eq_signature_row sheet)
          (range (max_row sheet - 10) (max_row sheet))
          (header_metadata workbook EQ)
    | starteam =>
        for_each (starteam_signature_row sheet)
          (range (max_row sheet - 10) (max_row sheet))
          (header_metadata workbook starteam)
    end.
Proof.
  unfold extract_metadata, header_metadata. rewrite sheet0_first.
  cbn [bind]. rewrite !cell_ok by lia. cbn [bind].
  destruct template_type; reflexivity.
Qed.

End MetadataResults.

(** X4. The metadata extractor raises exactly for a plain or extended
    questionnaire whose sheet has at most 10 rows: the scan of the last
    ten rows starts below row 1, and the read of that row raises a
    [ValueError].  For the approval form, and for a questionnaire of 11
    rows or more, it returns a record. *)
Theorem extract_metadata_faults_on_short_sheets (workbook : Workbook)
    (template_type : template) :
  ((exists md, extract_metadata workbook template_type = Ok md) <->
   template_type = CEA \/ 11 <= max_row (first_sheet workbook))
  /\ (extract_metadata workbook template_type = Raise ValueError <->
      template_type <> CEA /\ max_row (first_sheet workbook) <= 10).
Proof.
  rewrite extract_metadata_scan. cbv zeta.
  set (sheet := first_sheet workbook).
  assert (Hcea : exists md,
    for_each (cea_signature_row sheet)
      (range 15 (Z.min 25 (max_row sheet + 1)))
      (header_metadata workbook CEA) = Ok md).
  { apply (for_each_succeeds _ (fun row => 1 <= row)).
    - intros; by apply cea_signature_row_succeeds.
    - apply Forall_forall. intros r Hr%elem_of_range. lia. }
  destruct template_type.
  - destruct Hcea as [md Hmd]. rewrite Hmd.
    split; split; try done; eauto. by intros [? _].
  - destruct (Z.le_gt_cases 11 (max_row sheet)) as [Hlong|Hshort].
    + destruct (for_each_succeeds (eq_signature_row sheet)
                  (fun row => 1 <= row)
                  (range (max_row sheet - 10) (max_row sheet))
                  (header_metadata workbook EQ)) as [md Hmd].
      * intros; by apply eq_signature_row_succeeds.
      * apply Forall_forall. intros r Hr%elem_of_range. lia.
      * rewrite Hmd. split; split; try done; eauto. intros [_ ?]. lia.
    + destruct (last_rows_from_below (max_row sheet)) as [rest ->]; [lia|].
      rewrite (for_each_raise_first _ _ _ _ ValueError)
        by (apply eq_signature_row_raises; lia).
      split; split; try done.
      * by intros [? ?].
      * intros [?|?]; [done|lia].
      * intros _. split; [done|lia].
  - destruct (Z.le_gt_cases 11 (max_row sheet)) as [Hlong|Hshort].
    + destruct (for_each_succeeds (starteam_signature_row sheet)
                  (fun row => 1 <= row)
                  (range (max_row sheet - 10) (max_row sheet))
                  (header_metadata workbook starteam)) as [md Hmd].
      * intros; by apply starteam_signature_row_succeeds.
      * apply Forall_forall. intros r Hr%elem_of_range. lia.
      * rewrite Hmd. split; split; try done; eauto. intros [_ ?]. lia.
    + destruct (last_rows_from_below (max_row sheet)) as [rest ->]; [lia|].
      rewrite (for_each_raise_first _ _ _ _ ValueError)
        by (apply starteam_signature_row_raises; lia).
      split; split; try done.
      * by intros [? ?].
      * intros [?|?]; [done|lia].
      * intros _. split; [done|lia].
Qed.

(** X5. Whatever the template and the signature block, the header fields
    of the metadata are those of their cells: [customerName] is the text
    of row 1 column 3, or empty when that cell is falsy (empty, 0, False);
    [engineerName], [baseMaterial] and [solderMask] are the texts of row 1
    column 5 and row 7 columns 3 and 5, or absent; [createdAt] is the ISO
    form of the date in row 3 column 5, absent when the cell holds no date;
    and [status] is never set. *)
Theorem extract_metadata_header (workbook : Workbook)
    (template_type : template) (md : Metadata) :
  extract_metadata workbook template_type = Ok md ->
  let sheet := first_sheet workbook in
  customerName md
  = (if truthy (value_at sheet 1 3) then str (value_at sheet 1 3) else "")
  /\ engineerName md = optional_text (value_at sheet 1 5)
  /\ baseMaterial md = optional_text (value_at sheet 7 3)
  /\ solderMask md = optional_text (value_at sheet 7 5)
  /\ createdAt md = top_date sheet
  /\ status md = None.
Proof.
  intros H sheet. rewrite extract_metadata_scan in H. cbv zeta in H.
  assert (Hh : header_fields md
               = header_fields (header_metadata workbook template_type)).
  { destruct template_type;
      apply (for_each_preserves header_fields) in H; try done;
      intros ? ? ? Hrow.
    - by apply cea_signature_row_frame in Hrow as [? _].
    - by apply eq_signature_row_frame in Hrow as [? _].
    - by apply starteam_signature_row_frame in Hrow as [? _]. }
  unfold header_fields in Hh. injection Hh as -> -> -> -> -> ->.
  unfold header_metadata, optional_text, top_date. fold sheet.
  destruct template_type; repeat case_match; done.
Qed.

(** X5 on the metadata of [small_workbook]. *)
Lemma extract_metadata_header_witness :
  customerName small_metadata = "ACME"
  /\ engineerName small_metadata = None
  /\ status small_metadata = None.
Proof.
  destruct (extract_metadata_header small_workbook CEA small_metadata)
    as (H1 & H2 & _ & _ & _ & H6).
  - vm_compute. reflexivity.
  - rewrite H1, H2, H6. vm_compute. done.
Defined.

(** X6. The fields of the extended variant stay out of the two other
    templates: for the approval form and the plain questionnaire
    [viaPluggingType], [panelSize] and [stgSignatureDate] are absent and
    [stgSignatures] is empty, whatever the sheet holds.  For the extended
    variant [viaPluggingType] and [panelSize] are the texts of row 8
    columns 3 and 5, or absent. *)
Theorem extract_metadata_extended_fields (workbook : Workbook)
    (template_type : template) (md : Metadata) :
  extract_metadata workbook template_type = Ok md ->
  let sheet := first_sheet workbook in
  match template_type with
  | starteam =>
      viaPluggingType md = optional_text (value_at sheet 8 3)
      /\ panelSize md = optional_text (value_at sheet 8 5)
  | _ =>
      viaPluggingType md = None /\ panelSize md = None
      /\ stgSignatureDate md = None /\ stgSignatures md = []
  end.
Proof.
  intros H sheet. rewrite extract_metadata_scan in H. cbv zeta in H.
  destruct template_type.
  - apply (for_each_preserves extended_fields) in H.
    + unfold extended_fields in H. injection H as -> -> -> ->.
      unfold header_metadata. repeat case_match; done.
    + intros ? ? ? Hrow. by apply cea_signature_row_frame in Hrow as [_ ?].
  - apply (for_each_preserves extended_fields) in H.
    + unfold extended_fields in H. injection H as -> -> -> ->.
      unfold header_metadata. repeat case_match; done.
    + intros ? ? ? Hrow. by apply eq_signature_row_frame in Hrow as [_ ?].
  - apply (for_each_preserves
             (fun md => (viaPluggingType md, panelSize md))) in H.
    + injection H as -> ->.
      unfold header_metadata, optional_text. fold sheet.
      repeat case_match; done.
    + intros ? ? ? Hrow.
      apply starteam_signature_row_frame in Hrow as (_ & -> & ->). done.
Qed.

(** X6 on the extended sheet [signature_workbook]. *)
Lemma extract_metadata_extended_fields_witness :
  viaPluggingType signature_metadata = None
  /\ panelSize signature_metadata = None.
Proof.
  destruct (extract_metadata_extended_fields signature_workbook starteam
              signature_metadata) as [H1 H2].
  - vm_compute. reflexivity.
  - rewrite H1, H2. vm_compute. done.
Defined.

(** X7. Each of the two signature lists of the metadata is empty or has
    exactly one element: a signature cell is stored as one text, with the
    line breaks it has, and a later signature replaces an earlier one. *)
Theorem extract_metadata_signature_lists (workbook : Workbook)
    (template_type : template) (md : Metadata) :
  extract_metadata workbook template_type = Ok md ->
  (length (stgSignatures md) <= 1)%nat
  /\ (length (customerSignatures md) <= 1)%nat.
Proof.
  intros H. rewrite extract_metadata_scan in H. cbv zeta in H.
  assert (Hstart : short_lists (header_metadata workbook template_type)).
  { unfold header_metadata, short_lists.
    destruct template_type; repeat case_match; simpl; lia. }
  destruct template_type;
    apply (for_each_invariant short_lists) in H; try done;
    intros ? ? ?.
  - apply short_rows_cea.
  - apply short_rows_eq.
  - apply short_rows_starteam.
Qed.

(** X7 on [signature_workbook]. *)
Lemma extract_metadata_signature_lists_witness :
  (length (stgSignatures signature_metadata) <= 1)%nat
  /\ (length (customerSignatures signature_metadata) <= 1)%nat.
Proof.
  apply (extract_metadata_signature_lists signature_workbook starteam).
  vm_compute. reflexivity.
Defined.

(* ===================================================================== *)
(** * More about the question table and the documents *)
(* ===================================================================== *)

Section QuestionsAndDocuments.

Lemma question_number_nonempty (v : cell_value) :
  is_question_no v = true -> str v <> "".
Proof.
  destruct v as [|[]|n|nz t|s|t iso]; simpl; try done.
  - intros _. apply nonempty_true, str_int_nonempty.
  - apply isdigit_nonempty.
Qed.

Lemma question_of_row_no (now : string) (sheet : Worksheet)
    (template_type : template) (m : gmap coord (list string)) (r : Z) :
  no (question_of_row now sheet template_type m r) = str (value_at sheet r 1).
Proof. unfold question_of_row. by destruct template_type. Qed.

Lemma map_to_schema_numbers (now : string) (md : Metadata)
    (qs : list Question) (file_name : string) :
  no <$> questions (map_to_schema now md qs file_name) = no <$> qs.
Proof.
  unfold map_to_schema. simpl. rewrite <- list_fmap_compose.
  by apply list_fmap_ext.
Qed.

Lemma map_to_schema_dates (now : string) (md : Metadata)
    (qs : list Question) (file_name : string) :
  question_createdAt <$> questions (map_to_schema now md qs file_name)
  = (fun q => Some (or_now now (question_createdAt q))) <$> qs.
Proof.
  unfold map_to_schema. simpl. rewrite <- list_fmap_compose.
  by apply list_fmap_ext.
Qed.

Lemma fmap_ext_elem {A B} (f g : A -> B) (l : list A) :
  (forall x, x ∈ l -> f x = g x) -> f <$> l = g <$> l.
Proof.
  intros H. apply list_fmap_ext. intros i x Hx. apply H.
  by eapply list_elem_of_lookup_2.
Qed.

Lemma sum_list_zero {A} (f : A -> nat) (l : list A) :
  (forall x, x ∈ l -> f x = 0%nat) -> sum_list (f <$> l) = 0%nat.
Proof.
  induction l as [|x l IH]; intros H; [done|].
  rewrite fmap_cons.
  change (sum_list (f x :: (f <$> l))) with (f x + sum_list (f <$> l))%nat.
  rewrite (H x) by apply list_elem_of_here.
  rewrite IH; [done|]. intros y Hy. apply H. by apply list_elem_of_further.
Qed.

End QuestionsAndDocuments.

(** X8. The question rule of the validator never fires on what the parser
    returns: every question has a [no] that is not empty, so a document
    built from the questions of the parser passes the validation exactly
    when the customer name of its metadata and its file name are not
    empty. *)
Theorem parsed_questions_pass_validation (now : string) (workbook : Workbook)
    (template_type : template) (cell_to_images : gmap coord (list string)) :
  exists qs,
    extract_questions now workbook template_type cell_to_images = Ok qs
    /\ Forall (fun question => no question <> "") qs
    /\ forall (metadata : Metadata) (file_name : string),
        fst (validate_extracted_data
               (map_to_schema now metadata qs file_name)) = true
        <-> customerName metadata <> "" /\ file_name <> "".
Proof.
  eexists. split; [apply extract_questions_spec|].
  set (sheet := first_sheet workbook).
  assert (Hno : Forall (fun question => no question <> "")
            (question_of_row now sheet template_type cell_to_images
             <$> question_rows sheet template_type)).
  { apply Forall_fmap, Forall_forall. intros r Hr. simpl.
    rewrite question_of_row_no. apply question_number_nonempty.
    by apply question_rows_elem in Hr as [_ ?]. }
  split; [exact Hno|]. intros metadata file_name.
  rewrite validate_flag, validate_errors, bool_decide_eq_true.
  rewrite expected_errors_nil, map_to_schema_numbers. simpl. split.
  - by intros (? & ? & _).
  - intros [? ?]. repeat split; try done. by apply Forall_fmap.
Qed.

(** X9. The questions depend on the sheet through its last row, its
    top-date cell and the cells of the scanned rows (row 10 on, row 11 on
    for the extended variant) in the number column and the three text
    columns of the template: two workbooks that agree on these give the
    same questions.  Numbers in the rows above, and the fourth column of
    an extended questionnaire, are not read. *)
Theorem questions_read_their_columns (now : string)
    (workbook1 workbook2 : Workbook) (template_type : template)
    (cell_to_images : gmap coord (list string)) :
  let sheet1 := first_sheet workbook1 in
  let sheet2 := first_sheet workbook2 in
  max_row sheet1 = max_row sheet2 ->
  value_at sheet1 3 5 = value_at sheet2 3 5 ->
  (forall r c,
      start_row template_type < r ->
      c = 1 \/ is_role_column template_type c = true ->
      value_at sheet1 r c = value_at sheet2 r c) ->
  extract_questions now workbook1 template_type cell_to_images
  = extract_questions now workbook2 template_type cell_to_images.
Proof.
  intros sheet1 sheet2 Hrows Hdate Hcells.
  rewrite !extract_questions_spec. fold sheet1 sheet2. f_equal.
  assert (Hscan : scanned_rows sheet1 template_type
                  = scanned_rows sheet2 template_type)
    by (unfold scanned_rows; by rewrite Hrows).
  assert (Hafter : forall r, r ∈ scanned_rows sheet1 template_type ->
                             start_row template_type < r).
  { intros r Hr. unfold scanned_rows in Hr. apply elem_of_range in Hr. lia. }
  assert (Hq : question_rows sheet1 template_type
               = question_rows sheet2 template_type).
  { unfold question_rows. rewrite <- Hscan. apply filter_ext_in.
    intros r Hr%list_elem_of_In. rewrite Hcells; auto. }
  rewrite <- Hq. apply fmap_ext_elem. intros r Hr.
  apply question_rows_elem in Hr as [Hr _]. apply Hafter in Hr.
  unfold question_of_row, top_date. rewrite Hdate.
  unfold is_role_column in Hcells.
  destruct template_type; cbn [question_columns] in *; cbv beta iota in *;
    rewrite !(Hcells r) by (auto || (right; reflexivity)); reflexivity.
Qed.

(** X9 on an extended questionnaire and the same sheet with another text
    in column D of its question row and a number in row 5. *)
Lemma questions_read_their_columns_witness :
  extract_questions "" column_d_workbook starteam ∅
  = extract_questions ""
      (sheet_of "EQ Template"
         [ ((1, 3), VStr "ACME"); ((5, 1), VInt 7); ((11, 1), VInt 1);
           ((11, 4), VStr "other"); ((21, 1), VStr "end") ] [])
      starteam ∅.
Proof.
  apply questions_read_their_columns.
  - vm_compute. reflexivity.
  - vm_compute. reflexivity.
  - intros r c Hr Hc. unfold value_at, column_d_workbook, sheet_of.
    cbn [first_sheet _cells list_to_map foldr uncurry fst snd].
    cbn [start_row] in Hr.
    assert (Hcol : c = 1 \/ c = 2 \/ c = 3 \/ c = 5).
    { destruct Hc as [->|Hc]; [by left|]. right.
      unfold is_role_column in Hc. cbn in Hc.
      repeat (apply orb_prop in Hc as [Hc|Hc]); apply Z.eqb_eq in Hc; lia. }
    repeat (rewrite lookup_insert; case_decide; simplify_eq; try lia);
      reflexivity.
Defined.

(** X10. An image of the map that sits at no text cell of a question row
    is lost to the document: when the coordinate of [x] is not that of
    the description, suggestion or response cell of any question row, [x]
    is in no image list of any question.  So is an image anchored in the
    number column, in a row without a question number, in a row above the
    table, or in column D of the extended variant. *)
Theorem images_off_the_table_are_dropped (now : string) (workbook : Workbook)
    (template_type : template) (output_dir : string) (w w' : World)
    (m : gmap coord (list string)) (c : coord) (x : string) :
  extract_images workbook output_dir w = (w', Ok m) ->
  x ∈ lookup_names m c ->
  (forall r col,
      r ∈ question_rows (first_sheet workbook) template_type ->
      is_role_column template_type col = true ->
      c <> cell_coord (ord_A + col - 1) r) ->
  exists questions,
    extract_questions now workbook template_type m = Ok questions
    /\ total_occurrences x questions = 0%nat.
Proof.
  intros Hrun Hx Hoff.
  apply extract_images_spec in Hrun as [_ Hm]. specialize (Hm m eq_refl).
  eexists. split; [apply extract_questions_spec|].
  unfold total_occurrences. rewrite <- list_fmap_compose.
  apply sum_list_zero. intros r Hr. simpl.
  assert (Hcell : forall col, is_role_column template_type col = true ->
            count_name x (image_infos now (images_at m r col)) = 0%nat).
  { intros col Hcol. rewrite count_name_infos.
    change (images_at m r col)
      with (lookup_names m (cell_coord (ord_A + col - 1) r)).
    rewrite (count_at_coord workbook m Hm x c Hx).
    case_decide as Heq; [|done]. symmetry in Heq. by apply Hoff in Heq. }
  unfold occurrences, question_of_row.
  destruct template_type; cbn [question_columns]; cbv beta iota;
    cbn [descriptionImages suggestionImages customerResponseImages];
    rewrite !Hcell by reflexivity; reflexivity.
Qed.

(** X10 on an extended questionnaire with a drawing in column D of its
    question row: the image is saved and in the map, and in no question. *)
Lemma images_off_the_table_are_dropped_witness :
  exists w' m questions,
    extract_images column_d_workbook "processed_data/odd" empty_world
    = (w', Ok m)
    /\ "image_1.png" ∈ lookup_names m (cell_coord (ord_A + 3) 11)
    /\ extract_questions "" column_d_workbook starteam m = Ok questions
    /\ total_occurrences "image_1.png" questions = 0%nat.
Proof.
  destruct (extract_images column_d_workbook "processed_data/odd" empty_world)
    as [w' r] eqn:Hrun.
  assert (exists m, r = Ok m) as [m ->].
  { vm_compute in Hrun. injection Hrun as _ <-. eauto. }
  assert (Hx : "image_1.png" ∈ lookup_names m (cell_coord (ord_A + 3) 11)).
  { pose proof (extract_images_spec _ _ _ _ _ Hrun) as [_ Hm].
    rewrite (Hm m eq_refl). vm_compute. apply list_elem_of_here. }
  destruct (images_off_the_table_are_dropped "" column_d_workbook starteam
              "processed_data/odd" empty_world w' m
              (cell_coord (ord_A + 3) 11) "image_1.png" Hrun Hx)
    as (questions & Hq & Htotal).
  - intros r col _ Hcol. unfold is_role_column in Hcol. cbn in Hcol.
    unfold cell_coord, ord_A. intros [= Hc _].
    repeat (apply orb_prop in Hcol as [Hcol|Hcol]);
      apply Z.eqb_eq in Hcol; lia.
  - exists w', m, questions. done.
Defined.

Section CreatedDates.

Variable workbook : Workbook.
Variable template_type : template.

Lemma extract_metadata_createdAt (md : Metadata) :
  extract_metadata workbook template_type = Ok md ->
  createdAt md = top_date (first_sheet workbook).
Proof.
  intros H. rewrite extract_metadata_scan in H. cbv zeta in H.
  assert (Hh : header_fields md
               = header_fields (header_metadata workbook template_type)).
  { destruct template_type;
      apply (for_each_preserves header_fields) in H; try done;
      intros ? ? ? Hrow.
    - by apply cea_signature_row_frame in Hrow as [? _].
    - by apply eq_signature_row_frame in Hrow as [? _].
    - by apply starteam_signature_row_frame in Hrow as [? _]. }
  unfold header_fields in Hh. injection Hh as _ _ _ _ -> _.
  unfold header_metadata, top_date.
  destruct template_type; repeat case_match; done.
Qed.

End CreatedDates.

(** X11. When row 3 column 5 of the first sheet holds a date, the
    document and each of its questions carry that date, in ISO form, as
    [createdAt]: the time of the run is not used for them. *)
Theorem document_dates_follow_the_top_date (now : string)
    (workbook : Workbook) (template_type : template)
    (cell_to_images : gmap coord (list string)) (md : Metadata)
    (qs : list Question) (file_name text iso : string) :
  value_at (first_sheet workbook) 3 5 = VDate text iso ->
  iso <> "" ->
  extract_metadata workbook template_type = Ok md ->
  extract_questions now workbook template_type cell_to_images = Ok qs ->
  let eq_data := map_to_schema now md qs file_name in
  createdAt (fields eq_data) = Some iso
  /\ Forall (fun question => question_createdAt question = Some iso)
       (questions eq_data).
Proof.
  intros Hdate Hiso Hmd Hqs eq_data.
  assert (Htop : top_date (first_sheet workbook) = Some iso)
    by (unfold top_date; by rewrite Hdate).
  assert (Hnow : or_now now (Some iso) = iso).
  { unfold or_now. destruct iso; [done|reflexivity]. }
  split.
  - unfold eq_data, map_to_schema. cbn [fields createdAt].
    by rewrite (extract_metadata_createdAt _ _ _ Hmd), Htop, Hnow.
  - rewrite extract_questions_spec in Hqs. injection Hqs as <-.
    unfold eq_data, map_to_schema. cbn [questions].
    rewrite <- list_fmap_compose. apply Forall_fmap, Forall_forall.
    intros r _. simpl. unfold question_of_row.
    destruct template_type; cbn [question_columns question_createdAt];
      by rewrite Htop, Hnow.
Qed.

(** X11 on a dated approval form with two questions. *)
Lemma document_dates_follow_the_top_date_witness :
  exists qs,
    extract_questions "2024-06-01T09:00:00" dated_workbook CEA ∅ = Ok qs
    /\ let eq_data :=
         map_to_schema "2024-06-01T09:00:00" dated_metadata qs "a.xlsx" in
       createdAt (fields eq_data) = Some "2024-03-15T00:00:00"
       /\ Forall (fun question =>
                    question_createdAt question = Some "2024-03-15T00:00:00")
            (questions eq_data).
Proof.
  eexists. split; [vm_compute; reflexivity|].
  apply (document_dates_follow_the_top_date "2024-06-01T09:00:00"
           dated_workbook CEA ∅ dated_metadata _ "a.xlsx"
           "2024-03-15 00:00:00" "2024-03-15T00:00:00").
  - vm_compute. reflexivity.
  - discriminate.
  - vm_compute. reflexivity.
  - vm_compute. reflexivity.
Defined.

(* ===================================================================== *)
(** * The image files, the driver and the batch *)
(* ===================================================================== *)

Section ImageFiles.

Variable images_dir : string.

Lemma image_path_inj (m n : Z) :
  image_path images_dir m = image_path images_dir n -> m = n.
Proof.
  unfold image_path. intros H.
  apply path_join_inj in H; try apply image_filename_relative.
  by apply image_filename_inj.
Qed.

Lemma image_files_from_refl (k : Z) (w : World) :
  image_files_from images_dir k w w.
Proof. by split. Qed.

Lemma image_files_from_trans (k k1 : Z) (w w1 w2 : World) :
  k <= k1 ->
  image_files_from images_dir k w w1 ->
  image_files_from images_dir k1 w1 w2 ->
  image_files_from images_dir k w w2.
Proof.
  intros Hk [Hd1 Hf1] [Hd2 Hf2]. split; [congruence|].
  intros p Hp. rewrite Hf2, Hf1; [done|done|].
  intros n Hn. apply Hp. lia.
Qed.

Lemma images_stored_later (k k1 : Z) (ds : list Drawing) (w w' : World) :
  k + Z.of_nat (length (numbered k ds)) <= k1 ->
  images_stored images_dir (numbered k ds) w ->
  image_files_from images_dir k1 w w' ->
  images_stored images_dir (numbered k ds) w'.
Proof.
  intros Hk Hs [_ Hf] n d data Hnd Hpng.
  rewrite Hf; [by eapply Hs|].
  intros n' Hn' E. apply image_path_inj in E. subst n'.
  assert (Hn : n ∈ fst <$> numbered k ds)
    by (apply list_elem_of_fmap; by exists (n, d)).
  rewrite numbered_fst in Hn. apply elem_of_seqZ in Hn. lia.
Qed.

Lemma extract_image_files (m : gmap coord (list string)) (k : Z) (d : Drawing)
    (w w' : World) (r : result (gmap coord (list string) * Z)) :
  extract_image images_dir (m, k) d w = (w', r) ->
  image_files_from images_dir k w w'
  /\ forall st, r = Ok st -> images_stored images_dir (numbered k [d]) w'.
Proof.
  unfold extract_image, images_stored. simpl.
  destruct (anchor_from d) as [[col row0]|] eqn:Ea; simpl.
  - unfold bindM, lift, try_except, write_file, ret.
    destruct (chr (ord_A + col)) as [letter|e] eqn:Ec.
    + destruct (png d) as [data|] eqn:Ep; simpl.
      * intros [= <- <-]. split.
        -- split; [done|]. intros p Hp. cbn [files].
           apply lookup_insert_ne. intros E. by apply (Hp k); [lia|].
        -- intros st _ n d' data' [Heq|H]%elem_of_cons;
             [|by apply elem_of_nil in H].
           injection Heq as -> ->. rewrite Ep. intros [= <-].
           cbn [files]. apply lookup_insert_eq.
      * intros [= <- <-]. split; [apply image_files_from_refl|].
        intros st _ n d' data' [Heq|H]%elem_of_cons;
          [|by apply elem_of_nil in H].
        injection Heq as -> ->. by rewrite Ep.
    + intros [= <- <-]. split; [apply image_files_from_refl|done].
  - unfold ret. intros [= <- <-]. split; [apply image_files_from_refl|].
    intros st _ n d' data' H. by apply elem_of_nil in H.
Qed.

Lemma images_stored_app (l1 l2 : list (Z * Drawing)) (w : World) :
  images_stored images_dir l1 w -> images_stored images_dir l2 w ->
  images_stored images_dir (l1 ++ l2) w.
Proof.
  intros H1 H2 n d data [H|H]%elem_of_app; [by apply H1|by apply H2].
Qed.

Lemma extract_image_loop_files (ds : list Drawing)
    (m : gmap coord (list string)) (k : Z) (w w' : World)
    (r : result (gmap coord (list string) * Z)) :
  for_eachM (extract_image images_dir) ds (m, k) w = (w', r) ->
  image_files_from images_dir k w w'
  /\ forall st, r = Ok st -> images_stored images_dir (numbered k ds) w'.
Proof.
  revert m k w. induction ds as [|d ds IH]; intros m k w; cbn [for_eachM].
  - unfold ret. intros [= <- <-]. split; [apply image_files_from_refl|].
    intros st _ n d data H. by apply elem_of_nil in H.
  - unfold bindM at 1.
    destruct (extract_image images_dir (m, k) d w) as [w1 [[m1 k1]|e]] eqn:E1.
    + pose proof (extract_image_spec _ _ _ _ _ _ _ E1) as [_ Hst1].
      destruct (Hst1 _ eq_refl) as [Hk1 _]. cbn [snd] in Hk1.
      apply extract_image_files in E1 as [Hf1 Hs1].
      intros H. apply IH in H as [Hf Hs]. split.
      * eapply image_files_from_trans; [|exact Hf1|exact Hf]. lia.
      * intros st Hr. change (d :: ds) with ([d] ++ ds).
        rewrite numbered_app, <- Hk1. apply images_stored_app.
        -- eapply images_stored_later; [|by apply (Hs1 _ eq_refl)|exact Hf].
           lia.
        -- by apply (Hs st).
    + apply extract_image_files in E1 as [Hf1 _].
      intros [= <- <-]. by split.
Qed.

Variable workbook : Workbook.

Lemma extract_sheets_files (names : list string)
    (m : gmap coord (list string)) (k : Z) (w w' : World)
    (r : result (gmap coord (list string) * Z)) :
  for_eachM (extract_sheet_images workbook images_dir) names (m, k) w
  = (w', r) ->
  image_files_from images_dir k w w'
  /\ forall st, r = Ok st ->
       images_stored images_dir
         (numbered k (concat (drawings_of workbook <$> names))) w'.
Proof.
  revert m k w. induction names as [|sheet_name names IH]; intros m k w;
    cbn [for_eachM]; rewrite ?fmap_cons; cbn [concat].
  - unfold ret. intros [= <- <-]. split; [apply image_files_from_refl|].
    intros st _ n d data H. by apply elem_of_nil in H.
  - unfold bindM at 1. unfold extract_sheet_images at 1.
    unfold bindM at 1, lift. unfold drawings_of at 1.
    destruct (getitem workbook sheet_name) as [sheet|e] eqn:Eg.
    + destruct (for_eachM (extract_image images_dir) (_images sheet) (m, k) w)
        as [w1 [[m1 k1]|e]] eqn:E1.
      * pose proof (extract_image_loop_spec _ _ _ _ _ _ _ E1) as [_ Hst1].
        destruct (Hst1 _ eq_refl) as [Hk1 _]. cbn [snd] in Hk1.
        apply extract_image_loop_files in E1 as [Hf1 Hs1].
        intros H. apply IH in H as [Hf Hs]. split.
        -- eapply image_files_from_trans; [|exact Hf1|exact Hf]. lia.
        -- intros st Hr. rewrite numbered_app, <- Hk1.
           apply images_stored_app.
           ++ eapply images_stored_later;
                [|by apply (Hs1 _ eq_refl)|exact Hf]. lia.
           ++ by apply (Hs st).
      * apply extract_image_loop_files in E1 as [Hf1 _].
        intros [= <- <-]. by split.
    + intros [= <- <-]. split; [apply image_files_from_refl|done].
Qed.

End ImageFiles.

Lemma extract_images_files (workbook : Workbook) (output_dir : string)
    (w w' : World) (r : result (gmap coord (list string))) :
  extract_images workbook output_dir w = (w', r) ->
  let images_dir := path_join output_dir "images" in
  dirs w' = {[images_dir]} ∪ dirs w
  /\ (forall p, (forall n, p <> image_path images_dir n) ->
                files w' !! p = files w !! p)
  /\ forall m, r = Ok m ->
       images_stored images_dir (numbered 1 (visited_drawings workbook)) w'.
Proof.
  unfold extract_images, bindM, makedirs.
  match goal with |- context [for_eachM ?f ?l ?st ?w0] =>
    destruct (for_eachM f l st w0) as [w1 [[m1 k1]|e]] eqn:E end;
    apply extract_sheets_files in E as [[Hd Hf] Hs];
    unfold ret; intros [= <- <-]; cbv zeta;
    (split; [exact Hd|]); (split; [|]).
  - intros p Hp. rewrite Hf; [done|]. intros n _. apply Hp.
  - intros m _. by apply (Hs _ eq_refl).
  - intros p Hp. rewrite Hf; [done|]. intros n _. apply Hp.
  - done.
Qed.

(** X12. The names of the image map are backed by files: a name of the
    map at a coordinate is [image_<n>.png] of a drawing anchored there,
    and the file of that name in the images directory holds the PNG of the
    drawing.  The extractor makes the images directory, and changes no
    file that is not an image file of it. *)
Theorem image_names_have_their_files (workbook : Workbook)
    (output_dir : string) (w w' : World) (m : gmap coord (list string)) :
  extract_images workbook output_dir w = (w', Ok m) ->
  let images_dir := path_join output_dir "images" in
  (forall c x,
      x ∈ lookup_names m c ->
      exists n d data,
        x = image_filename n
        /\ (n, d) ∈ numbered 1 (visited_drawings workbook)
        /\ coord_of d = Some c
        /\ png d = Some data
        /\ files w' !! path_join images_dir x = Some (Bytes data))
  /\ (forall p, (forall n, p <> image_path images_dir n) ->
                files w' !! p = files w !! p)
  /\ dirs w' = {[images_dir]} ∪ dirs w.
Proof.
  intros Hrun images_dir.
  pose proof (extract_images_spec _ _ _ _ _ Hrun) as [_ Hm].
  specialize (Hm m eq_refl).
  apply extract_images_files in Hrun as (Hd & Hf & Hs).
  specialize (Hs m eq_refl). split; [|by split].
  intros c x Hx. rewrite Hm in Hx.
  apply list_elem_of_fmap in Hx as (n & -> & Hn).
  apply saved_at_elem in Hn as (d & Hnd & Hc & Hdec).
  unfold decodes in Hdec. destruct (png d) as [data|] eqn:Ep; [|done].
  exists n, d, data. repeat split; try done.
  by apply (Hs n d data).
Qed.

(** X12 on [image_workbook]: the image at B11 and its file. *)
Lemma image_names_have_their_files_witness :
  exists w' m,
    extract_images image_workbook "processed_data/odd" empty_world
    = (w', Ok m)
    /\ "image_2.png" ∈ lookup_names m (cell_coord 66 11)
    /\ files w' !! "processed_data/odd/images/image_2.png" = Some (Bytes [])
    /\ files w' !! "raw_data/odd.xlsx" = None.
Proof.
  destruct (extract_images image_workbook "processed_data/odd" empty_world)
    as [w' r] eqn:Hrun.
  assert (exists m, r = Ok m) as [m ->].
  { vm_compute in Hrun. injection Hrun as _ <-. eauto. }
  assert (Hx : "image_2.png" ∈ lookup_names m (cell_coord 66 11)).
  { pose proof (extract_images_spec _ _ _ _ _ Hrun) as [_ Hm].
    rewrite (Hm m eq_refl). vm_compute. apply list_elem_of_here. }
  destruct (image_names_have_their_files image_workbook "processed_data/odd"
              empty_world w' m Hrun) as (Hnames & Hframe & _).
  exists w', m. split; [done|]. split; [done|]. split.
  - destruct (Hnames _ _ Hx) as (n & d & data & Hn & Hnd & _ & Hp & Hfile).
    change (path_join (path_join "processed_data/odd" "images") "image_2.png")
      with "processed_data/odd/images/image_2.png" in Hfile.
    rewrite Hfile. vm_compute in Hnd.
    apply (image_filename_inj 2 n) in Hn. subst n.
    repeat (apply elem_of_cons in Hnd as [Hnd|Hnd];
            [simplify_eq; simpl in Hp; congruence|]).
    by apply elem_of_nil in Hnd.
  - rewrite Hframe; [done|]. intros n Hn. vm_compute in Hn.
    discriminate.
Defined.

Section DriverFrames.

Variable now : string.
Variable parse_workbook : content -> result Workbook.
Variable copy_error : copy_oracle.
Variables file_path output_dir outlier_dir : string.


Lemma process_excel_file_cases (w : World) :
  process_excel_file now parse_workbook copy_error file_path output_dir
    outlier_dir w
  = match load_workbook parse_workbook file_path w with
    | (_, Raise _) => (w, Ok (false, false))
    | (_, Ok workbook) =>
        match identify_template_type workbook with
        | Raise _ => (w, Ok (false, false))
        | Ok None =>
            match handle_outlier_file now copy_error file_path
                outlier_dir w with
            | (w', Ok success) => (w', Ok (success, true))
            | (w', Raise _) => (w', Ok (false, false))
            end
        | Ok (Some template_type) =>
            match extract_document now file_path output_dir workbook
                    template_type w with
            | (w1, Raise _) => (w1, Ok (false, false))
            | (w1, Ok eq_data) =>
                if fst (validate_extracted_data eq_data)
                then match publish copy_error file_path
                    output_dir eq_data w1 with
                     | (w2, Ok r) => (w2, Ok r)
                     | (w2, Raise _) => (w2, Ok (false, false))
                     end
                else (w1, Ok (false, false))
            end
        end
    end.
Proof.
  destruct (load_workbook parse_workbook file_path w) as [w0 [workbook|e]]
    eqn:Hload.
  - pose proof (load_workbook_world _ _ _ _ _ Hload) as ->.
    destruct (load_workbook_inv _ _ _ _ _ Hload) as (c & Hc & Hp).
    destruct (identify_template_type workbook) as [[template_type|]|e]
      eqn:Hid.
    + by apply (process_recognised now parse_workbook copy_error file_path
                  output_dir
                  outlier_dir w c workbook template_type).
    + unfold process_excel_file, try_except. unfold bindM at 1.
      rewrite Hload. unfold bindM at 1. unfold lift at 1. rewrite Hid.
      unfold bindM, ret.
      by destruct (handle_outlier_file now copy_error file_path outlier_dir w)
        as [w' [b|e]].
    + unfold process_excel_file, try_except. unfold bindM at 1.
      rewrite Hload. unfold bindM at 1. unfold lift at 1. by rewrite Hid.
  - pose proof (load_workbook_world _ _ _ _ _ Hload) as ->.
    unfold process_excel_file, try_except. unfold bindM at 1.
    by rewrite Hload.
Qed.



Lemma extract_document_result (w w1 : World) (workbook : Workbook)
    (template_type : template) (eq_data : Document) :
  extract_document now file_path output_dir workbook template_type w
  = (w1, Ok eq_data) ->
  exists md m w0,
    extract_metadata workbook template_type = Ok md
    /\ extract_images workbook (file_output_dir output_dir file_path) w0
       = (w1, Ok m)
    /\ eq_data
       = map_to_schema now md
           (question_of_row now (first_sheet workbook) template_type m
            <$> question_rows (first_sheet workbook) template_type)
           (basename file_path).
Proof.
  unfold extract_document.
  set (fod := file_output_dir output_dir file_path).
  unfold bindM at 1. unfold makedirs at 1.
  unfold bindM at 1. unfold lift at 1.
  destruct (extract_metadata workbook template_type) as [md|e]; [|done].
  unfold bindM at 1.
  match goal with |- context [extract_images workbook fod ?w0] =>
    destruct (extract_images workbook fod w0) as [w' [m|e]] eqn:Ei end;
    [|done].
  unfold bindM, lift, ret. rewrite extract_questions_spec.
  intros [= <- <-]. by eexists md, m, _.
Qed.

Lemma publish_frame (eq_data : Document) (w1 : World) :
  exists w2,
    publish copy_error file_path output_dir eq_data w1 = (w2, Ok (true, false))
    /\ dirs w2 = dirs w1
    /\ files w2 !! index_json output_dir file_path = Some (Json eq_data)
    /\ forall p,
        p <> index_json output_dir file_path ->
        p <> path_join (file_output_dir output_dir file_path) "index.xlsx" ->
        files w2 !! p = files w1 !! p.
Proof.
  unfold publish, index_json.
  set (fod := file_output_dir output_dir file_path).
  unfold bindM at 1. unfold write_file at 1.
  unfold bindM at 1. unfold try_except, copy2, bindM, read_file.
  cbn [files].
  match goal with |- context [?fs !! file_path] =>
    destruct (fs !! file_path) as [c|] eqn:Ec end.
  - destruct (String.eqb file_path (path_join fod "index.xlsx")) eqn:Ex.
    + unfold lift, ret. eexists. split; [reflexivity|].
      cbn [dirs files]. split; [done|].
      split; [by rewrite lookup_insert_eq|].
      intros p H1 _. by rewrite lookup_insert_ne.
    + match goal with |- context [copy_error ?w0 ?src ?dst] =>
        destruct (copy_error w0 src dst) end.
      * unfold ret. eexists. split; [reflexivity|].
        cbn [dirs files]. split; [done|].
        split; [by rewrite lookup_insert_eq|].
        intros p H1 _. by rewrite lookup_insert_ne.
      * unfold write_file, ret. eexists. split; [reflexivity|].
        cbn [dirs files]. split; [done|]. split.
        -- rewrite lookup_insert_ne by apply index_json_not_xlsx.
           by rewrite lookup_insert_eq.
        -- intros p H1 H2. by rewrite !lookup_insert_ne.
  - unfold ret. eexists. split; [reflexivity|].
    cbn [dirs files]. split; [done|].
    split; [by rewrite lookup_insert_eq|].
    intros p H1 _. by rewrite lookup_insert_ne.
Qed.


End DriverFrames.


Section Documents.

Variable now : string.

Lemma question_of_row_images (sheet : Worksheet) (template_type : template)
    (m : gmap coord (list string)) (r : Z) (image : FileRef) :
  image ∈ question_images (question_of_row now sheet template_type m r) ->
  exists c x,
    x ∈ lookup_names m c /\ uploadUrl image = path_join "images" x.
Proof.
  unfold question_images, question_of_row.
  destruct template_type; cbn [question_columns]; cbv beta iota;
    cbn [descriptionImages suggestionImages customerResponseImages];
    rewrite !elem_of_app; unfold image_infos;
    intros [H|[H|H]]; apply list_elem_of_fmap in H as (x & -> & Hx);
    eexists _, x; (split; [exact Hx|reflexivity]).
Qed.

Lemma map_to_schema_images (md : Metadata) (qs : list Question)
    (file_name : string) (question : Question) :
  question ∈ questions (map_to_schema now md qs file_name) ->
  exists q0, q0 ∈ qs /\ question_images question = question_images q0.
Proof.
  unfold map_to_schema. cbn [questions].
  intros (q0 & -> & H0)%list_elem_of_fmap. by exists q0.
Qed.

Lemma upload_path (a x : string) :
  startswith slash x = false ->
  path_join a (path_join "images" x) = path_join (path_join a "images") x.
Proof.
  intros Hx. rewrite dir_prefix_images by done.
  assert (path_join "images" x = "images/" +:+ x) as ->.
  { unfold path_join. by rewrite Hx. }
  by rewrite path_join_relative.
Qed.

Lemma validation_passes (eq_data : Document) :
  fst (validate_extracted_data eq_data) = true <->
  customerName (fields eq_data) <> "" /\ fileName eq_data <> ""
  /\ Forall (fun number => number <> "") (no <$> questions eq_data).
Proof.
  rewrite validate_flag, validate_errors, bool_decide_eq_true.
  apply expected_errors_nil.
Qed.

End Documents.

Section ProcessedFiles.

Variable now : string.
Variable parse_workbook : content -> result Workbook.
Variable copy_error : copy_oracle.
Variables output_dir outlier_dir : string.

(** What a file that was processed as a template leaves behind. *)
Lemma processed_file (file_path : string) (w w' : World) :
  process_excel_file now parse_workbook copy_error file_path output_dir
    outlier_dir w
  = (w', Ok (true, false)) ->
  exists eq_data,
    files w' !! index_json output_dir file_path = Some (Json eq_data)
    /\ fileName eq_data = basename file_path
    /\ fst (validate_extracted_data eq_data) = true
    /\ status (fields eq_data) = Some "Closed"
    /\ forall question image,
        question ∈ questions eq_data ->
        image ∈ question_images question ->
        exists data,
          files w' !! path_join (file_output_dir output_dir file_path)
                        (uploadUrl image)
          = Some (Bytes data).
Proof.
  rewrite process_excel_file_cases.
  destruct (load_workbook parse_workbook file_path w) as [w0 [workbook|e]];
    [|done].
  destruct (identify_template_type workbook) as [[template_type|]|e];
    [| |done].
  2: { by destruct (handle_outlier_file now copy_error file_path outlier_dir w)
         as [? [?|?]]. }
  destruct (extract_document now file_path output_dir workbook
              template_type w) as [w1 [eq_data|e]] eqn:Hdoc; [|done].
  destruct (fst (validate_extracted_data eq_data)) eqn:Hvalid; [|done].
  destruct (publish_frame copy_error file_path output_dir eq_data w1)
    as (w2 & -> & _ & Hindex & Hframe).
  intros [= <-]. exists eq_data. split; [done|].
  apply extract_document_result in Hdoc as (md & m & w0' & _ & Himg & ->).
  split; [done|]. split; [done|]. split; [done|].
  intros question image Hq Himage.
  apply map_to_schema_images in Hq as (q0 & Hq0 & E). rewrite E in Himage.
  apply list_elem_of_fmap in Hq0 as (r & -> & _).
  apply question_of_row_images in Himage as (c & x & Hx & ->).
  pose proof (extract_images_spec _ _ _ _ _ Himg) as [_ Hm].
  apply extract_images_files in Himg as (_ & _ & Hs).
  specialize (Hs m eq_refl). rewrite (Hm m eq_refl) in Hx.
  apply list_elem_of_fmap in Hx as (n & -> & Hn).
  apply saved_at_elem in Hn as (d & Hnd & _ & Hdec).
  unfold decodes in Hdec. destruct (png d) as [data|] eqn:Ep; [|done].
  exists data. rewrite upload_path by apply image_filename_relative.
  rewrite Hframe; [by apply (Hs n d data)|..].
  - apply image_path_not_index.
  - rewrite dir_prefix_images by apply image_filename_relative.
    rewrite (path_join_relative _ "index.xlsx") by done.
    intros H. apply String.app_inj in H. discriminate.
Qed.

End ProcessedFiles.

(** X15. After a file was processed as a template, [index.json] of its
    document directory holds a document that names the file, has a
    customer name, the status Closed and a number for every question, and
    each image that a question of it refers to is a file of the document
    directory, at the path the reference gives. *)
Theorem processed_file_is_complete (now : string)
    (parse_workbook : content -> result Workbook)
    (copy_error : copy_oracle)
    (file_path output_dir outlier_dir : string) (w w' : World) :
  process_excel_file now parse_workbook copy_error file_path output_dir
    outlier_dir w
  = (w', Ok (true, false)) ->
  exists eq_data,
    files w' !! index_json output_dir file_path = Some (Json eq_data)
    /\ fileName eq_data = basename file_path
    /\ basename file_path <> ""
    /\ customerName (fields eq_data) <> ""
    /\ status (fields eq_data) = Some "Closed"
    /\ Forall (fun question => no question <> "") (questions eq_data)
    /\ forall question image,
        question ∈ questions eq_data ->
        image ∈ question_images question ->
        exists data,
          files w' !! path_join (file_output_dir output_dir file_path)
                        (uploadUrl image)
          = Some (Bytes data).
Proof.
  intros Hrun.
  apply processed_file in Hrun
    as (eq_data & Hindex & Hname & Hvalid & Hstatus & Himages).
  apply validation_passes in Hvalid as (Hcustomer & Hfile & Hno).
  apply (proj1 (Forall_fmap no (fun number => number <> "") _)) in Hno.
  exists eq_data. rewrite <- Hname.
  split; [exact Hindex|]. split; [reflexivity|]. split; [exact Hfile|].
  split; [exact Hcustomer|]. split; [exact Hstatus|].
  split; [exact Hno|exact Himages].
Qed.

(** X15 on the run of [image_workbook]. *)
Lemma processed_file_is_complete_witness :
  exists w' eq_data,
    process_excel_file "2024-03-15T10:00:00" (fun _ => Ok image_workbook)
      no_copy_error "raw_data/odd.xlsx" "processed_data" "outlier_files"
      input_world
    = (w', Ok (true, false))
    /\ files w' !! "processed_data/odd/index.json" = Some (Json eq_data)
    /\ fileName eq_data = "odd.xlsx"
    /\ customerName (fields eq_data) <> "".
Proof.
  destruct (process_excel_file "2024-03-15T10:00:00"
              (fun _ => Ok image_workbook) no_copy_error "raw_data/odd.xlsx"
              "processed_data" "outlier_files" input_world)
    as [w' r] eqn:Hrun.
  assert (r = Ok (true, false)) as ->.
  { vm_compute in Hrun. by injection Hrun as _ <-. }
  destruct (processed_file_is_complete _ _ _ _ _ _ _ _ Hrun)
    as (eq_data & Hindex & Hname & _ & Hcustomer & _).
  exists w', eq_data. done.
Defined.

(** X16. Two files whose names agree up to the first dot share a document
    directory: when both are processed, one after the other, the
    [index.json] left there is the document of the second, and that of
    the first is gone. *)
Theorem same_stem_overwrites (now : string)
    (parse_workbook : content -> result Workbook)
    (copy_error : copy_oracle)
    (first second output_dir outlier_dir : string) (w w1 w2 : World) :
  hd "" (split dot (basename first)) = hd "" (split dot (basename second)) ->
  process_excel_file now parse_workbook copy_error first output_dir
    outlier_dir w
  = (w1, Ok (true, false)) ->
  process_excel_file now parse_workbook copy_error second output_dir
    outlier_dir w1
  = (w2, Ok (true, false)) ->
  exists document1 document2,
    files w1 !! index_json output_dir first = Some (Json document1)
    /\ fileName document1 = basename first
    /\ files w2 !! index_json output_dir first = Some (Json document2)
    /\ fileName document2 = basename second.
Proof.
  intros Hstem H1 H2.
  apply processed_file in H1 as (document1 & Hi1 & Hn1 & _).
  apply processed_file in H2 as (document2 & Hi2 & Hn2 & _).
  exists document1, document2. repeat split; try done.
  unfold index_json, file_output_dir in *. by rewrite Hstem.
Qed.

(** X16 on [odd.xlsx] and [odd.v2.xlsx]. *)
Lemma same_stem_overwrites_witness :
  exists w1 w2 document2,
    process_excel_file "2024-03-15T10:00:00" (fun _ => Ok small_workbook)
      no_copy_error "raw_data/odd.xlsx"
      "processed_data" "outlier_files" versions_world
    = (w1, Ok (true, false))
    /\ process_excel_file "2024-03-15T10:00:00" (fun _ => Ok small_workbook)
         no_copy_error "raw_data/odd.v2.xlsx"
         "processed_data" "outlier_files" w1
       = (w2, Ok (true, false))
    /\ files w2 !! "processed_data/odd/index.json" = Some (Json document2)
    /\ fileName document2 = "odd.v2.xlsx".
Proof.
  destruct (process_excel_file "2024-03-15T10:00:00"
              (fun _ => Ok small_workbook) no_copy_error "raw_data/odd.xlsx"
              "processed_data" "outlier_files" versions_world)
    as [w1 r1] eqn:Hrun1.
  assert (r1 = Ok (true, false)) as ->.
  { vm_compute in Hrun1. by injection Hrun1 as _ <-. }
  destruct (process_excel_file "2024-03-15T10:00:00"
              (fun _ => Ok small_workbook) no_copy_error "raw_data/odd.v2.xlsx"
              "processed_data" "outlier_files" w1)
    as [w2 r2] eqn:Hrun2.
  assert (r2 = Ok (true, false)) as ->.
  { pose proof Hrun1 as Hw1. vm_compute in Hw1. injection Hw1 as <-.
    vm_compute in Hrun2. by injection Hrun2 as _ <-. }
  destruct (same_stem_overwrites _ _ _ "raw_data/odd.xlsx"
              "raw_data/odd.v2.xlsx" _ _ _ _ _ eq_refl Hrun1 Hrun2)
    as (_ & document2 & _ & _ & Hindex & Hname).
  exists w1, w2, document2. done.
Defined.

Section BatchLoop.

Variable now : string.
Variable parse_workbook : content -> result Workbook.
Variable copy_error : copy_oracle.
Variables output_dir outlier_dir : string.



End BatchLoop.


(** A batch beside X17: of three names the two spreadsheets are run, and
    both are processed.  The suffix test is that of the program: it
    distinguishes upper and lower case, and accepts a name that is nothing
    but the suffix. *)
Example batch_run :
  snd (main "2024-03-15T10:00:00" (fun _ => Ok small_workbook)
         no_copy_error (fun _ _ => true)
         (fun _ _ => Ok ["odd.xlsx"; "notes.txt"; "odd.v2.xlsx"])
         "raw_data" "processed_data" "outlier_files" versions_world)
  = Ok (Some {| total_files := 2; processed_count := 2; outlier_count := 0;
                failed_count := 0; success_count := 2 |})
  /\ is_excel_name <$> ["a.xls"; ".xlsx"; "a.XLSX"; "a.xlsx.bak"; "xlsx"]
     = [true; true; false; false; false].
Proof. vm_compute. done. Qed.
